(* ===== verification/_CoqProject ===== *)
-Q . S2P
Prelude.v
PyStr.v
Node.v
Parser.v
Lines.v
FileSystem.v
Config.v
Includes.v
SshConfig.v
Scrape.v
Ini.v
Client.v
