(* ===== verification/Prelude.v ===== *)
(** * secinv-client: a verification development of the inventory client

    The program ([src/client/]) is an inventory client, written in Python 2.
    It collects facts about a host and sends them to a server over XML-RPC.
    [client.py] imports [common.py], which reads [settings.conf], and
    [inventory.py], then calls the collectors one after the other:
    - [Interfaces], [System], [Services], [RPMs] and [IPTables]
      ([inventory.py] lines 13-337) scrape the output of shell commands
      and small files;
    - [SSHConfig] ([inventory.py] lines 218-266, copied in
      [sshconfigparser.py]), [PHPConfig] and [MySQLConfig]
      ([inventory.py] lines 391-476) read configuration files: the first
      with the continuation-joining loop that [clean_body] ([common.py])
      also uses, the other two with [clean_body] and the [ConfigParser]
      library;
    - [ApacheConfigList] ([inventory.py] lines 340-388) walks the include
      graph of the Apache configuration, reading each file with
      [ApacheConfig] ([apacheparser.py] lines 137-241), which builds the
      tree of [ApacheNode] ([apacheparser.py] lines 9-134), its directive
      index, virtual-host map, include list and cleaned text.

    ** Files

    - [Prelude] (this file): the Python exceptions as an inductive [exn];
      the result monad [result] ([Ok] or [Raise]) with its [let*] notation
      in [py_scope]; the raising loop [fold_res]; generic lemmas; the hint
      databases [py] and [py_rw]; the tactics [inv] and [bind_ok].
    - [PyStr]: the string methods the code calls, on [String.string]:
      [strip], [split()] ([split_ws]), [split(sep)] ([split_on]),
      [re.split('\s*')] of Python 2 ([re_split_ws]), [' '.join] ([join]),
      [lower], [upper] of one character, and [startswith], with their
      algebra; the Python 2 [print a, b, c] statement with its
      [softspace] rule ([print_stmt]) and the lookup of a global name
      ([lookup_name], [NameError] when unbound).
    - [Node] (Module [ApacheNode]): the node as a record [Node] with a
      [children] list.  [_find] and [_findall] are the Python recursions.
      The path list they [pop(0)] from is ONE object shared by every
      recursive call, so it is threaded as explicit state.  [find_ref] and
      [findall_ref] are the spec's non-destructive queries.  [print_r]
      gives the printed lines.
    - [Parser] (Module [Parser]): [_parse] is a fold of a step function
      [step] over the physical lines; the state [pstate] holds the path
      from the current node up to the root and the logical line being
      joined after a trailing backslash.
    - [Lines] (Module [Joiner]): the loop [for index, line in
      enumerate(lines)] with [del lines[index + 1]] shared by [clean_body],
      [SSHConfig.parse] and [IPTables._parse], parameterised by the
      [continue] test and the use of each logical line.
    - [FileSystem]: the interfaces to the operating system.  The class
      [FileSystem] gives [readlines()] ([None] for [IOError]), [glob.glob]
      and [os.path.exists], with the law that [glob] returns only existing
      paths; the class [Os] gives the output of a shell command, the host
      address and [os.path.abspath].  [Settings] and [Paths] hold the
      settings.  [ListFs.listfs] is an instance over a list of files.
    - [Config] (Module [ApacheConfig]): the object as a record [config],
      with the two dicts as stdpp [gmap]s; methods that mutate the object
      return the new object.  [clean_body] is an instance of [Joiner].
      [print_children] returns its printed lines and the exception that
      stopped it.  Module [PyGlobals] lists the names [common.py] and
      [apacheparser.py] bind at module level.
    - [Includes] (Module [ApacheConfigList]): [file_record] is the dict
      literal built for one file; [recurse_apache_includes], [recurse] and
      [get_apache_configs] model the walk, with [self.apache_configs]
      passed as an accumulator.
    - [SshConfig] (Module [SSHConfig]): both copies of [SSHConfig.parse].
    - [Scrape]: Modules [Interfaces], [System], [Services], [RPMs] and
      [IPTables], one definition per method; the regular expressions are
      decoded by hand in Python's backtracking order.
    - [Ini] (Module [IniConfig]): [PHPConfig] and [MySQLConfig], with the
      [ConfigParser] library as the class [IniParser].
    - [Client]: the settings of [common.py] ([read_settings]), the
      collectors in the order of [client.py] ([collect]) and the whole
      script ([client_main]).  The [xmlrpclib.MultiCall] queue is the list
      of [rpc_call]s handed to the class [Transport] (the library's
      [multicall()]); the script's [outcome] records the requests sent, the
      lines printed and the exception that ended it.

    ** Theorems

    - [Node.NodeFacts]: [find] is the head of [findall]; the queries are
      case-insensitive; on one-segment paths they refine the spec's
      queries; every node [findall] returns is reached through children
      named by segments of the path, in order (the shared list may skip
      some); on every two-segment path [s/t] the answer is the [t]
      children of the first [s] child followed by the later [s] children
      themselves.
    - [Parser]: every parsed tree is well formed; the exact exceptions for
      a mismatched closing tag, a section without arguments and a dangling
      continuation; [_parse] inverts [print_r] on printable trees; input
      that ends inside an open section is accepted.
    - [Lines.JoinerFacts]: the one-pass loop with its pending line is the
      reference reading that deletes the joined lines from the list
      ([gather], [read_logical]), and it joins continuations as the
      parser does.
    - [Config]: the directive index, the virtual-host map and the include
      list in closed form over the tree's top level, when [get_domains]
      raises, and that [get_body] does not raise on a file the parser
      accepted.  [Config.PrintFacts]: [print_children] prints one line and
      raises [NameError] whenever there is a child.
    - [Includes.WalkFacts]: on an acyclic include graph the walk ends,
      records every reachable file, and raises when any reachable file
      cannot be read; the first record is the one of [APACHE_CONF]; an
      include loop through three files never ends.
    - [SshConfig.SSHFacts]: the body is [clean_body]'s text, the dict
      [items] in closed form (later values carry a leading space), and the
      two copies of the method agree.
    - [Scrape.InterfacesFacts]: every non-empty line of the [ifconfig]
      output becomes an interface.  [Scrape.SystemFacts]: the hand-decoded
      matchers of [.+ type ([^\s].+) ] and of the Red Hat release line are
      the regular expressions under Python's backtracking, and
      [_nfs_status] is [1] exactly when some mount has the type group
      [nfs].  [Scrape.ServicesFacts]: the [lsof] dict is [list_to_map] of
      the reversed entries (the last port of a process wins), errors
      included.  [Scrape.IPTablesFacts]: chain lines lose their counters.
      [Scrape.ScrapeExamples]: the address of an interface is filed under
      [inet], NFSv4 mounts are not counted.
    - [Ini.IniFacts]: the items of all sections are merged in order, and
      the type of ['items'] depends on whether the file could be opened.
    - [Client.ClientFacts]: the script always raises before it sends or
      prints anything, and once the settings are read the exception is
      the [NameError] of [AUTH_TOKEN].

    ** Fuel

    Only the include walk has fuel: the Python recursion has no visited
    set and need not end.  Each recursive call of [recurse_apache_includes]
    costs one unit, and [None] means the fuel ran out.  [walk_terminates]
    shows that the rank of [APACHE_CONF] in an acyclic include graph is
    enough fuel, and [recurse_fuel_mono] shows that more fuel gives the same
    answer, so [Some r] with any fuel is the Python result.  Python's own
    recursion limit (a [RuntimeError] after about a thousand frames) is not
    modelled: the model runs on an unbounded stack.  All other loops of
    the code are structural folds over lines, children and lists.  The
    reference reader [read_logical] of [Lines] (not a model of a single
    code path but the reading the [del] of the loop implies) takes the
    number of lines as fuel: every round consumes at least one line.

    ** Not modelled

    - The libraries the sources only call, stated as classes:
      [xmlrpclib]'s transport ([Transport]), [ConfigParser] ([IniParser]),
      [subprocess], [socket], [glob] and [os.path.abspath] ([Os] and
      [FileSystem]).
    - Some output to the terminal: the [print] of notices on [IOError] in
      the collectors, and the [print SSHConfig.parse()] that
      [sshconfigparser.py] runs when it is executed (the [repr] of a
      dict).  The prints of [print_r], [print_children] and [client.py]
      are modelled as lists of lines.
    - [clean_body]'s [TypeError] check on [comments_prefix], and its
      [re.split] on a string body: the code calls it only with a list of
      lines and ['#'] or [';'].
    - [ApacheConfig.ac]: it is written, never read; [warnings.filterwarnings]
      in [common.py].
*)

From Stdlib Require Import String Ascii List Bool Lia.
Import ListNotations.

(** ** Python exceptions raised by the modelled code *)

(** The exceptions the modelled Python code can raise, one constructor per
    raise site (or per run-time error of the interpreter). *)
Inductive exn : Type :=
  (** [raise Exception("Section mismatch: '%s' should be '%s'" % (got, expected))]
      in [ApacheNode._parse]. *)
  | SectionMismatch (got expected : string)
  (** An attribute looked up on an object that lacks it, e.g. [None.split]
      or [list.next]. *)
  | AttributeError (what : string)
  (** [IndexError]: indexing or popping past the end of a sequence. *)
  | IndexError (what : string)
  (** [StopIteration] escaping from [itobj.next()]. *)
  | StopIteration
  (** [IOError] on [open]. *)
  | IOError (path : string)
  (** [TypeError], e.g. [open(None)]. *)
  | TypeError (what : string)
  (** [KeyError]: a dict indexed with a key it does not hold. *)
  | KeyError (key : string)
  (** [NameError]: a global name that no module defines. *)
  | NameError (what : string)
  (** An exception of the [ConfigParser] library ([ConfigParser.Error]):
      [MissingSectionHeaderError] or [ParsingError] from [readfp],
      [NoSectionError] or [NoOptionError] from [get]. *)
  | ConfigParserError (what : string)
  (** [SystemExit], raised by [sys.exit(msg)]. *)
  | SystemExit (msg : string)
  (** [xmlrpclib.Fault], the error answer of the server to one call. *)
  | XmlRpcFault (what : string).

(** A computation of the Python code: it returns a value or raises. *)
Inductive result (A : Type) : Type :=
  | Ok (a : A)
  | Raise (e : exn).
Arguments Ok {A} a.
Arguments Raise {A} e.

Definition bind {A B} (m : result A) (k : A -> result B) : result B :=
  match m with
  | Ok a => k a
  | Raise e => Raise e
  end.

Definition fmap_result {A B} (f : A -> B) (m : result A) : result B :=
  bind m (fun a => Ok (f a)).

Declare Scope py_scope.
Delimit Scope py_scope with py.
Notation "'let*' x ':=' m 'in' k" := (bind m (fun x => k))
  (at level 10, x pattern, m at level 100, k at level 200) : py_scope.
Open Scope py_scope.

(** Monadic [fold_left]: the Python [for] loop whose body may raise. *)
Fixpoint fold_res {A B} (f : A -> B -> result A) (l : list B) (a : A) : result A :=
  match l with
  | [] => Ok a
  | x :: l' => let* a' := f a x in fold_res f l' a'
  end.

(** Does a computation succeed? *)
Definition is_ok {A} (m : result A) : bool :=
  match m with Ok _ => true | Raise _ => false end.

(** ** Generic lemmas on results *)

Lemma bind_Ok {A B} (a : A) (k : A -> result B) : bind (Ok a) k = k a.
Proof. reflexivity. Qed.

Lemma bind_Raise {A B} (e : exn) (k : A -> result B) : bind (Raise e) k = Raise e.
Proof. reflexivity. Qed.

Lemma bind_assoc {A B C} (m : result A) (k : A -> result B) (h : B -> result C) :
  bind (bind m k) h = bind m (fun a => bind (k a) h).
Proof. destruct m; reflexivity. Qed.

Lemma bind_eq_Ok {A B} (m : result A) (k : A -> result B) b :
  bind m k = Ok b -> exists a, m = Ok a /\ k a = Ok b.
Proof. destruct m; simpl; [eauto | discriminate]. Qed.

Lemma fold_res_app {A B} (f : A -> B -> result A) l1 l2 a :
  fold_res f (l1 ++ l2) a = let* a' := fold_res f l1 a in fold_res f l2 a'.
Proof.
  revert a; induction l1 as [|x l1 IH]; intros a; simpl; [reflexivity|].
  destruct (f a x); simpl; auto.
Qed.

Lemma fold_res_one {A B} (f : A -> B -> result A) x a :
  fold_res f [x] a = bind (f a x) Ok.
Proof. reflexivity. Qed.

(** An invariant preserved by every successful step holds after the loop. *)
Lemma fold_res_invariant {A B} (P : A -> Prop) (f : A -> B -> result A) :
  (forall a x a', P a -> f a x = Ok a' -> P a') ->
  forall l a a', P a -> fold_res f l a = Ok a' -> P a'.
Proof.
  intros Hstep l; induction l as [|x l IH]; simpl; intros a a' Ha H.
  - congruence.
  - destruct (f a x) as [a1|e] eqn:E; simpl in H; [|discriminate].
    eapply IH; [eapply Hstep|]; eauto.
Qed.

Create HintDb py discriminated.
Create Rewrite HintDb py_rw.
#[export] Hint Rewrite @bind_Ok @bind_Raise @bind_assoc @fold_res_app : py_rw.

(** Tactics of the development. *)
Ltac inv H := inversion H; subst; clear H.

(** Split a hypothesis [bind m k = Ok b] into its two stages. *)
Ltac bind_ok H :=
  let a := fresh "a" in let Hm := fresh "Hm" in
  apply bind_eq_Ok in H; destruct H as (a & Hm & H).
