(* ===== verification/PyStr.v ===== *)
(** * PyStr: the Python 2 [str] operations the parser relies on

    Byte strings are Rocq [string]s (lists of [ascii]).  Each definition
    models one method or idiom of Python 2 [str] in the C locale:
    [strip()], [split()], [' '.join(...)], [lower()], [s[0].islower()],
    [s[-1]], [s[:-1]], [s.split('/')], [s.strip('/')], [os.path.join] and
    the two regular-expression substitutions of [get_domains]. *)

From Stdlib Require Import String Ascii List Bool Lia.
From S2P Require Import Prelude.
Import ListNotations.
Local Open Scope string_scope.

Module PyStr.

(** Python 2 whitespace: [' \t\n\x0b\x0c\r'] (the set of [str.split()],
    [str.strip()] and of [\s] in a byte-string regex). *)
Definition is_space (c : ascii) : bool :=
  let n := nat_of_ascii c in Nat.eqb n 32 || (Nat.leb 9 n && Nat.leb n 13).

(** [s.lstrip(chars)] and [s.rstrip(chars)] for a character predicate. *)
Fixpoint lstrip_by (p : ascii -> bool) (s : string) : string :=
  match s with
  | EmptyString => EmptyString
  | String c s' => if p c then lstrip_by p s' else s
  end.

Fixpoint rstrip_by (p : ascii -> bool) (s : string) : string :=
  match s with
  | EmptyString => EmptyString
  | String c s' =>
      match rstrip_by p s' with
      | EmptyString => if p c then EmptyString else String c EmptyString
      | r => String c r
      end
  end.

Definition strip_by (p : ascii -> bool) (s : string) : string :=
  rstrip_by p (lstrip_by p s).

(** [s.strip()] *)
Definition strip (s : string) : string := strip_by is_space s.

(** [s.split()]: the maximal runs of non-whitespace characters. *)
Definition starts_token (s : string) : bool :=
  match s with
  | EmptyString => false
  | String c _ => negb (is_space c)
  end.

Fixpoint split_ws (s : string) : list string :=
  match s with
  | EmptyString => []
  | String c s' =>
      let rest := split_ws s' in
      if is_space c then rest
      else if starts_token s' then
        match rest with
        | t :: r => String c t :: r
        | [] => [String c EmptyString]
        end
      else String c EmptyString :: rest
  end.

(** [sep.join(l)] *)
Definition join (sep : string) (l : list string) : string := String.concat sep l.
Arguments join : simpl never.

(** [re.split('\s*', s)] of Python 2: a zero-width match never splits, so
    every maximal run of whitespace separates two fields, and leading or
    trailing whitespace gives an empty first or last field. *)
Fixpoint re_split_ws (s : string) : list string :=
  match s with
  | EmptyString => [EmptyString]
  | String c s' =>
      let r := re_split_ws s' in
      if is_space c then
        if starts_token s' || String.eqb s' EmptyString then EmptyString :: r else r
      else match r with
           | t :: r' => String c t :: r'
           | [] => [String c EmptyString]
           end
  end.

(** [s.split(sep)] for a one-character separator: never empty. *)
Fixpoint split_on (sep : ascii) (s : string) : list string :=
  match s with
  | EmptyString => [EmptyString]
  | String c s' =>
      let r := split_on sep s' in
      if Ascii.eqb c sep then EmptyString :: r
      else match r with
           | t :: r' => String c t :: r'
           | [] => [String c EmptyString]
           end
  end.

(** [c.islower()], [c.upper()], [c.lower()] on one byte (C locale). *)
Definition is_lower (c : ascii) : bool :=
  let n := nat_of_ascii c in Nat.leb 97 n && Nat.leb n 122.
Definition is_upper (c : ascii) : bool :=
  let n := nat_of_ascii c in Nat.leb 65 n && Nat.leb n 90.
Definition upper_char (c : ascii) : ascii :=
  if is_lower c then ascii_of_nat (nat_of_ascii c - 32) else c.
Definition lower_char (c : ascii) : ascii :=
  if is_upper c then ascii_of_nat (nat_of_ascii c + 32) else c.

(** [s.lower()] *)
Fixpoint lower (s : string) : string :=
  match s with
  | EmptyString => EmptyString
  | String c s' => String (lower_char c) (lower s')
  end.

(** Case-insensitive name test of [_find]: [a.lower() == b.lower()]. *)
Definition ieq (a b : string) : bool := String.eqb (lower a) (lower b).

(** [s[-1]] ([None] where Python raises [IndexError]) and [s[:-1]]. *)
Fixpoint last_char (s : string) : option ascii :=
  match s with
  | EmptyString => None
  | String c EmptyString => Some c
  | String _ s' => last_char s'
  end.

Fixpoint drop_last (s : string) : string :=
  match s with
  | EmptyString => EmptyString
  | String _ EmptyString => EmptyString
  | String c s' => String c (drop_last s')
  end.

(** [s.startswith(p)] *)
Definition startswith (p s : string) : bool := String.prefix p s.

(** [print a, b, c] of Python 2: the items are written in order, a space
    before each item but the first unless the item before it ends in a
    whitespace character other than [' '] (the [softspace] flag of
    [PRINT_ITEM]); the final newline is not part of the returned text. *)
Definition softspace_after (s : string) : bool :=
  match last_char s with
  | None => true
  | Some c => negb (is_space c) || Ascii.eqb c " "%char
  end.

Fixpoint print_rest (prev : string) (items : list string) : string :=
  match items with
  | [] => EmptyString
  | x :: items' => (if softspace_after prev then " " else "") ++ x ++ print_rest x items'
  end.

Definition print_stmt (items : list string) : string :=
  match items with
  | [] => EmptyString
  | x :: items' => x ++ print_rest x items'
  end.

(** Looking a name up in the globals of a module: [NameError] when no
    statement bound it.  [what] is Python 2's wording: ["name "] at module
    level, ["global name "] inside a function. *)
Definition lookup_name (globals : list string) (what n : string) : result unit :=
  if existsb (String.eqb n) globals then Ok tt
  else Raise (NameError (what ++ "'" ++ n ++ "' is not defined")).

Definition backslash : ascii := "092"%char.
Definition slash : ascii := "/"%char.

(** Does the line end in a backslash ([line[-1] == '\\'])? *)
Definition ends_bslash (s : string) : bool :=
  match last_char s with
  | Some c => Ascii.eqb c backslash
  | None => false
  end.

(** ** Lemmas *)

Lemma lower_char_idem c : lower_char (lower_char c) = lower_char c.
Proof.
  destruct c as [b0 b1 b2 b3 b4 b5 b6 b7].
  destruct b0, b1, b2, b3, b4, b5, b6, b7; reflexivity.
Qed.

Lemma lower_idem s : lower (lower s) = lower s.
Proof. induction s; simpl; [reflexivity|]. now rewrite lower_char_idem, IHs. Qed.

Lemma ieq_refl a : ieq a a = true.
Proof. apply String.eqb_refl. Qed.

Lemma ieq_sym a b : ieq a b = ieq b a.
Proof. unfold ieq. apply String.eqb_sym. Qed.

(** The test depends on its arguments only through their lower-case forms. *)
Lemma ieq_lower_l a b : ieq (lower a) b = ieq a b.
Proof. unfold ieq. now rewrite lower_idem. Qed.

Lemma ieq_trans_eq a b c : ieq a b = true -> ieq a c = ieq b c.
Proof.
  unfold ieq; intros H. apply String.eqb_eq in H. now rewrite H.
Qed.

Lemma split_on_not_nil sep s : split_on sep s <> [].
Proof. destruct s; simpl; [discriminate|]. destruct (Ascii.eqb _ _); [discriminate|].
  destruct (split_on sep s); discriminate. Qed.


(** Lower-casing leaves the path separator where it is. *)
Lemma lower_char_slash c : Ascii.eqb (lower_char c) slash = Ascii.eqb c slash.
Proof.
  destruct c as [b0 b1 b2 b3 b4 b5 b6 b7].
  destruct b0, b1, b2, b3, b4, b5, b6, b7; reflexivity.
Qed.

Lemma lower_empty s : lower s = EmptyString <-> s = EmptyString.
Proof. destruct s; simpl; split; congruence. Qed.

Lemma lstrip_by_lower p s :
  (forall c, p (lower_char c) = p c) -> lstrip_by p (lower s) = lower (lstrip_by p s).
Proof. intros Hp; induction s as [|c s IH]; simpl; [reflexivity|]. now rewrite Hp; destruct (p c). Qed.

Lemma rstrip_by_lower p s :
  (forall c, p (lower_char c) = p c) -> rstrip_by p (lower s) = lower (rstrip_by p s).
Proof.
  intros Hp; induction s as [|c s IH]; simpl; [reflexivity|].
  rewrite IH, Hp. destruct (rstrip_by p s); simpl; [destruct (p c)|]; reflexivity.
Qed.

Lemma split_on_lower s :
  split_on slash (lower s) = map lower (split_on slash s).
Proof.
  induction s as [|c s IH]; simpl; [reflexivity|].
  rewrite IH, lower_char_slash. destruct (Ascii.eqb c slash); [reflexivity|].
  destruct (split_on slash s); reflexivity.
Qed.

(** [s] contains no ['/']. *)
Definition no_slash (s : string) : bool :=
  forallb (fun c => negb (Ascii.eqb c slash)) (list_ascii_of_string s).

Lemma split_on_no_slash s : no_slash s = true -> split_on slash s = [s].
Proof.
  unfold no_slash; induction s as [|c s IH]; simpl; [reflexivity|].
  intros H; apply andb_prop in H as [Hc Hs].
  destruct (Ascii.eqb c slash); [discriminate|]. now rewrite IH.
Qed.

Lemma rstrip_by_keep p s :
  forallb (fun c => negb (p c)) (list_ascii_of_string s) = true -> rstrip_by p s = s.
Proof.
  induction s as [|c s IH]; simpl; [reflexivity|].
  intros H; apply andb_prop in H as [Hc Hs]. rewrite IH by exact Hs.
  destruct (p c); [discriminate|]. destruct s; reflexivity.
Qed.

Lemma strip_slash_no_slash s :
  no_slash s = true -> strip_by (fun c => Ascii.eqb c slash) s = s.
Proof.
  intros H. unfold strip_by. destruct s as [|c s]; [reflexivity|].
  simpl. pose proof H as H'. unfold no_slash in H'; simpl in H'.
  apply andb_prop in H' as [Hc _]. destruct (Ascii.eqb c slash); [discriminate|].
  now apply rstrip_by_keep.
Qed.

(** Every token of [s.split()] is non-empty. *)
Lemma split_ws_nonempty s : Forall (fun t => t <> EmptyString) (split_ws s).
Proof.
  induction s as [|c s IH]; simpl; [constructor|].
  destruct (is_space c); [exact IH|].
  destruct (starts_token s).
  - destruct (split_ws s) as [|t r]; constructor; try discriminate.
    + constructor.
    + now inversion IH.
  - constructor; [discriminate|exact IH].
Qed.

Lemma upper_char_not_lower c : is_lower (upper_char c) = false.
Proof.
  destruct c as [b0 b1 b2 b3 b4 b5 b6 b7].
  destruct b0, b1, b2, b3, b4, b5, b6, b7; reflexivity.
Qed.

(** ** Character classes and the greedy groups of a regular expression *)

(** Every character of [s] satisfies [p]. *)
Definition all_chars (p : ascii -> bool) (s : string) : bool :=
  forallb p (list_ascii_of_string s).

(** The longest prefix of characters satisfying [p], and the rest: the
    greedy match of a group [[...]+]. *)
Fixpoint span (p : ascii -> bool) (s : string) : string * string :=
  match s with
  | EmptyString => (EmptyString, EmptyString)
  | String c s' =>
      if p c then let (a, b) := span p s' in (String c a, b)
      else (EmptyString, s)
  end.

(** [b] cannot extend a greedy [p]-group: it is empty or starts outside [p]. *)
Definition stops (p : ascii -> bool) (b : string) : bool :=
  match b with EmptyString => true | String c _ => negb (p c) end.

(** A non-empty run of non-whitespace characters: one token of [split()]. *)
Definition word (s : string) : Prop :=
  s <> EmptyString /\ all_chars (fun c => negb (is_space c)) s = true.

Lemma append_empty_r s : s ++ EmptyString = s.
Proof. induction s; simpl; congruence. Qed.

Lemma all_chars_app p a b : all_chars p (a ++ b) = all_chars p a && all_chars p b.
Proof. induction a as [|c a IH]; simpl; [reflexivity|]. unfold all_chars in *; simpl.
  rewrite IH. now destruct (p c). Qed.

Lemma all_chars_impl (p q : ascii -> bool) s :
  (forall c, p c = true -> q c = true) -> all_chars p s = true -> all_chars q s = true.
Proof.
  intros Hpq; induction s as [|c s IH]; [reflexivity|]. unfold all_chars in *; simpl.
  intros H; apply andb_prop in H as [Hc Hs]. rewrite (Hpq c Hc). now apply IH.
Qed.

Lemma span_app p a b :
  all_chars p a = true -> stops p b = true -> span p (a ++ b) = (a, b).
Proof.
  intros Ha Hb; induction a as [|c a IH]; simpl in *.
  - destruct b as [|c b]; simpl in *; [reflexivity|]. now destruct (p c).
  - unfold all_chars in Ha; simpl in Ha. apply andb_prop in Ha as [-> Ha].
    now rewrite IH.
Qed.

(** [span] cuts a string into its longest [p]-prefix and a rest that
    does not start with a [p] character. *)
Lemma span_spec p s a b :
  span p s = (a, b) -> s = a ++ b /\ all_chars p a = true /\ stops p b = true.
Proof.
  revert a b; induction s as [|c s IH]; intros a b H; simpl in H.
  - inv H. repeat split.
  - destruct (p c) eqn:Hc.
    + destruct (span p s) as [a' b'] eqn:E. inv H. destruct (IH _ _ eq_refl) as (-> & Ha & Hb).
      repeat split; [|exact Hb]. unfold all_chars; simpl. now rewrite Hc.
    + inv H. repeat split. simpl. now rewrite Hc.
Qed.

(** [s.startswith(p)] and [s[len(p):]]. *)
Lemma prefix_app pre s : String.prefix pre (pre ++ s) = true.
Proof.
  induction pre as [|c pre IH]; [destruct s; reflexivity|]. simpl.
  destruct (ascii_dec c c); [exact IH|congruence].
Qed.

Lemma prefix_split pre l : String.prefix pre l = true -> exists s, l = pre ++ s.
Proof.
  revert l; induction pre as [|c pre IH]; intros l H; [now exists l|].
  destruct l as [|d l]; [discriminate|]. simpl in H.
  destruct (ascii_dec c d) as [->|]; [|discriminate]. destruct (IH l H) as [s ->]. now exists s.
Qed.

Lemma substring_all s m : String.length s <= m -> String.substring 0 m s = s.
Proof.
  revert m; induction s as [|c s IH]; intros [|m] H; simpl in *; try reflexivity; [lia|].
  f_equal. apply IH. lia.
Qed.

Lemma substring_after pre s m :
  String.length s <= m -> String.substring (String.length pre) m (pre ++ s) = s.
Proof. intros H. induction pre as [|c pre IH]; [now apply substring_all|]. exact IH. Qed.

Lemma length_app_str a b : String.length (a ++ b) = String.length a + String.length b.
Proof. induction a as [|c a IH]; simpl; [reflexivity|]. now rewrite IH. Qed.

Lemma last_char_snoc s c : last_char (s ++ String c EmptyString) = Some c.
Proof. induction s as [|d s IH]; [reflexivity|]. simpl. rewrite IH. now destruct s. Qed.

Lemma drop_last_snoc s c : drop_last (s ++ String c EmptyString) = s.
Proof. induction s as [|d s IH]; [reflexivity|]. simpl. rewrite IH. now destruct s. Qed.

Lemma rstrip_by_last p s c : p c = false -> rstrip_by p (s ++ String c EmptyString) = s ++ String c EmptyString.
Proof.
  intros Hc; induction s as [|d s IH]; simpl; [now rewrite Hc|].
  rewrite IH. now destruct (s ++ String c EmptyString) eqn:E; [destruct s; discriminate|].
Qed.

(** [strip()] leaves a string that starts and ends with a non-space. *)
Lemma strip_keep c s d :
  is_space c = false -> is_space d = false ->
  strip (String c (s ++ String d EmptyString)) = String c (s ++ String d EmptyString).
Proof.
  intros Hc Hd. unfold strip, strip_by; simpl. rewrite Hc.
  apply (rstrip_by_last is_space (String c s) d Hd).
Qed.

Lemma lstrip_by_app p a b : all_chars p a = true -> lstrip_by p (a ++ b) = lstrip_by p b.
Proof.
  induction a as [|c a IH]; simpl; [reflexivity|]. unfold all_chars; simpl.
  intros H; apply andb_prop in H as [-> H]. now apply IH.
Qed.

(** [s.split()] of a token followed by a separator or the end. *)
Lemma split_ws_word_app t s :
  word t -> stops (fun c => negb (is_space c)) s = true ->
  split_ws (t ++ s) = t :: split_ws s.
Proof.
  intros [Hne Ht] Hs. induction t as [|c t IH]; [congruence|].
  unfold all_chars in Ht; simpl in Ht. apply andb_prop in Ht as [Hc Ht].
  simpl. destruct (is_space c); [discriminate|].
  destruct t as [|c' t].
  - simpl. destruct s as [|d s]; [reflexivity|]. simpl in Hs.
    destruct (is_space d) eqn:E; [simpl; now rewrite E|discriminate].
  - rewrite IH by (discriminate || exact Ht).
    unfold all_chars in Ht; simpl in Ht. apply andb_prop in Ht as [Hc' _].
    simpl. now rewrite Hc'.
Qed.

Lemma split_ws_space s : split_ws (String " " s) = split_ws s.
Proof. reflexivity. Qed.

(** [' '.join(l).split() == l] for a list of tokens. *)
Lemma split_ws_join l : Forall word l -> split_ws (join " " l) = l.
Proof.
  induction 1 as [|t l Ht Hl IH]; [reflexivity|].
  unfold join in *; simpl. destruct l as [|t' l].
  - rewrite <- (append_empty_r t) at 1. rewrite split_ws_word_app by (auto || reflexivity).
    reflexivity.
  - rewrite split_ws_word_app by (auto || reflexivity). now rewrite split_ws_space, IH.
Qed.

(** ** Lemmas for printed lines *)

(** ['    ' * k] *)
Fixpoint pad (k : nat) : string :=
  match k with
  | O => EmptyString
  | S k' => "    " ++ pad k'
  end.

Lemma pad_spaces k : all_chars is_space (pad k) = true.
Proof. induction k; [reflexivity|]. exact IHk. Qed.

Lemma rstrip_by_keep_last p s d :
  last_char s = Some d -> p d = false -> rstrip_by p s = s.
Proof.
  intros Hl Hd; induction s as [|c s IH]; [discriminate|]. simpl.
  destruct s as [|c' s].
  - simpl in Hl. inversion Hl; subst. now rewrite Hd.
  - rewrite IH by exact Hl. reflexivity.
Qed.

Lemma rstrip_by_snoc_p p s c :
  p c = true -> rstrip_by p (s ++ String c EmptyString) = rstrip_by p s.
Proof.
  intros Hc; induction s as [|d s IH]; simpl; [now rewrite Hc|]. now rewrite IH.
Qed.

Lemma last_char_app a b : b <> EmptyString -> last_char (a ++ b) = last_char b.
Proof.
  intros Hb; induction a as [|c a IH]; [reflexivity|]. simpl. rewrite IH.
  destruct (a ++ b) eqn:E; [|reflexivity]. destruct a, b; simpl in E; congruence.
Qed.

Lemma all_chars_join p sep l :
  all_chars p sep = true -> Forall (fun v => all_chars p v = true) l -> all_chars p (join sep l) = true.
Proof.
  intros Hs; induction 1 as [|v l Hv Hl IH]; [reflexivity|]. unfold join in *; simpl.
  destruct l as [|v' l]; [exact Hv|]. now rewrite !all_chars_app, Hv, Hs, IH.
Qed.

Lemma join_cons sep v vs :
  join sep (v :: vs) = v ++ match vs with [] => EmptyString | _ => sep ++ join sep vs end.
Proof. destruct vs; simpl; [now rewrite append_empty_r|reflexivity]. Qed.



Lemma append_assoc_str a b c : (a ++ b) ++ c = a ++ b ++ c.
Proof. induction a; simpl; congruence. Qed.

Lemma rstrip_by_all p t : all_chars p t = true -> rstrip_by p t = EmptyString.
Proof.
  induction t as [|c t IH]; [reflexivity|]. unfold all_chars; simpl.
  intros H; apply andb_prop in H as [Hc Ht]. rewrite IH by exact Ht. now rewrite Hc.
Qed.

Lemma rstrip_by_app_p p s t : all_chars p t = true -> rstrip_by p (s ++ t) = rstrip_by p s.
Proof.
  intros Ht; induction s as [|c s IH]; simpl; [now apply rstrip_by_all|]. now rewrite IH.
Qed.

(** [strip()] of an indented line with trailing blanks. *)
Lemma strip_line k c s t d :
  is_space c = false -> last_char (String c s) = Some d -> is_space d = false ->
  all_chars is_space t = true ->
  strip (pad k ++ String c s ++ t) = String c s.
Proof.
  intros Hc Hl Hd Ht. unfold strip, strip_by.
  rewrite lstrip_by_app by apply pad_spaces. simpl. rewrite Hc.
  change (String c (s ++ t)) with (String c s ++ t).
  rewrite rstrip_by_app_p by exact Ht. now apply (rstrip_by_keep_last _ _ d).
Qed.

Lemma strip_pad_keep k c s d :
  is_space c = false -> last_char (String c s) = Some d -> is_space d = false ->
  strip (pad k ++ String c s) = String c s.
Proof.
  intros Hc Hl Hd. rewrite <- (append_empty_r (String c s)) at 1.
  now apply (strip_line k c s EmptyString d).
Qed.

(** Every token of [s.split()] is a word. *)
Lemma split_ws_words s : Forall word (split_ws s).
Proof.
  induction s as [|c s IH]; simpl; [constructor|].
  destruct (is_space c) eqn:Hc; [exact IH|].
  assert (Hw1 : word (String c EmptyString)).
  { split; [discriminate|]. unfold all_chars; simpl. now rewrite Hc. }
  destruct (starts_token s); [|constructor; [exact Hw1|exact IH]].
  destruct (split_ws s) as [|t r]; [constructor; [exact Hw1|constructor]|].
  inversion IH as [|? ? [Ht Hall] Hr]; subst. constructor; [|exact Hr].
  split; [discriminate|]. unfold all_chars in *; simpl. now rewrite Hc, Hall.
Qed.

(** A word is its own [strip()]. *)
Lemma strip_word s : word s -> strip s = s.
Proof.
  intros [Hne Hall]. destruct s as [|c s]; [congruence|].
  unfold all_chars in Hall; simpl in Hall. apply andb_prop in Hall as [Hc Hs].
  assert (Hc' : is_space c = false) by (destruct (is_space c); easy).
  unfold strip, strip_by; simpl. rewrite Hc'.
  apply rstrip_by_keep. simpl. now rewrite Hc', Hs.
Qed.

End PyStr.

#[export] Hint Resolve PyStr.ieq_refl PyStr.split_on_not_nil : py.
