(* ===== verification/Node.v ===== *)
(** * Node: [ApacheNode] and its path queries ([src/client/apacheparser.py])

    The tree node of the parser and the four query methods [find],
    [_find], [findall], [_findall].  The Python recursion pops the next
    path element from ONE list object that is shared by every recursive
    call ([pathelements.pop(0)]), so a call into one child consumes path
    elements that its later siblings then no longer see.  The model threads
    that list as explicit state: each query returns its result together
    with the list as the callee left it.  [find_ref] and [findall_ref] are
    the non-destructive queries the spec (§4.3) asks for. *)

From Stdlib Require Import String Ascii List Bool ZArith Lia.
From S2P Require Import Prelude PyStr.
Import ListNotations.
Import PyStr.

Module ApacheNode.

(** ** The node *)

Local Unset Elimination Schemes.

(** [ApacheNode(name, values, section)] with its [children] list.  The
    [parent] back-reference set by [add_child] is not a field: the parser
    keeps the path from the root to the current node explicitly
    (see [Parser.v]). *)
Inductive node : Type := Node {
  name : string;
  values : list string;
  section : bool;
  children : list node
}.

Local Set Elimination Schemes.

(** Induction over nodes, with the hypothesis on all children. *)
Section node_ind.
Variable P : node -> Prop.
Hypothesis P_node : forall nm vs sec cs, Forall P cs -> P (Node nm vs sec cs).

Fixpoint node_ind (n : node) : P n :=
  match n with
  | Node nm vs sec cs =>
      P_node nm vs sec cs
        ((fix go (l : list node) : Forall P l :=
            match l with
            | [] => Forall_nil P
            | c :: l' => Forall_cons c (node_ind c) (go l')
            end) cs)
  end.
End node_ind.

(** [add_child]: append to the children list. *)
Definition add_child (n c : node) : node :=
  Node (name n) (values n) (section n) (children n ++ [c]).

(** ** [_find] and [_findall] with the shared path list *)

(** The [for child in self.children] loop of [_find]; [rec] is the
    recursive call [child._find(pathelements)]. *)
Fixpoint find_loop (rec : node -> list string -> option node * list string)
    (next : string) (cs : list node) (pe : list string)
    : option node * list string :=
  match cs with
  | [] => (None, pe)
  | c :: cs' =>
      if ieq (name c) next then
        match rec c pe with
        | (Some r, pe2) => (Some r, pe2)
        | (None, pe2) => find_loop rec next cs' pe2
        end
      else find_loop rec next cs' pe
  end.

(** [_find(self, pathelements)]: returns the result and the list as left. *)
Fixpoint _find (n : node) (pe : list string) : option node * list string :=
  match pe with
  | [] => (Some n, pe)
  | next :: pe1 => find_loop _find next (children n) pe1
  end.

(** The loop of [_findall]: [result.extend(child._findall(pathelements))]. *)
Fixpoint findall_loop (rec : node -> list string -> list node * list string)
    (next : string) (cs : list node) (pe : list string)
    : list node * list string :=
  match cs with
  | [] => ([], pe)
  | c :: cs' =>
      if ieq (name c) next then
        let (r, pe2) := rec c pe in
        let (rs, pe3) := findall_loop rec next cs' pe2 in
        (r ++ rs, pe3)
      else findall_loop rec next cs' pe
  end.

Fixpoint _findall (n : node) (pe : list string) : list node * list string :=
  match pe with
  | [] => ([n], pe)
  | next :: pe1 => findall_loop _findall next (children n) pe1
  end.

(** [path.strip('/').split('/')] *)
Definition path_elements (path : string) : list string :=
  split_on slash (strip_by (fun c => Ascii.eqb c slash) path).

(** [find(self, path)]: [None] for Python's [None]. *)
Definition find (n : node) (path : string) : option node :=
  match path_elements path with
  | EmptyString :: _ => Some n
  | pe => fst (_find n pe)
  end.

Definition findall (n : node) (path : string) : list node :=
  match path_elements path with
  | EmptyString :: _ => [n]
  | pe => fst (_findall n pe)
  end.

(** ** The queries of the spec: every step on its own view of the path *)

Fixpoint find_ref (n : node) (pe : list string) : option node :=
  match pe with
  | [] => Some n
  | next :: pe1 =>
      (fix go (cs : list node) : option node :=
         match cs with
         | [] => None
         | c :: cs' =>
             match (if ieq (name c) next then find_ref c pe1 else None) with
             | Some r => Some r
             | None => go cs'
             end
         end) (children n)
  end.

Fixpoint findall_ref (n : node) (pe : list string) : list node :=
  match pe with
  | [] => [n]
  | next :: pe1 =>
      flat_map (fun c => if ieq (name c) next then findall_ref c pe1 else [])
        (children n)
  end.

(** [print_r(self, indent=-1)]: the lines it prints, in order.  The root
    is printed with the default [indent = -1], which prints its children
    only. *)
Fixpoint print_r (n : node) (indent : Z) : list string :=
  match n with
  | Node nm vs sec cs =>
      if sec then
        (if Z.leb 0 indent
         then [(pad (Z.to_nat indent) ++ "<" ++ nm ++ " " ++ join " " vs ++ ">")%string]
         else []) ++
        flat_map (fun c => print_r c (indent + 1)) cs ++
        (if Z.leb 0 indent
         then [(pad (Z.to_nat indent) ++ "</" ++ nm ++ ">")%string]
         else [])
      else
        if Z.leb 0 indent
        then [(pad (Z.to_nat indent) ++ nm ++ " " ++ join " " vs)%string]
        else []
  end.

(** [m] is [n] or one of its descendants. *)
Inductive subtree : node -> node -> Prop :=
  | subtree_refl n : subtree n n
  | subtree_child m c n : In c (children n) -> subtree m c -> subtree m n.

End ApacheNode.

(** ** Theorems *)

Module NodeFacts.
Import ApacheNode.
Local Open Scope string_scope.

(** The relation between one [_find] call and the [_findall] call on the
    same node and list: the node found is the first node of the list, and
    when nothing is found both leave the path list in the same state. *)
Definition agree (f : option node * list string) (fa : list node * list string) : Prop :=
  fst f = hd_error (fst fa) /\ (fst f = None -> snd f = snd fa).

Section loops.
Variable rf : node -> list string -> option node * list string.
Variable rfa : node -> list string -> list node * list string.

Lemma loops_agree next cs :
  Forall (fun c => forall pe, agree (rf c pe) (rfa c pe)) cs ->
  forall pe, agree (find_loop rf next cs pe) (findall_loop rfa next cs pe).
Proof.
  induction 1 as [|c cs Hc _ IH]; intros pe; [split; reflexivity|].
  simpl; destruct (ieq (name c) next); [|apply IH].
  specialize (Hc pe); destruct (rf c pe) as [[r|] pe2], (rfa c pe) as [l pe2'];
    destruct Hc as [Hhd Hst]; simpl in *.
  - destruct l as [|x l]; [discriminate|].
    destruct (findall_loop rfa next cs pe2'); split; simpl; [exact Hhd | discriminate].
  - destruct l; [|discriminate]. rewrite (Hst eq_refl).
    specialize (IH pe2'). destruct (findall_loop rfa next cs pe2'); exact IH.
Qed.
End loops.

Lemma _find_findall_agree n : forall pe, agree (_find n pe) (_findall n pe).
Proof.
  induction n as [nm vs sec cs IH] using node_ind; intros [|next pe].
  - split; reflexivity.
  - apply loops_agree; exact IH.
Qed.

(** C1. [find(p)] is the first node of [findall(p)], and [None] exactly when
    [findall(p)] is empty, for every tree and every path, even with the
    destructive consumption of the shared path list. *)
Theorem find_first_of_findall n path :
  find n path = hd_error (findall n path).
Proof.
  unfold find, findall.
  destruct (path_elements path) as [|[|a s] pe]; try reflexivity;
    apply _find_findall_agree.
Qed.

(** ** Case-insensitivity *)

Lemma ieq_lower_r a b : ieq a (lower b) = ieq a b.
Proof. now rewrite ieq_sym, ieq_lower_l, ieq_sym. Qed.

(** A query run on the lower-cased path returns what it returns on the
    path itself, and leaves the lower-cased remainder. *)
Definition lowers_to {A} (run' run : list string -> A * list string) : Prop :=
  forall pe, run' (map lower pe) = (fst (run pe), map lower (snd (run pe))).
Abbreviation lowers run := (lowers_to run run).

Lemma find_loop_lower rf next cs :
  Forall (fun c => lowers (rf c)) cs ->
  lowers_to (find_loop rf (lower next) cs) (find_loop rf next cs).
Proof.
  induction 1 as [|c cs Hc _ IH]; intros pe; [reflexivity|]. simpl.
  rewrite ieq_lower_r. destruct (ieq (name c) next); [|apply IH].
  rewrite Hc. destruct (rf c pe) as [[r|] pe2]; simpl; [reflexivity|apply IH].
Qed.

Lemma findall_loop_lower rfa next cs :
  Forall (fun c => lowers (rfa c)) cs ->
  lowers_to (findall_loop rfa (lower next) cs) (findall_loop rfa next cs).
Proof.
  induction 1 as [|c cs Hc _ IH]; intros pe; [reflexivity|]. simpl.
  rewrite ieq_lower_r. destruct (ieq (name c) next); [|apply IH].
  rewrite Hc. destruct (rfa c pe) as [r pe2]; simpl.
  rewrite IH. destruct (findall_loop rfa next cs pe2); reflexivity.
Qed.

Lemma _find_lower n : lowers (_find n).
Proof.
  induction n as [nm vs sec cs IH] using node_ind; intros [|next pe]; [reflexivity|].
  apply (find_loop_lower _find next cs IH).
Qed.

Lemma _findall_lower n : lowers (_findall n).
Proof.
  induction n as [nm vs sec cs IH] using node_ind; intros [|next pe]; [reflexivity|].
  apply (findall_loop_lower _findall next cs IH).
Qed.

Lemma path_elements_lower p : path_elements (lower p) = map lower (path_elements p).
Proof.
  unfold path_elements, strip_by.
  rewrite lstrip_by_lower, rstrip_by_lower, split_on_lower; try reflexivity;
    intros c; apply lower_char_slash.
Qed.

Lemma queries_lower n p :
  find n (lower p) = find n p /\ findall n (lower p) = findall n p.
Proof.
  unfold find, findall. rewrite path_elements_lower.
  destruct (path_elements p) as [|s pe]; [split; reflexivity|]. simpl.
  destruct s as [|c s]; simpl; [split; reflexivity|].
  pose proof (_find_lower n (String c s :: pe)) as Hf.
  pose proof (_findall_lower n (String c s :: pe)) as Hfa. simpl in Hf, Hfa.
  now rewrite Hf, Hfa.
Qed.

(** C2. Path queries are case-insensitive: two paths with the same
    lower-case form give the same [find] and [findall] results. *)
Theorem queries_case_insensitive n p q :
  lower p = lower q -> find n p = find n q /\ findall n p = findall n q.
Proof.
  intros H. destruct (queries_lower n p) as [Hp1 Hp2], (queries_lower n q) as [Hq1 Hq2].
  rewrite <- Hp1, <- Hp2, <- Hq1, <- Hq2, H. split; reflexivity.
Qed.

(** ** One-segment paths *)

Lemma path_elements_one s : no_slash s = true -> path_elements s = [s].
Proof.
  intros H. unfold path_elements. rewrite strip_slash_no_slash by exact H.
  now apply split_on_no_slash.
Qed.

Lemma find_loop_one next cs :
  find_loop _find next cs [] = (find_ref (Node EmptyString [] true cs) [next], []).
Proof.
  induction cs as [|c cs IH]; simpl; [reflexivity|].
  destruct (ieq (name c) next); [destruct c; reflexivity|]. exact IH.
Qed.

Lemma findall_loop_one next cs :
  findall_loop _findall next cs [] =
  (filter (fun c => ieq (name c) next) cs, []).
Proof.
  induction cs as [|c cs IH]; simpl; [reflexivity|].
  destruct (ieq (name c) next); [|exact IH].
  destruct c; simpl; rewrite IH; reflexivity.
Qed.

Lemma findall_ref_one n s :
  findall_ref n [s] = filter (fun c => ieq (name c) s) (children n).
Proof.
  destruct n as [nm vs sec cs]; simpl. induction cs as [|c cs IH]; simpl; [reflexivity|].
  destruct (ieq (name c) s); simpl; rewrite IH; [destruct c|]; reflexivity.
Qed.

(** [find] and [findall] on a one-segment path. *)
Lemma one_segment_queries n s :
  s <> EmptyString -> no_slash s = true ->
  find n s = find_ref n [s] /\ findall n s = filter (fun c => ieq (name c) s) (children n).
Proof.
  intros Hne Hs. unfold find, findall. rewrite path_elements_one by exact Hs.
  destruct s as [|c s]; [congruence|]. destruct n as [nm vs sec cs]; simpl.
  rewrite find_loop_one, findall_loop_one. split; reflexivity.
Qed.

(** C3. On a one-segment path (the only kind the program passes:
    ['VirtualHost'], ['ServerName'], ['ServerRoot'], ['Include']) the
    destructive queries refine the spec's: [find] returns the first child
    with that name, case-insensitively, and [findall] all of them in order. *)
Theorem one_segment_refines n s :
  s <> EmptyString -> no_slash s = true ->
  find n s = find_ref n [s] /\ findall n s = findall_ref n [s].
Proof.
  intros Hne Hs. destruct (one_segment_queries n s Hne Hs) as [-> ->].
  now rewrite findall_ref_one.
Qed.

(** ** Every node a query returns lies in the queried tree *)

Lemma findall_loop_sub rfa next cs :
  Forall (fun c => forall pe m, In m (fst (rfa c pe)) -> subtree m c) cs ->
  forall pe m, In m (fst (findall_loop rfa next cs pe)) -> exists c, In c cs /\ subtree m c.
Proof.
  induction 1 as [|c cs Hc _ IH]; simpl; intros pe m Hm; [contradiction|].
  destruct (ieq (name c) next).
  - destruct (rfa c pe) as [r pe2] eqn:E.
    destruct (findall_loop rfa next cs pe2) as [rs pe3] eqn:E2; simpl in Hm.
    apply in_app_or in Hm as [Hm|Hm].
    + exists c; split; [left; reflexivity|]. apply (Hc pe). now rewrite E.
    + destruct (IH pe2 m) as (c' & Hin & Hs); [now rewrite E2|]. eauto.
  - destruct (IH pe m Hm) as (c' & Hin & Hs). eauto.
Qed.

Lemma _findall_sub n : forall pe m, In m (fst (_findall n pe)) -> subtree m n.
Proof.
  induction n as [nm vs sec cs IH] using node_ind; intros [|next pe] m Hm; simpl in Hm.
  - destruct Hm as [<-|[]]. constructor.
  - destruct (findall_loop_sub _findall next cs IH pe m Hm) as (c & Hin & Hs).
    eapply subtree_child; eauto.
Qed.

(** Whatever the path, every node returned by [findall] (hence by
    [find]) is the queried node itself or one of its descendants. *)
Lemma findall_in_tree n p m : In m (findall n p) -> subtree m n.
Proof.
  unfold findall. destruct (path_elements p) as [|[|c s] pe]; intros Hm;
    try (apply (_findall_sub n _ m Hm)).
  destruct Hm as [<-|[]]; constructor.
Qed.

(** ** Which segments a returned node matched *)

(** [m] is reached from [n] through children whose names match, case
    insensitively, segments of [segs] taken in order, some of them skipped. *)
Inductive matched : node -> list string -> node -> Prop :=
  | matched_here n segs : matched n segs n
  | matched_skip n s segs m : matched n segs m -> matched n (s :: segs) m
  | matched_child n c s segs m :
      In c (children n) -> ieq (name c) s = true -> matched c segs m -> matched n (s :: segs) m.

(** The list a call leaves is what the call was given, less a prefix. *)
Definition suffix_of (a b : list string) : Prop := exists pre, b = (pre ++ a)%list.

Lemma suffix_of_refl a : suffix_of a a.
Proof. now exists []. Qed.

Lemma suffix_of_trans a b c : suffix_of a b -> suffix_of b c -> suffix_of a c.
Proof. intros [p1 ->] [p2 ->]. exists (p2 ++ p1)%list. now rewrite app_assoc. Qed.

Lemma matched_suffix c pe pe' m : matched c pe' m -> suffix_of pe' pe -> matched c pe m.
Proof.
  intros Hm [pre ->]. induction pre as [|s pre IH]; [exact Hm|]. now apply matched_skip.
Qed.

(** What one call of [_findall] promises: the nodes it returns match the
    path it was given, starting with a child on the first segment, and it
    only consumes the list. *)
Definition findall_ok (rfa : node -> list string -> list node * list string) (c : node) : Prop :=
  (forall pe m, In m (fst (rfa c pe)) ->
     match pe with
     | [] => m = c
     | s :: segs => exists d, In d (children c) /\ ieq (name d) s = true /\ matched d segs m
     end) /\
  forall pe, suffix_of (snd (rfa c pe)) pe.

Lemma findall_ok_matched rfa c pe m : findall_ok rfa c -> In m (fst (rfa c pe)) -> matched c pe m.
Proof.
  intros [Hm _] Hin. specialize (Hm pe m Hin). destruct pe as [|s segs].
  - subst. constructor.
  - destruct Hm as (d & Hd & Hn & Hdm). eapply matched_child; eauto.
Qed.

Lemma findall_loop_matched rfa next cs :
  Forall (findall_ok rfa) cs ->
  forall pe,
  (forall m, In m (fst (findall_loop rfa next cs pe)) ->
     exists c, In c cs /\ ieq (name c) next = true /\ matched c pe m) /\
  suffix_of (snd (findall_loop rfa next cs pe)) pe.
Proof.
  induction 1 as [|c cs Hc _ IH]; simpl; intros pe; [split; [contradiction|apply suffix_of_refl]|].
  destruct (ieq (name c) next) eqn:En; [|destruct (IH pe) as [IHm IHs]; split; [|exact IHs];
    intros m Hm; destruct (IHm m Hm) as (c' & ? & ? & ?); eauto].
  destruct (rfa c pe) as [r pe2] eqn:E. pose proof (proj2 Hc pe) as Hs. rewrite E in Hs.
  destruct (IH pe2) as [IHm IHs].
  destruct (findall_loop rfa next cs pe2) as [rs pe3]; simpl in *. split; [|eapply suffix_of_trans; eauto].
  intros m Hm. apply in_app_or in Hm as [Hm|Hm].
  - exists c. split; [now left|]. split; [exact En|]. eapply findall_ok_matched; [exact Hc|]. now rewrite E.
  - destruct (IHm m Hm) as (c' & Hin & Hn & Hcm). exists c'. split; [now right|].
    split; [exact Hn|]. eapply matched_suffix; eauto.
Qed.

Lemma _findall_ok n : findall_ok _findall n.
Proof.
  induction n as [nm vs sec cs IH] using node_ind. split.
  - intros [|s segs] m Hm; simpl in Hm |- *; [now destruct Hm as [<-|[]]|].
    exact (proj1 (findall_loop_matched _findall s cs IH segs) m Hm).
  - intros [|s segs]; [apply suffix_of_refl|]. simpl.
    destruct (proj2 (findall_loop_matched _findall s cs IH segs)) as [pre Hpre].
    exists (s :: pre). simpl. f_equal. exact Hpre.
Qed.

(** C4. Every node [findall(p)] returns is reached from the queried node
    through a child whose name is the first segment of [p], then through
    children whose names are later segments of [p] in order: a name test
    decides every step.  Segments may be skipped, because a sibling's call
    may already have popped them from the shared list. *)
Theorem findall_matches_segments n p s segs m :
  path_elements p = s :: segs -> s <> EmptyString -> In m (findall n p) ->
  exists c, In c (children n) /\ ieq (name c) s = true /\ matched c segs m.
Proof.
  unfold findall. intros -> Hs. destruct s as [|a s]; [congruence|].
  intros Hm. exact (proj1 (_findall_ok n) (String a s :: segs) m Hm).
Qed.

(** ** The shared path list is consumed across siblings *)

(** After one call on [[t]] the list is empty, whatever the node. *)
Lemma _findall_one_segment c t :
  _findall c [t] = (List.filter (fun d => ieq (name d) t) (children c), []).
Proof. destruct c as [nm vs sec cs]. apply findall_loop_one. Qed.

(** C5. On every two-segment path [s/t] the shared list makes [findall]
    answer with the [t] children of the FIRST child named [s] only,
    followed by every later child named [s] itself: that first call pops
    [t], so the later siblings see an empty path and return themselves.
    The spec's query would return the [t] children of all of them. *)
Theorem findall_two_segments n p s t :
  path_elements p = [s; t] -> s <> EmptyString ->
  findall n p =
  match List.filter (fun c => ieq (name c) s) (children n) with
  | [] => []
  | c1 :: rest => (List.filter (fun d => ieq (name d) t) (children c1) ++ rest)%list
  end.
Proof.
  unfold findall. intros -> Hs. destruct s as [|a s]; [congruence|].
  destruct n as [nm vs sec cs]. cbn [_findall children fst].
  induction cs as [|c cs IH]; [reflexivity|]. cbn [findall_loop List.filter].
  destruct (ieq (name c) (String a s)); [|exact IH].
  rewrite _findall_one_segment, findall_loop_one. reflexivity.
Qed.

Definition example_tree : node :=
  Node EmptyString [] true
    [Node "A" ["1"] true [];
     Node "A" ["2"] true [Node "B" ["x"] false []]].

(** [findall('A/B')] on a tree with two [A] sections, of which only the
    second has a [B] child, returns the second [A] section itself: the
    first [A]'s call popped ['B'] from the shared list, so the second [A]
    saw an empty path.  The spec's query returns the [B] node. *)
Theorem findall_shared_path_bug :
  findall example_tree "A/B" = [Node "A" ["2"] true [Node "B" ["x"] false []]] /\
  findall_ref example_tree ["A"; "B"] = [Node "B" ["x"] false []] /\
  find example_tree "A/B" = Some (Node "A" ["2"] true [Node "B" ["x"] false []]).
Proof. repeat split; reflexivity. Qed.

End NodeFacts.

(** ** Witnesses on a concrete tree *)

Module NodeWitnesses.
Import ApacheNode NodeFacts.
Local Open Scope string_scope.

(** Witness of C2: ["a/b"] and ["A/B"] query alike. *)
Lemma queries_case_insensitive_witness :
  find example_tree "a/b" = find example_tree "A/B" /\
  findall example_tree "a/b" = findall example_tree "A/B".
Proof. apply (queries_case_insensitive example_tree "a/b" "A/B"). vm_compute. reflexivity. Defined.

(** Witness of C3 on the segment ["a"]. *)
Lemma one_segment_refines_witness :
  find example_tree "a" = find_ref example_tree ["a"] /\
  findall example_tree "a" = findall_ref example_tree ["a"].
Proof. apply (one_segment_refines example_tree "a"); [congruence | reflexivity]. Defined.

(** Witness of C4 on the second [A] section [findall('A/B')] returns. *)
Lemma findall_matches_segments_witness :
  exists c, In c (children example_tree) /\ ieq (name c) "A" = true /\
    matched c ["B"] (Node "A" ["2"] true [Node "B" ["x"] false []]).
Proof.
  apply (findall_matches_segments example_tree "A/B"); [reflexivity|discriminate|].
  vm_compute. left. reflexivity.
Defined.

(** Witness of C5 on [A/B]. *)
Lemma findall_two_segments_witness :
  findall example_tree "A/B" =
  match List.filter (fun c => ieq (name c) "A") (children example_tree) with
  | [] => []
  | c1 :: rest => (List.filter (fun d => ieq (name d) "B") (children c1) ++ rest)%list
  end.
Proof. apply findall_two_segments; [reflexivity|discriminate]. Defined.

End NodeWitnesses.
