(* ===== verification/Parser.v ===== *)
(** * Parser: [ApacheNode._parse], [parse_string] ([src/client/apacheparser.py])

    The line loop of [_parse] as a step function on a parser state, one
    step per physical line.  The state holds the path from the current
    node up to the root (the Python code keeps the same path through the
    [parent] links that [add_child] sets) and the logical line being
    joined when the previous physical line ended in a backslash (the
    Python loop then pulls the next physical line with [itobj.next()]).

    In Python a section node is appended to its parent when its opening
    line is read, and filled in afterwards through the shared object; here
    it is appended when it is closed, or when the input ends.  No sibling
    can be appended to the parent in between (the section is the current
    node until it is closed), so the trees are the same. *)

From Stdlib Require Import String Ascii List Bool ZArith Lia.
From S2P Require Import Prelude PyStr Node.
Import ListNotations.
Import PyStr ApacheNode.
Local Open Scope string_scope.

Module Parser.

(** ** The three regular expressions of [ApacheNode] *)

Definition gt : ascii := ">"%char.
Definition has_gt (s : string) : bool :=
  negb (all_chars (fun c => negb (Ascii.eqb c gt)) s).

(** [re_comment = ^#.*$] *)
Definition is_comment (line : string) : bool :=
  match line with
  | String c _ => Ascii.eqb c "#"%char
  | EmptyString => false
  end.

(** [line[1:-1]] when [line] is [<...>] *)
Definition angle_body (line : string) : option string :=
  match line with
  | String c rest =>
      if Ascii.eqb c "<"%char then
        match last_char rest with
        | Some d => if Ascii.eqb d gt then Some (drop_last rest) else None
        | None => None
        end
      else None
  | EmptyString => None
  end.

Definition section_name_char (c : ascii) : bool :=
  negb (Ascii.eqb c slash || is_space c || Ascii.eqb c gt).

(** [re_section_start = ^<(?P<name>[^/\s>]+)\s*(?P<value>[^>]+)?>$]:
    the name group and the value group ([None] when it did not take part). *)
Definition section_start (line : string) : option (string * option string) :=
  match angle_body line with
  | Some body =>
      if has_gt body then None
      else
        let (nm, rest) := span section_name_char body in
        match nm with
        | EmptyString => None
        | _ => match lstrip_by is_space rest with
               | EmptyString => Some (nm, None)
               | v => Some (nm, Some v)
               end
        end
  | None => None
  end.

(** [re_section_end = ^</(?P<name>[^\s>]+)\s*>$] *)
Definition section_end (line : string) : option string :=
  match angle_body line with
  | Some (String c x) =>
      if Ascii.eqb c slash && negb (has_gt x) then
        let (nm, rest) := span (fun c => negb (is_space c)) x in
        match nm with
        | EmptyString => None
        | _ => if forallb is_space (list_ascii_of_string rest) then Some nm else None
        end
      else None
  | _ => None
  end.

(** [if name[0].islower(): name = name[0].upper() + name[1:]] *)
Definition capitalize (nm : string) : string :=
  match nm with
  | String c r => if is_lower c then String (upper_char c) r else nm
  | EmptyString => EmptyString
  end.

(** ** The parser state *)

(** What [itobj] is: a file object (it has [.next()]) or the list of
    [parse_string] (it has not). *)
Inductive source := FileIter | ListIter.

Record pstate := mk_pstate {
  (** the current node first, then its ancestors; the root is last *)
  stack : list node;
  (** the logical line being joined, ending in a backslash *)
  pending : option string
}.

Definition root_node : node := Node EmptyString [] true [].
Definition init : pstate := mk_pstate [root_node] None.

(** [node = node.add_child(child)] for a leaf, on the current node. *)
Definition add_to_current (c : node) (stk : list node) : list node :=
  match stk with
  | cur :: up => add_child cur c :: up
  | [] => []
  end.

(** Closing the current node: it becomes the last child of its parent. *)
Fixpoint zip_from (cur : node) (up : list node) : node :=
  match up with
  | [] => cur
  | p :: up' => zip_from (add_child p cur) up'
  end.

Definition zip (stk : list node) : node :=
  match stk with
  | [] => root_node
  | cur :: up => zip_from cur up
  end.

(** One logical line, after joining: the body of the loop from
    [m = cls.re_section_start.match(line)] on. *)
Definition process (line : string) (stk : list node) : result (list node) :=
  match section_start line with
  | Some (_, None) => Raise (AttributeError "'NoneType' object has no attribute 'split'")
  | Some (nm, Some v) => Ok (Node nm (split_ws v) true [] :: stk)
  | None =>
      match section_end line with
      | Some nm =>
          match stk with
          | cur :: up =>
              if String.eqb (name cur) nm then
                match up with
                | [] => Raise (AttributeError "ApacheNode instance has no attribute 'parent'")
                | _ => Ok (add_to_current cur up)
                end
              else Raise (SectionMismatch nm (name cur))
          | [] => Ok stk
          end
      | None =>
          match split_ws line with
          | [] => Raise (IndexError "pop from empty list")
          | nm :: vs => Ok (add_to_current (Node (capitalize nm) vs false []) stk)
          end
      end
  end.

(** [' '.join([line[:-1].strip(), next.strip()])] *)
Definition join_next (line raw : string) : string :=
  join " " [strip (drop_last line); strip raw].

(** The loop body for one physical line [raw]. *)
Definition step (src : source) (st : pstate) (raw : string) : result pstate :=
  match pending st with
  | Some acc =>
      let line := join_next acc raw in
      if ends_bslash line then Ok (mk_pstate (stack st) (Some line))
      else let* stk := process line (stack st) in Ok (mk_pstate stk None)
  | None =>
      let line := strip raw in
      if String.eqb line EmptyString || is_comment line then Ok st
      else if ends_bslash line then
        match src with
        | FileIter => Ok (mk_pstate (stack st) (Some line))
        | ListIter => Raise (AttributeError "'list' object has no attribute 'next'")
        end
      else let* stk := process line (stack st) in Ok (mk_pstate stk None)
  end.

(** End of input: [return root]; a pending join means [itobj.next()] hit
    the end of the file. *)
Definition finish (st : pstate) : result node :=
  match pending st with
  | Some _ => Raise StopIteration
  | None => Ok (zip (stack st))
  end.

(** [_parse(itobj)] *)
Definition _parse (src : source) (lines : list string) : result node :=
  let* st := fold_res (step src) lines init in finish st.

(** [str.splitlines()] of Python 2: breaks at ['\n'], ['\r'] and ['\r\n']. *)
Definition lf : ascii := "010"%char.
Definition cr : ascii := "013"%char.

Fixpoint splitlines (s : string) : list string :=
  match s with
  | EmptyString => []
  | String c s' =>
      if Ascii.eqb c lf then EmptyString :: splitlines s'
      else if Ascii.eqb c cr then
        match s' with
        | String d s'' => if Ascii.eqb d lf then EmptyString :: splitlines s''
                          else EmptyString :: splitlines s'
        | EmptyString => [EmptyString]
        end
      else match splitlines s' with
           | [] => [String c EmptyString]
           | l :: ls => String c l :: ls
           end
  end.

(** [parse_string(string)] *)
Definition parse_string (s : string) : result node := _parse ListIter (splitlines s).

End Parser.

(** ** Well-formedness of the parse tree *)

Module ParserFacts.
Import Parser.

Definition starts_lower (s : string) : bool :=
  match s with String c _ => is_lower c | EmptyString => false end.

(** A node below the root: its name is not empty, and a directive is a
    leaf whose name does not start with a lower-case letter. *)
Fixpoint wf_node (n : node) : bool :=
  match n with
  | Node nm vs sec cs =>
      negb (String.eqb nm EmptyString) &&
      (if sec then true
       else match cs with [] => negb (starts_lower nm) | _ => false end) &&
      forallb wf_node cs
  end.

(** An open section on the stack, and the synthetic root at its bottom. *)
Definition frame_ok (f : node) : Prop :=
  name f <> EmptyString /\ section f = true /\ forallb wf_node (children f) = true.

Definition root_ok (r : node) : Prop :=
  name r = EmptyString /\ values r = [] /\ section r = true /\
  forallb wf_node (children r) = true.

Definition wf_stack (stk : list node) : Prop :=
  exists fs r, stk = (fs ++ [r])%list /\ Forall frame_ok fs /\ root_ok r.

Lemma frame_wf f : frame_ok f -> wf_node f = true.
Proof.
  destruct f as [nm vs sec cs]; intros (Hn & Hs & Hc); simpl in *; subst.
  rewrite Hc, andb_true_r. now destruct (String.eqb_spec nm EmptyString).
Qed.

Lemma add_child_children_ok f c :
  forallb wf_node (children f) = true -> wf_node c = true ->
  forallb wf_node (children (add_child f c)) = true.
Proof. intros Hf Hc. simpl. rewrite forallb_app, Hf; simpl. now rewrite Hc. Qed.

Lemma add_to_current_ok c stk :
  wf_node c = true -> wf_stack stk -> wf_stack (add_to_current c stk).
Proof.
  intros Hc (fs & r & -> & Hfs & Hr).
  destruct fs as [|f fs]; simpl.
  - exists [], (add_child r c). destruct Hr as (H1 & H2 & H3 & H4).
    repeat split; auto. now apply add_child_children_ok.
  - inversion Hfs as [|? ? Hf Hfs']; subst.
    exists (add_child f c :: fs), r. split; [reflexivity|split; [|exact Hr]].
    constructor; [|exact Hfs']. destruct Hf as (H1 & H2 & H3).
    repeat split; auto. now apply add_child_children_ok.
Qed.

Lemma push_ok f stk : frame_ok f -> wf_stack stk -> wf_stack (f :: stk).
Proof. intros Hf (fs & r & -> & Hfs & Hr). exists (f :: fs), r; auto. Qed.

Lemma wf_stack_nonempty stk : wf_stack stk -> stk <> [].
Proof. intros (fs & r & -> & _). destruct fs; discriminate. Qed.

Lemma section_start_name line nm o : section_start line = Some (nm, o) -> nm <> EmptyString.
Proof.
  unfold section_start. destruct (angle_body line) as [body|]; [|discriminate].
  destruct (has_gt body); [discriminate|].
  destruct (span section_name_char body) as [[|c s] rest]; [discriminate|].
  destruct (lstrip_by is_space rest); intros H; inv H; discriminate.
Qed.

Lemma capitalize_ok nm :
  nm <> EmptyString -> negb (String.eqb (capitalize nm) EmptyString) = true /\
                       starts_lower (capitalize nm) = false.
Proof.
  destruct nm as [|c r]; [congruence|]; intros _; simpl.
  destruct (is_lower c) eqn:E; simpl; [now rewrite upper_char_not_lower|now rewrite E].
Qed.

(** Closing the current section keeps the stack well formed. *)
Lemma close_ok cur up :
  up <> [] -> wf_stack (cur :: up) -> wf_stack (add_to_current cur up).
Proof.
  intros Hup (fs & r & Heq & Hfs & Hr).
  destruct fs as [|f fs]; simpl in Heq.
  - inversion Heq; subst; congruence.
  - inversion Heq; subst. inversion Hfs; subst.
    apply add_to_current_ok; [now apply frame_wf|]. exists fs, r; auto.
Qed.

Lemma process_ok line stk stk' :
  wf_stack stk -> process line stk = Ok stk' -> wf_stack stk'.
Proof.
  intros Hw. unfold process.
  destruct (section_start line) as [[nm [v|]]|] eqn:Hs; [| discriminate |].
  - intros H; inv H. apply push_ok; auto.
    apply section_start_name in Hs. repeat split; auto.
  - destruct (section_end line) as [nm|].
    + destruct stk as [|cur up]; [intros H; inv H; exact Hw|].
      destruct (String.eqb (name cur) nm); [|discriminate].
      destruct up as [|p up]; [discriminate|].
      intros H; inv H. apply (close_ok cur (p :: up)); [discriminate|exact Hw].
    + pose proof (split_ws_nonempty line) as Hne.
      destruct (split_ws line) as [|nm vs]; [discriminate|].
      intros H; inv H. inversion Hne; subst.
      apply add_to_current_ok; auto. simpl.
      destruct (capitalize_ok nm) as [-> ->]; auto.
Qed.

Lemma step_ok src st raw st' :
  wf_stack (stack st) -> step src st raw = Ok st' -> wf_stack (stack st').
Proof.
  intros Hw. unfold step.
  destruct (pending st) as [acc|].
  - destruct (ends_bslash _); [intros H; inv H; exact Hw|].
    intros H; bind_ok H; inv H. eapply process_ok; eauto.
  - destruct (_ || _); [intros H; inv H; exact Hw|].
    destruct (ends_bslash _); [destruct src; intros H; inv H; exact Hw|].
    intros H; bind_ok H; inv H. eapply process_ok; eauto.
Qed.

Lemma zip_from_ok cur up :
  wf_stack (cur :: up) -> root_ok (zip_from cur up).
Proof.
  revert cur; induction up as [|p up IH]; intros cur Hw; simpl.
  - destruct Hw as (fs & r & Heq & _ & Hr). destruct fs as [|f [|]]; inversion Heq; subst; auto.
  - apply IH. apply (close_ok cur (p :: up)); [discriminate|exact Hw].
Qed.

(** C6. Every tree [_parse] returns is rooted at the synthetic unnamed
    section, and below it every node has a non-empty name and every
    directive is a leaf whose name does not start with a lower-case letter
    (its first letter was capitalised). *)
Theorem parse_wf src lines t :
  _parse src lines = Ok t -> root_ok t.
Proof.
  unfold _parse. intros H; bind_ok H.
  assert (Hw : wf_stack (stack a)).
  { refine (fold_res_invariant (fun st => wf_stack (stack st)) _ _ lines init a _ Hm).
    - intros; eapply step_ok; eauto.
    - exists [], root_node. split; [reflexivity|split; [constructor|repeat split]]. }
  unfold finish in H. destruct (pending a); [discriminate|]. inv H.
  destruct (stack a) as [|cur up] eqn:E; [now apply wf_stack_nonempty in Hw|].
  now apply zip_from_ok.
Qed.

End ParserFacts.

(** ** Errors *)

Module ParserErrors.
Import Parser.

(** A line that raises after a prefix that parsed makes the whole parse
    raise, whatever follows. *)
Lemma parse_raises_at src pre l post st e :
  fold_res (step src) pre init = Ok st -> step src st l = Raise e ->
  _parse src (app pre (l :: post)) = Raise e.
Proof.
  intros Hpre Hl. unfold _parse. rewrite fold_res_app, Hpre. simpl. now rewrite Hl.
Qed.

Lemma angle_body_wrap x : angle_body ("<" ++ x ++ ">") = Some x.
Proof.
  unfold angle_body. simpl. rewrite last_char_snoc, drop_last_snoc. reflexivity.
Qed.

Lemma name_char_no_gt n : all_chars section_name_char n = true -> has_gt n = false.
Proof.
  intros H. unfold has_gt. rewrite (all_chars_impl section_name_char _ n); [reflexivity| |exact H].
  intros c; unfold section_name_char. now destruct (Ascii.eqb c gt), (Ascii.eqb c slash), (is_space c).
Qed.

(** The closing tag [</y>] of a name [y] without blanks or ['>']. *)
Lemma section_end_close y :
  word y -> has_gt y = false -> section_end ("</" ++ y ++ ">") = Some y.
Proof.
  intros [Hne Hw] Hgt. unfold section_end.
  change ("</" ++ y ++ ">") with ("<" ++ (String slash y) ++ ">"). rewrite angle_body_wrap.
  simpl. rewrite Hgt. rewrite <- (append_empty_r y) at 1.
  rewrite span_app by (exact Hw || reflexivity).
  destruct y; [congruence|]. reflexivity.
Qed.

Lemma section_start_close y : section_start ("</" ++ y ++ ">") = None.
Proof.
  unfold section_start. change ("</" ++ y ++ ">") with ("<" ++ (String slash y) ++ ">").
  rewrite angle_body_wrap. now destruct (has_gt (String slash y)).
Qed.

Lemma strip_tag x : strip ("<" ++ x ++ ">") = "<" ++ x ++ ">".
Proof. apply strip_keep; reflexivity. Qed.

Lemma ends_bslash_tag x : ends_bslash ("<" ++ x ++ ">") = false.
Proof.
  unfold ends_bslash. change ("<" ++ x ++ ">") with (String "<" x ++ String ">" EmptyString).
  now rewrite last_char_snoc.
Qed.

(** A logical line that is not pending a join and is its own [strip()]. *)
Lemma step_line src st raw line :
  pending st = None -> strip raw = line -> String.eqb line EmptyString = false ->
  is_comment line = false -> ends_bslash line = false ->
  step src st raw = let* stk := process line (stack st) in Ok (mk_pstate stk None).
Proof.
  intros Hp Hs He Hc Hb. unfold step. rewrite Hp, Hs, He, Hc. simpl. now rewrite Hb.
Qed.

Lemma step_plain src st line :
  pending st = None -> strip line = line -> String.eqb line EmptyString = false ->
  is_comment line = false -> ends_bslash line = false ->
  step src st line = let* stk := process line (stack st) in Ok (mk_pstate stk None).
Proof. apply step_line. Qed.

(** C7. A closing tag whose name differs from the open section's name makes
    [_parse] raise ["Section mismatch"], naming both, whatever comes
    after it. *)
Theorem section_mismatch_raises src pre post st cur up y :
  fold_res (step src) pre init = Ok st -> pending st = None ->
  stack st = cur :: up -> word y -> has_gt y = false -> name cur <> y ->
  _parse src (app pre (("</" ++ y ++ ">") :: post)) = Raise (SectionMismatch y (name cur)).
Proof.
  intros Hpre Hp Hstk Hy Hgt Hne. eapply parse_raises_at; [exact Hpre|].
  change ("</" ++ y ++ ">") with ("<" ++ (String slash y) ++ ">").
  rewrite step_plain by (exact Hp || apply strip_tag || reflexivity || apply ends_bslash_tag).
  change ("<" ++ (String slash y) ++ ">") with ("</" ++ y ++ ">").
  unfold process. rewrite section_start_close, section_end_close, Hstk by assumption.
  now destruct (String.eqb_spec (name cur) y).
Qed.

(** C8. A section opened without arguments, [<Name>], always makes [_parse]
    raise: the optional [value] group did not take part in the match and
    [m.group('value').split()] is [None.split()]. *)
Theorem section_without_args_raises src pre post st n :
  fold_res (step src) pre init = Ok st -> pending st = None ->
  n <> EmptyString -> all_chars section_name_char n = true ->
  _parse src (app pre (("<" ++ n ++ ">") :: post)) =
  Raise (AttributeError "'NoneType' object has no attribute 'split'").
Proof.
  intros Hpre Hp Hne Hn. eapply parse_raises_at; [exact Hpre|].
  rewrite step_plain by (exact Hp || apply strip_tag || reflexivity || apply ends_bslash_tag).
  unfold process, section_start. rewrite angle_body_wrap, name_char_no_gt by exact Hn.
  rewrite <- (append_empty_r n) at 1. rewrite span_app by (exact Hn || reflexivity).
  destruct n; [congruence|]. reflexivity.
Qed.

End ParserErrors.

(** ** [print_r] prints what [_parse] reads back *)

Module ParserRoundtrip.
Import Parser ParserErrors.

Definition value_char (c : ascii) : bool := negb (is_space c) && negb (Ascii.eqb c gt).

Definition word_b (s : string) : bool :=
  negb (String.eqb s EmptyString) && all_chars (fun c => negb (is_space c)) s.

(** A directive name that prints as a directive line and is not renamed:
    it does not start like a comment, a tag, or with a lower-case letter. *)
Definition directive_name_ok (nm : string) : bool :=
  match nm with
  | String c _ => negb (Ascii.eqb c "#"%char) && negb (Ascii.eqb c "<"%char) && negb (is_lower c)
  | EmptyString => false
  end && all_chars (fun c => negb (is_space c)) nm.

(** The printed line does not end in a blank or a backslash. *)
Definition line_end_ok (s : string) : bool :=
  match last_char s with
  | Some d => negb (is_space d) && negb (Ascii.eqb d backslash)
  | None => false
  end.

(** The nodes [print_r] prints in a form [_parse] reads back: sections have
    a name of [[^/\s>]] characters and at least one argument (see C8). *)
Fixpoint printable (n : node) : bool :=
  match n with
  | Node nm vs sec cs =>
      if sec then
        negb (String.eqb nm EmptyString) && all_chars section_name_char nm &&
        negb (match vs with [] => true | _ => false end) &&
        forallb (fun v => negb (String.eqb v EmptyString) && all_chars value_char v) vs &&
        forallb printable cs
      else
        directive_name_ok nm && forallb word_b vs && line_end_ok (join " " (nm :: vs)) &&
        match cs with [] => true | _ => false end
  end.

Lemma angle_body_not_lt c s : Ascii.eqb c "<"%char = false -> angle_body (String c s) = None.
Proof. intros H. unfold angle_body. now rewrite H. Qed.

Lemma word_b_word s : word_b s = true -> word s.
Proof.
  unfold word_b; intros H; apply andb_prop in H as [H1 H2]. split; [|exact H2].
  now destruct (String.eqb_spec s EmptyString).
Qed.

Lemma value_word v : negb (String.eqb v EmptyString) && all_chars value_char v = true -> word v.
Proof.
  intros H; apply andb_prop in H as [H1 H2]. split.
  - now destruct (String.eqb_spec v EmptyString).
  - apply (all_chars_impl value_char); [|exact H2].
    intros c; unfold value_char; now destruct (is_space c).
Qed.

Lemma step_directive src stk k nm vs :
  printable (Node nm vs false []) = true ->
  step src (mk_pstate stk None) (pad k ++ nm ++ " " ++ join " " vs) =
  Ok (mk_pstate (add_to_current (Node nm vs false []) stk) None).
Proof.
  intros H; simpl in H. apply andb_prop in H as [H Hnil]. apply andb_prop in H as [H Hend].
  apply andb_prop in H as [Hnm Hvs].
  destruct nm as [|c r]; [discriminate|].
  unfold directive_name_ok in Hnm. apply andb_prop in Hnm as [Hc Hw].
  apply andb_prop in Hc as [Hc Hlow]. apply andb_prop in Hc as [Hhash Hlt].
  unfold line_end_ok in Hend.
  destruct (last_char (join " " (String c r :: vs))) as [d|] eqn:Hlast; [|discriminate].
  apply andb_prop in Hend as [Hds Hdb].
  assert (Hcs : is_space c = false).
  { unfold all_chars in Hw; simpl in Hw. now destruct (is_space c). }
  assert (Hstrip : strip (pad k ++ String c r ++ " " ++ join " " vs) = join " " (String c r :: vs)).
  { rewrite join_cons in Hlast |- *. destruct vs as [|v vs].
    - change (join " " []) with EmptyString. rewrite !append_empty_r in *.
      apply (strip_line k c r " " d); auto.
      now destruct (is_space d).
    - apply (strip_pad_keep k c _ d); auto. now destruct (is_space d). }
  rewrite (step_line src (mk_pstate stk None) _ _ eq_refl Hstrip).
  2: { rewrite join_cons; reflexivity. }
  2: { rewrite join_cons; simpl; now destruct (Ascii.eqb c "#"%char). }
  2: { unfold ends_bslash. rewrite Hlast. now destruct (Ascii.eqb d backslash). }
  assert (HJ : exists t, join " " (String c r :: vs) = String c t)
    by (rewrite join_cons; eexists; reflexivity).
  destruct HJ as [t HJ].
  unfold process, section_start, section_end. rewrite HJ, angle_body_not_lt
    by (now destruct (Ascii.eqb c "<"%char)).
  rewrite <- HJ, split_ws_join.
  - simpl. destruct (is_lower c); [discriminate|]. reflexivity.
  - constructor; [split; [congruence|exact Hw]|].
    apply Forall_forall; intros v Hv. apply word_b_word.
    rewrite forallb_forall in Hvs. now apply Hvs.
Qed.

(** [strip()] of an indented tag line. *)
Lemma strip_pad_tag k x : strip (pad k ++ "<" ++ x ++ ">") = "<" ++ x ++ ">".
Proof.
  apply (strip_pad_keep k "<"%char (x ++ ">") ">"%char); [reflexivity| |reflexivity].
  apply (last_char_snoc (String "<" x)).
Qed.

Lemma step_tag src stk k x :
  step src (mk_pstate stk None) (pad k ++ "<" ++ x ++ ">") =
  let* stk' := process ("<" ++ x ++ ">") stk in Ok (mk_pstate stk' None).
Proof.
  apply step_line; [reflexivity|apply strip_pad_tag|reflexivity|reflexivity|apply ends_bslash_tag].
Qed.

Lemma not_gt_of_value v : all_chars value_char v = true -> all_chars (fun c => negb (Ascii.eqb c gt)) v = true.
Proof.
  apply all_chars_impl. intros c; unfold value_char. now destruct (is_space c), (Ascii.eqb c gt).
Qed.

Lemma step_open src stk k nm vs :
  nm <> EmptyString -> all_chars section_name_char nm = true -> vs <> [] ->
  Forall (fun v => negb (String.eqb v EmptyString) && all_chars value_char v = true) vs ->
  step src (mk_pstate stk None) (pad k ++ "<" ++ nm ++ " " ++ join " " vs ++ ">") =
  Ok (mk_pstate (Node nm vs true [] :: stk) None).
Proof.
  intros Hnm Hn Hvs Hv. rewrite <- (append_assoc_str nm), <- (append_assoc_str (nm ++ " ")), step_tag.
  unfold process, section_start. rewrite angle_body_wrap.
  assert (Hgt : has_gt ((nm ++ " ") ++ join " " vs) = false).
  { unfold has_gt. rewrite !all_chars_app, (all_chars_join _ " " vs); [|reflexivity|].
    - rewrite (all_chars_impl section_name_char _ nm); [reflexivity| |exact Hn].
      intros c; unfold section_name_char.
      now destruct (Ascii.eqb c gt), (Ascii.eqb c slash), (is_space c).
    - eapply Forall_impl; [|exact Hv]. intros v H; apply andb_prop in H as [_ H].
      now apply not_gt_of_value. }
  rewrite Hgt, append_assoc_str, span_app by (exact Hn || reflexivity).
  destruct vs as [|v vs']; [congruence|].
  inversion Hv as [|? ? Hv1 Hvs']; subst. pose proof (value_word v Hv1) as [Hvne Hvw].
  destruct v as [|c r]; [congruence|].
  assert (Hc : is_space c = false).
  { unfold all_chars in Hvw; simpl in Hvw. now destruct (is_space c). }
  assert (Hl : lstrip_by is_space (String " " (join " " (String c r :: vs'))) =
                join " " (String c r :: vs')).
  { simpl. rewrite join_cons. simpl. now rewrite Hc. }
  change (" " ++ join " " (String c r :: vs')) with (String " " (join " " (String c r :: vs'))).
  rewrite Hl. destruct nm as [|a nm']; [congruence|].
  assert (Hne : join " " (String c r :: vs') <> EmptyString) by (rewrite join_cons; discriminate).
  destruct (join " " (String c r :: vs')) eqn:EJ; [congruence|]. rewrite <- EJ.
  rewrite split_ws_join; [reflexivity|].
  constructor; [split; assumption|].
  eapply Forall_impl; [|exact Hvs']. intros w H. now apply value_word.
Qed.

Lemma step_close src stk k nm vs cs :
  word nm -> has_gt nm = false -> stk <> [] ->
  step src (mk_pstate (Node nm vs true cs :: stk) None) (pad k ++ "</" ++ nm ++ ">") =
  Ok (mk_pstate (add_to_current (Node nm vs true cs) stk) None).
Proof.
  intros Hw Hgt Hstk.
  change (pad k ++ "</" ++ nm ++ ">") with (pad k ++ "<" ++ (String slash nm) ++ ">").
  rewrite step_tag. change ("<" ++ (String slash nm) ++ ">") with ("</" ++ nm ++ ">").
  unfold process. rewrite section_start_close, section_end_close by assumption.
  simpl. rewrite String.eqb_refl. destruct stk; [congruence|]. reflexivity.
Qed.

(** Printing a node at indentation [k >= 0] and parsing the lines appends
    that node to the current node. *)
Definition prints_back (src : source) (n : node) : Prop :=
  forall k stk, (0 <= k)%Z -> stk <> [] ->
  fold_res (step src) (print_r n k) (mk_pstate stk None) =
  Ok (mk_pstate (add_to_current n stk) None).

Lemma print_children src k nm vs cs :
  Forall (fun c => printable c = true -> prints_back src c) cs ->
  forallb printable cs = true -> (0 <= k)%Z ->
  forall acc stk,
  fold_res (step src) (flat_map (fun c => print_r c k) cs) (mk_pstate (Node nm vs true acc :: stk) None) =
  Ok (mk_pstate (Node nm vs true (app acc cs) :: stk) None).
Proof.
  induction 1 as [|c cs Hc _ IH]; intros Hp Hk acc stk; simpl.
  - now rewrite app_nil_r.
  - apply andb_prop in Hp as [Hpc Hpcs].
    rewrite fold_res_app, (Hc Hpc k _ Hk) by discriminate. simpl.
    unfold add_child; cbn [name values section children].
    rewrite (IH Hpcs Hk (app acc [c]) stk). now rewrite <- app_assoc.
Qed.

Lemma print_steps src n : printable n = true -> prints_back src n.
Proof.
  induction n as [nm vs sec cs IH] using node_ind; intros Hp k stk Hk Hstk.
  assert (Hk' : Z.leb 0 k = true) by (now apply Z.leb_le).
  destruct sec; simpl in Hp; cbn [print_r]; rewrite Hk'.
  - apply andb_prop in Hp as [Hp Hcs]. apply andb_prop in Hp as [Hp Hvals].
    apply andb_prop in Hp as [Hp Hvs]. apply andb_prop in Hp as [Hnm Hn].
    rewrite fold_res_app, fold_res_one.
    rewrite step_open; [simpl| now destruct (String.eqb_spec nm EmptyString) | exact Hn
                          | now destruct vs | apply Forall_forall; intros v Hv; exact (proj1 (forallb_forall _ _) Hvals v Hv)].
    rewrite fold_res_app, (print_children src (k + 1) nm vs cs IH Hcs) by lia.
    rewrite bind_Ok, app_nil_l, fold_res_one.
    change (String "<" (String "/" (nm ++ ">"))) with ("</" ++ nm ++ ">").
    rewrite step_close; [reflexivity| | |exact Hstk].
    + split; [now destruct (String.eqb_spec nm EmptyString)|].
      apply (all_chars_impl section_name_char); [|exact Hn].
      intros c; unfold section_name_char. now destruct (Ascii.eqb c gt), (Ascii.eqb c slash), (is_space c).
    + now apply name_char_no_gt.
  - destruct cs; [|now rewrite andb_false_r in Hp].
    rewrite fold_res_one, step_directive; [reflexivity|exact Hp].
Qed.

(** C9. Printing a tree with [print_r] and parsing the printed lines gives
    the tree back, for every tree whose names and values print as tokens
    the regular expressions read back (sections with at least one argument,
    directive names not starting with [#], [<] or a lower-case letter, no
    blanks inside a token, no trailing backslash); from a file or from a
    string alike. *)
Theorem print_parse_roundtrip src cs :
  forallb printable cs = true ->
  _parse src (print_r (Node EmptyString [] true cs) (-1)) = Ok (Node EmptyString [] true cs).
Proof.
  intros Hcs. unfold _parse. cbn [print_r]. simpl Z.leb. rewrite app_nil_l, app_nil_r.
  assert (Hall : Forall (fun c => printable c = true -> prints_back src c) cs)
    by (apply Forall_forall; intros c _; apply print_steps).
  unfold init, root_node.
  rewrite (print_children src (-1 + 1) EmptyString [] cs Hall Hcs) by lia. reflexivity.
Qed.

End ParserRoundtrip.

(** ** Continuation lines *)

Module ParserContinuation.
Import Parser ParserErrors.

Lemma step_starts_join src st l1 :
  pending st = None -> String.eqb (strip l1) EmptyString = false ->
  is_comment (strip l1) = false -> ends_bslash (strip l1) = true ->
  step src st l1 = match src with
                   | FileIter => Ok (mk_pstate (stack st) (Some (strip l1)))
                   | ListIter => Raise (AttributeError "'list' object has no attribute 'next'")
                   end.
Proof. intros Hp He Hc Hb. unfold step. now rewrite Hp, He, Hc, Hb. Qed.

Lemma step_join_done src st acc raw :
  pending st = Some acc -> ends_bslash (join_next acc raw) = false ->
  step src st raw = let* stk := process (join_next acc raw) (stack st) in Ok (mk_pstate stk None).
Proof. intros Hp Hb. unfold step. now rewrite Hp, Hb. Qed.

(** C10. Read from a file, a line ending in a backslash and the line after
    it parse exactly as the single line [' '.join([l1[:-1].strip(),
    l2.strip()])] would. *)
Theorem continuation_joins pre l1 l2 post st :
  fold_res (step FileIter) pre init = Ok st -> pending st = None ->
  String.eqb (strip l1) EmptyString = false -> is_comment (strip l1) = false ->
  ends_bslash (strip l1) = true ->
  let j := join_next (strip l1) l2 in
  strip j = j -> String.eqb j EmptyString = false -> is_comment j = false -> ends_bslash j = false ->
  _parse FileIter (app pre (l1 :: l2 :: post)) = _parse FileIter (app pre (j :: post)).
Proof.
  intros Hpre Hp He Hc Hb j Hjs Hje Hjc Hjb. unfold _parse.
  rewrite !fold_res_app, Hpre. simpl bind.
  cbn [fold_res]. rewrite step_starts_join by assumption. rewrite bind_Ok.
  rewrite (step_plain FileIter st j) by assumption.
  rewrite (step_join_done FileIter (mk_pstate (stack st) (Some (strip l1))) (strip l1) l2 eq_refl Hjb).
  reflexivity.
Qed.

(** C11. A line ending in a backslash cannot be joined when the input is a
    string ([parse_string] iterates over a list, which has no [next()]),
    nor at the end of a file ([StopIteration]): the parse raises. *)
Theorem continuation_raises src pre l1 post st :
  fold_res (step src) pre init = Ok st -> pending st = None ->
  String.eqb (strip l1) EmptyString = false -> is_comment (strip l1) = false ->
  ends_bslash (strip l1) = true -> (src = ListIter \/ post = []) ->
  _parse src (app pre (l1 :: post)) =
  Raise (match src with
         | FileIter => StopIteration
         | ListIter => AttributeError "'list' object has no attribute 'next'"
         end).
Proof.
  intros Hpre Hp He Hc Hb Hsrc. destruct src.
  - destruct Hsrc as [Hsrc| ->]; [discriminate|].
    unfold _parse. rewrite fold_res_app, Hpre. simpl bind. cbn [fold_res].
    now rewrite step_starts_join.
  - eapply parse_raises_at; [exact Hpre|]. now rewrite step_starts_join.
Qed.

End ParserContinuation.

(** ** Witnesses *)

Module ParserWitnesses.
Import Parser ParserFacts ParserErrors ParserRoundtrip ParserContinuation.

Definition open_A : node := Node "A" ["x"] true [].

Lemma section_mismatch_raises_witness :
  _parse FileIter ["<A x>"; "</B>"] = Raise (SectionMismatch "B" "A").
Proof.
  exact (section_mismatch_raises FileIter ["<A x>"] [] (mk_pstate [open_A; root_node] None)
           open_A [root_node] "B" eq_refl eq_refl eq_refl
           (conj (fun H : "B" = EmptyString => ltac:(discriminate H)) eq_refl) eq_refl
           (fun H : "A" = "B" => ltac:(discriminate H))).
Defined.

Lemma section_without_args_raises_witness :
  parse_string "<A>
</A>" = Raise (AttributeError "'NoneType' object has no attribute 'split'").
Proof.
  exact (section_without_args_raises ListIter [] ["</A>"] init "A" eq_refl eq_refl
           (fun H : "A" = EmptyString => ltac:(discriminate H)) eq_refl).
Defined.

Lemma parse_wf_witness :
  root_ok (Node EmptyString [] true [Node "Listen" ["80"] false []]).
Proof. exact (parse_wf FileIter ["  listen 80"] _ eq_refl). Defined.

Definition vhost : node :=
  Node "VirtualHost" ["*:80"] true [Node "ServerName" ["example.com"] false []].

Lemma print_parse_roundtrip_witness :
  _parse FileIter (print_r (Node EmptyString [] true [vhost]) (-1)) =
  Ok (Node EmptyString [] true [vhost]).
Proof. exact (print_parse_roundtrip FileIter [vhost] eq_refl). Defined.

Lemma continuation_joins_witness :
  _parse FileIter ["Foo bar \"; "baz"] = _parse FileIter ["Foo bar baz"].
Proof.
  exact (continuation_joins [] "Foo bar \" "baz" [] init eq_refl eq_refl eq_refl eq_refl
           eq_refl eq_refl eq_refl eq_refl eq_refl).
Defined.

Lemma continuation_raises_witness :
  parse_string "Foo bar \
baz" = Raise (AttributeError "'list' object has no attribute 'next'").
Proof.
  exact (continuation_raises ListIter [] "Foo bar \" ["baz"] init eq_refl eq_refl eq_refl
           eq_refl eq_refl (or_introl eq_refl)).
Defined.

End ParserWitnesses.

(** ** Behaviour on concrete input *)

Module ParserExamples.
Import Parser ParserRoundtrip.

(** C21. A section left open at the end of the input is accepted: after
    any prefix the parser accepts, a last line that opens a section makes
    [_parse] return the tree with that section closed implicitly, as the
    last child of the current node, where the spec asks for an error on
    unbalanced sections. *)
Theorem unterminated_section_accepted src pre st nm vs :
  fold_res (step src) pre init = Ok st -> pending st = None ->
  nm <> EmptyString -> all_chars section_name_char nm = true -> vs <> [] ->
  Forall (fun v => negb (String.eqb v EmptyString) && all_chars value_char v = true) vs ->
  _parse src (app pre ["<" ++ nm ++ " " ++ join " " vs ++ ">"]) =
  Ok (zip_from (Node nm vs true []) (stack st)).
Proof.
  intros Hpre Hp Hnm Hn Hvs Hv. unfold _parse. rewrite fold_res_app, Hpre. cbn [bind fold_res].
  destruct st as [stk pend]; cbn in Hp; subst pend.
  replace ("<" ++ nm ++ " " ++ join " " vs ++ ">") with (pad 0 ++ "<" ++ nm ++ " " ++ join " " vs ++ ">")
    by reflexivity.
  rewrite (step_open src stk 0 nm vs Hnm Hn Hvs Hv). reflexivity.
Qed.

(** Witness of C21 on an unclosed [<VirtualHost *:80>] after a directive. *)
Lemma unterminated_section_accepted_witness :
  _parse FileIter (app ["Listen 80"] ["<" ++ "VirtualHost" ++ " " ++ join " " ["*:80"] ++ ">"]) =
  Ok (zip_from (Node "VirtualHost" ["*:80"] true [])
        [Node EmptyString [] true [Node "Listen" ["80"] false []]]).
Proof.
  apply (unterminated_section_accepted FileIter ["Listen 80"]
           (mk_pstate [Node EmptyString [] true [Node "Listen" ["80"] false []]] None));
    try reflexivity; try discriminate.
  repeat constructor.
Defined.

(** The same on a concrete file: the open [VirtualHost] keeps the
    directive after it. *)
Theorem unterminated_section_example :
  _parse FileIter ["<VirtualHost *:80>"; "ServerName a.org"] =
  Ok (Node EmptyString [] true
        [Node "VirtualHost" ["*:80"] true [Node "ServerName" ["a.org"] false []]]).
Proof. vm_compute. reflexivity. Qed.

End ParserExamples.
