(* ===== verification/Lines.v ===== *)
(** * Lines: the continuation-joining loop shared by three readers

    [clean_body] ([src/client/common.py]), [SSHConfig.parse]
    ([src/client/inventory.py], [src/client/sshconfigparser.py]) and
    [IPTables._parse] ([src/client/inventory.py]) all repeat one loop:

    for index, line in enumerate(lines):
        line = line.strip()
        if <skip line>: continue
        if line and line[-1] == '\\':
            while line[-1] == '\\':
                line = ' '.join([line[:-1].strip(), lines[index + 1].strip()])
                del lines[index + 1]
        <use line>

    Deleting [lines[index + 1]] while [enumerate] walks the list makes the
    loop skip the physical lines that were joined.  The model reads one
    physical line per step and keeps the logical line being joined as
    [pending]; a loop that ends with a pending line is the [IndexError] of
    [lines[index + 1]].  [join_lines] is parameterised by the [skip] test and
    the [use] action of each caller.  The reference [logical_lines] reads
    the list the other way, as the Python loop does with its [del]: a line
    ending in a backslash takes the following physical lines off the list
    ([gather]) and reading goes on after them; [join_lines_logical] shows
    that the one-pass loop uses exactly these logical lines, in order. *)

From Stdlib Require Import String List Bool Lia.
From S2P Require Import Prelude PyStr Node Parser.
Import ListNotations.
Import PyStr Parser.
Local Open Scope string_scope.

Module Joiner.

Section joiner.
Context {A : Type} (skip : string -> bool) (use : A -> string -> A).

(** One index of the loop: [pending] is the logical line still being
    joined, [a] what the caller has built so far. *)
Definition join_step (st : option string * A) (raw : string) : option string * A :=
  let (pend, a) := st in
  match pend with
  | Some acc =>
      let line := join_next acc raw in
      if ends_bslash line then (Some line, a) else (None, use a line)
  | None =>
      let line := strip raw in
      if skip line then st
      else if ends_bslash line then (Some line, a) else (None, use a line)
  end.

(** The whole loop; [lines[index + 1]] past the end raises. *)
Definition join_lines (lines : list string) (a0 : A) : result A :=
  match List.fold_left join_step lines (None, a0) with
  | (Some _, _) => Raise (IndexError "list index out of range")
  | (None, a) => Ok a
  end.

End joiner.

(** The [while] loop on one logical line: the physical lines after it are
    joined on and deleted from the list while the line ends in a
    backslash; the joined line and what is left of the list, or [None]
    when the list runs out. *)
Fixpoint gather (acc : string) (rest : list string) : option (string * list string) :=
  match rest with
  | [] => None
  | raw :: rest' =>
      let line := join_next acc raw in
      if ends_bslash line then gather line rest' else Some (line, rest')
  end.

(** The logical lines of a list, reading on after the lines each one
    consumed; every round consumes a line, so [fuel] lines are enough. *)
Fixpoint read_logical (fuel : nat) (skip : string -> bool) (lines : list string)
  : result (list string) :=
  match fuel, lines with
  | O, _ | _, [] => Ok []
  | S f, raw :: rest =>
      let line := strip raw in
      if skip line then read_logical f skip rest
      else if ends_bslash line then
        match gather line rest with
        | None => Raise (IndexError "list index out of range")
        | Some (l, rest') => let* ls := read_logical f skip rest' in Ok (l :: ls)
        end
      else let* ls := read_logical f skip rest in Ok (line :: ls)
  end.

Definition logical_lines (skip : string -> bool) (lines : list string) : result (list string) :=
  read_logical (length lines) skip lines.

End Joiner.

Module JoinerFacts.
Import Joiner.

Section facts.
Context {A : Type} (skip : string -> bool) (use : A -> string -> A).

(** The loop from a state, to its end. *)
Definition run_from (st : option string * A) (lines : list string) : result A :=
  match List.fold_left (join_step skip use) lines st with
  | (Some _, _) => Raise (IndexError "list index out of range")
  | (None, a) => Ok a
  end.

(** A pending line reads the lines [gather] consumes, then goes on. *)
Lemma run_from_gather acc a rest :
  run_from (Some acc, a) rest =
  match gather acc rest with
  | None => Raise (IndexError "list index out of range")
  | Some (l, rest') => run_from (None, use a l) rest'
  end.
Proof.
  revert acc; induction rest as [|raw rest IH]; intros acc; [reflexivity|].
  unfold run_from. cbn [List.fold_left gather]. unfold join_step at 2.
  destruct (ends_bslash (join_next acc raw)); [apply IH|reflexivity].
Qed.

Lemma gather_shorter acc rest l rest' :
  gather acc rest = Some (l, rest') -> length rest' < length rest.
Proof.
  revert acc; induction rest as [|raw rest IH]; intros acc; simpl; [discriminate|].
  destruct (ends_bslash (join_next acc raw)); [intros H; apply IH in H; lia|].
  intros H; inv H; lia.
Qed.

Lemma run_from_read fuel : forall lines a,
  length lines <= fuel ->
  run_from (None, a) lines = fmap_result (fun ls => List.fold_left use ls a) (read_logical fuel skip lines).
Proof.
  induction fuel as [|f IH]; intros [|raw rest] a Hlen; try reflexivity; [simpl in Hlen; lia|].
  cbn [read_logical]. unfold run_from. cbn [List.fold_left]. unfold join_step at 2.
  fold (run_from (None, a) rest). simpl in Hlen.
  destruct (skip (strip raw)); [apply IH; lia|].
  destruct (ends_bslash (strip raw)).
  - fold (run_from (Some (strip raw), a) rest). rewrite run_from_gather.
    destruct (gather (strip raw) rest) as [[l rest']|] eqn:Eg; [|reflexivity].
    apply gather_shorter in Eg. rewrite IH by lia.
    destruct (read_logical f skip rest'); reflexivity.
  - fold (run_from (None, use a (strip raw)) rest). rewrite IH by lia.
    destruct (read_logical f skip rest); reflexivity.
Qed.

(** Two [skip] tests that agree on every line give the same loop. *)
Lemma join_lines_ext skip' lines a0 :
  (forall l, skip l = skip' l) -> join_lines skip use lines a0 = join_lines skip' use lines a0.
Proof.
  intros Hs. unfold join_lines. f_equal. generalize (@None string, a0) as st.
  induction lines as [|raw lines IH]; intros st; [reflexivity|]. cbn [List.fold_left].
  rewrite <- IH. f_equal. destruct st as [[acc|] a]; simpl; [reflexivity|]. now rewrite Hs.
Qed.

End facts.

(** C23. The one-pass loop with its pending line is the reference reading
    that deletes the continuation lines from the list: it raises
    [IndexError] exactly when a continuation runs past the end of the list,
    and otherwise its result is the action folded over the logical lines,
    in order, each physical line used once. *)
Theorem join_lines_logical {A} skip (use : A -> string -> A) lines a0 :
  join_lines skip use lines a0 =
  fmap_result (fun ls => List.fold_left use ls a0) (logical_lines skip lines).
Proof. exact (run_from_read skip use (length lines) lines a0 (le_n _)). Qed.

(** ** The loop and the parser see the same continuations *)

Section agree.
(** A [skip] test that drops empty lines and [#] comments, as the parser does. *)
Context (skip : string -> bool)
  (Hskip : forall l, skip l = String.eqb l EmptyString || is_comment l).
Context {A : Type} (use : A -> string -> A).

Lemma join_step_agree st raw st' cst :
  fst cst = pending st -> step FileIter st raw = Ok st' ->
  fst (join_step skip use cst raw) = pending st'.
Proof.
  destruct cst as [pend a]; cbn [fst]; intros -> Hs. unfold step in Hs; unfold join_step.
  destruct (pending st) as [acc|] eqn:Ep.
  - destruct (ends_bslash (join_next acc raw)); [now inv Hs|]. bind_ok Hs. now inv Hs.
  - rewrite Hskip.
    destruct (String.eqb (strip raw) EmptyString || is_comment (strip raw)); [inv Hs; now rewrite Ep|].
    destruct (ends_bslash (strip raw)); [now inv Hs|]. bind_ok Hs. now inv Hs.
Qed.

Lemma join_fold_agree lines : forall st st' cst,
  fst cst = pending st -> fold_res (step FileIter) lines st = Ok st' ->
  fst (List.fold_left (join_step skip use) lines cst) = pending st'.
Proof.
  induction lines as [|raw lines IH]; simpl; intros st st' cst Hc Hf; [now inv Hf|].
  bind_ok Hf. exact (IH _ _ _ (join_step_agree _ _ _ _ Hc Hm) Hf).
Qed.

(** The loop does not raise on the lines of a file [_parse] accepts. *)
Lemma join_lines_parsed lines a0 t :
  _parse FileIter lines = Ok t -> exists a, join_lines skip use lines a0 = Ok a.
Proof.
  unfold _parse, join_lines. intros Hp. bind_ok Hp.
  pose proof (join_fold_agree lines init a (None, a0) eq_refl Hm) as Hc.
  unfold finish in Hp. destruct (pending a); [discriminate|].
  destruct (List.fold_left _ lines _) as [[]]; [discriminate|]. eauto.
Qed.

End agree.

End JoinerFacts.
