(* ===== verification/FileSystem.v ===== *)
(** * FileSystem: what the modelled code asks of the operating system

    The interface between the parser and the files it reads: [open] and
    iteration over lines ([read_lines], [None] where Python raises
    [IOError]), [glob.glob] and [os.path.exists], with the one law the
    code relies on: [glob] only returns paths that exist.  [listfs] is an
    implementation over a list of (path, lines) pairs with a shell-pattern
    matcher for [*], [?] and literal characters (no character classes),
    used by the witnesses.  [Os] is the interface to the shell, the
    resolver and [os.path.abspath]; [Paths] holds the paths of
    [settings.conf]. *)

From stdpp Require Import base list strings.
From Stdlib Require Import Ascii.
From S2P Require Import Prelude PyStr.

Class FileSystem := {
  read_lines : string -> option (list string);
  glob : string -> list string;
  path_exists : string -> bool;
  glob_exists : forall p f, In f (glob p) -> path_exists f = true
}.

(** Configuration constants of [common.py], read once from [settings.conf]:
    [APACHE_ROOT], [APACHE_CONF], [DEBUG], [PARSE_CONF_COMMENTS]. *)
Record Settings := mk_settings {
  apache_root : string;
  apache_conf : string;
  debug : bool;
  parse_conf_comments : bool
}.

(** What the scrapers of [inventory.py] ask of the operating system:
    the standard output of a shell command
    ([subprocess.Popen(cmd, shell=True, stdout=PIPE).communicate()[0]]), the
    address [socket.gethostbyaddr(socket.gethostname())[-1][0]] ([None] when
    the lookup raises one of the socket errors the code catches), and
    [os.path.abspath]. *)
Class Os := {
  run : string -> string;
  host_ip : option string;
  abspath : string -> string
}.

(** The path and command settings of [common.py]: [ROOT] (the client's
    directory, used by [path()]) and the entries of the [paths] section. *)
Record Paths := mk_paths {
  root_dir : string;
  rh_release : string;
  ip_forward : string;
  rpm_pkgs : string;
  ssh_config_file : string;
  iptables : string;
  php_ini : string;
  my_cnf : string;
  ifconfig : string;
  hostname_cmd : string;
  uname : string;
  mount : string;
  lsof : string;
  iptables_save : string
}.

Module ListFs.

(** [fnmatch] for one path: [*] and [?] do not match ['/']. *)
Fixpoint fnmatch (p s : list ascii) : bool :=
  match p with
  | [] => match s with [] => true | _ => false end
  | c :: p' =>
      if Ascii.eqb c "*"%char then
        (fix star (s : list ascii) : bool :=
           fnmatch p' s ||
           match s with
           | [] => false
           | d :: s' => negb (Ascii.eqb d PyStr.slash) && star s'
           end) s
      else
        match s with
        | [] => false
        | d :: s' =>
            (if Ascii.eqb c "?"%char then negb (Ascii.eqb d PyStr.slash) else Ascii.eqb c d)
            && fnmatch p' s'
        end
  end.

Section listfs.
Context (files : list (string * list string)).

Definition lf_read (f : string) : option (list string) :=
  snd <$> List.find (fun e => String.eqb (fst e) f) files.

Definition lf_exists (f : string) : bool :=
  List.existsb (fun e => String.eqb (fst e) f) files.

Definition lf_glob (p : string) : list string :=
  List.filter (fun f => fnmatch (String.list_ascii_of_string p) (String.list_ascii_of_string f))
    (List.map fst files).

Lemma lf_glob_exists p f : In f (lf_glob p) -> lf_exists f = true.
Proof.
  unfold lf_glob, lf_exists. intros H. apply filter_In in H as [H _].
  apply in_map_iff in H as ([f' ls] & <- & Hin). apply existsb_exists.
  exists (f', ls). split; [exact Hin|]. apply String.eqb_refl.
Qed.

Lemma lf_read_absent f :
  forallb (fun e => negb (String.eqb (fst e) f)) files = true -> lf_read f = None.
Proof.
  unfold lf_read. induction files as [|[g ls] fs IH]; simpl; [reflexivity|].
  destruct (String.eqb g f); simpl; [discriminate|exact IH].
Qed.

#[export] Instance listfs : FileSystem := {|
  read_lines := lf_read;
  glob := lf_glob;
  path_exists := lf_exists;
  glob_exists := lf_glob_exists
|}.
End listfs.

End ListFs.
