(* ===== verification/Config.v ===== *)
(** * Config: [ApacheConfig] ([src/client/apacheparser.py]) and [clean_body]
    ([src/client/common.py])

    One object per parsed file: its name, its tree, the directive index
    [directives] (a Python dict from a name to the list of its joined
    values) and the virtual-host map [domains] (a dict from a [ServerName]
    to a list of port lists).  The dicts are stdpp [gmap]s.  Methods that
    mutate the object return the new object. *)

From stdpp Require Import gmap strings.
From Stdlib Require Import Ascii ZArith.
From S2P Require Import Prelude PyStr Node Parser Lines FileSystem.
Import PyStr ApacheNode Parser.

(** The names bound at module level. *)
Module PyGlobals.

(** [common.py], in the order of its statements; [f] is the variable of
    the list comprehension of line 56, which Python 2 leaks into the
    module. *)
Definition common_globals : list string :=
  ["ConfigParser"; "os"; "re"; "sys"; "ROOT"; "path"; "warnings"; "CLIENT_CONFIG_FN";
   "client_config"; "HOST"; "PORT"; "AUTH_KEY"; "DEBUG"; "RH_RELEASE"; "IP_FORWARD";
   "RPM_PKGS"; "SSH_CONFIG_FILE"; "IPTABLES"; "PHP_INI"; "MY_CNF"; "IFCONFIG"; "HOSTNAME";
   "UNAME"; "MOUNT"; "LSOF"; "IPTABLES_SAVE"; "APACHE_ROOT"; "APACHE_CONF";
   "f"; "APACHE_IGNORE_DIRECTIVES"; "PARSE_CONF_COMMENTS"; "clean_body"].

(** [apacheparser.py]: its imports, the names of [from common import *]
    and its two classes. *)
Definition apacheparser_globals : list string :=
  ["glob"; "os"; "re"; "sys"] ++ common_globals ++ ["ApacheNode"; "ApacheConfig"].

End PyGlobals.

Module ApacheConfig.

Abbreviation dict V := (gmap string V).

Record config := mk_config {
  filename : option string;
  root : option node;
  directives : dict (list string);
  domains : dict (list (list string))
}.

(** [ApacheConfig()] *)
Definition new : config := mk_config None None ∅ ∅.

(** [ApacheNode.parse_file(file)]: [None] is the [False] returned on
    [IOError]; any other exception propagates. *)
Definition parse_file `{FileSystem} (file : string) : result (option node) :=
  match read_lines file with
  | None => Ok None
  | Some lines => let* t := _parse FileIter lines in Ok (Some t)
  end.

(** ** [scan_children] *)

(** One dict entry per node of the body dump. *)
Inductive body_entry := BodyEntry (name value : string) (children : list body_entry).

(** The dict update of [scan_children] for one node:
    exact key, else the lower-cased key, else a new exact key. *)
Definition record (nm value : string) (d : dict (list string)) : dict (list string) :=
  match d !! nm with
  | Some l => <[nm := l ++ [value]]> d
  | None =>
      match d !! lower nm with
      | Some l => <[lower nm := l ++ [value]]> d
      | None => <[nm := [value]]> d
      end
  end.

(** The [for child in children] loop; [rec] handles one child. *)
Fixpoint scan_loop (rec : node -> dict (list string) -> body_entry * dict (list string))
    (cs : list node) (d : dict (list string)) : list body_entry * dict (list string) :=
  match cs with
  | [] => ([], d)
  | c :: cs' =>
      let (e, d1) := rec c d in
      let (es, d2) := scan_loop rec cs' d1 in
      (e :: es, d2)
  end.

(** One child: its children are scanned first (inside the [body_list.append]
    call), then its own value is recorded. *)
Fixpoint scan_child (c : node) (d : dict (list string)) : body_entry * dict (list string) :=
  match c with
  | Node nm vs _ cs =>
      let value := join " " vs in
      let (sub, d1) := scan_loop scan_child cs d in
      (BodyEntry nm value sub, record nm value d1)
  end.

(** [scan_children(children)]: the body list it returns and
    [self.directives] after it. *)
Definition scan_children (cs : list node) (d : dict (list string))
  : list body_entry * dict (list string) :=
  scan_loop scan_child cs d.

(** [ApacheConfig.parse(filename)]: [self.root.children] on the [False]
    of an unreadable file raises [AttributeError]. *)
Definition parse `{FileSystem} (cfg : config) (file : string) : result config :=
  let* r := parse_file file in
  match r with
  | None => Raise (AttributeError "'bool' object has no attribute 'children'")
  | Some t =>
      let (_, d) := scan_children (children t) (directives cfg) in
      Ok (mk_config (Some file) (Some t) d (domains cfg))
  end.

(** [get_directives()] *)
Definition get_directives (cfg : config) : dict (list string) := directives cfg.

(** ** [get_domains] *)

Definition is_digit (c : ascii) : bool :=
  let n := nat_of_ascii c in Nat.leb 48 n && Nat.leb n 57.

(** [re.compile(r'[^0-9]+').sub(' ', s)]: every maximal run of non-digits
    becomes one space; [in_run] says the previous character was replaced. *)
Fixpoint sub_nondigits (in_run : bool) (s : string) : string :=
  match s with
  | EmptyString => EmptyString
  | String c s' =>
      if is_digit c then String c (sub_nondigits false s')
      else if in_run then sub_nondigits true s'
      else String " " (sub_nondigits true s')
  end.

(** [ports_str = p.sub(' ', ' '.join(v.values)).strip()];
    [ports = re.split(' ', ports_str)] *)
Definition ports_of (vs : list string) : list string :=
  split_on " "%char (strip (sub_nondigits false (join " " vs))).

(** [self.domains.setdefault(dn, []).append(ports)] *)
Definition add_domain (dn : string) (ports : list string)
    (m : dict (list (list string))) : dict (list (list string)) :=
  <[dn := default [] (m !! dn) ++ [ports]]> m.

(** The body of [for v in vh]. *)
Definition domain_step (m : dict (list (list string))) (v : node)
  : result (dict (list (list string))) :=
  let ports := ports_of (values v) in
  match findall v "ServerName" with
  | [] => Ok m
  | sn :: _ =>
      match values sn with
      | [] => Raise (IndexError "list index out of range")
      | dn :: _ => Ok (add_domain dn ports m)
      end
  end.

(** [get_domains()]: the new object (it updates [self.domains]) and the
    dict it returns. *)
Definition get_domains (cfg : config) : result config :=
  match root cfg with
  | None => Raise (AttributeError "'NoneType' object has no attribute 'findall'")
  | Some t =>
      let* m := fold_res domain_step (findall t "VirtualHost") (domains cfg) in
      Ok (mk_config (filename cfg) (root cfg) (directives cfg) m)
  end.

(** ** [get_includes] *)

(** [os.path.join(a, b)] of [posixpath]. *)
Definition path_join (a b : string) : string :=
  if startswith "/" b then b
  else match last_char a with
       | None => b
       | Some c => if Ascii.eqb c slash then a +:+ b else a +:+ "/" +:+ b
       end.

Definition is_quote (c : ascii) : bool :=
  Ascii.eqb c "034"%char || Ascii.eqb c "'"%char.

(** [server_root[1:-1]] when the value is quoted with the same mark. *)
Definition strip_quotes (sr : string) : result string :=
  match sr with
  | EmptyString => Raise (IndexError "string index out of range")
  | String c rest =>
      if is_quote c && bool_decide (last_char sr = Some c)
      then Ok (drop_last rest) else Ok sr
  end.

(** The server root [get_includes] joins [Include] values onto. *)
Definition server_root (st : Settings) (t : node) : result string :=
  if debug st then Ok (apache_root st)
  else match find t "ServerRoot" with
       | Some sr => strip_quotes (join "" (values sr))
       | None => Ok (apache_root st)
       end.

(** [get_includes()] *)
Definition get_includes `{FileSystem} (st : Settings) (cfg : config) : result (list string) :=
  match root cfg with
  | None => Raise (AttributeError "'NoneType' object has no attribute 'find'")
  | Some t =>
      let* sr := server_root st t in
      Ok (List.flat_map (fun i => glob (path_join sr (join "" (values i))))
            (findall t "Include"))
  end.

(** ** [get_body] and [clean_body] *)

(** [line[0] in comments_prefix] *)
Definition starts_with_one_of (prefix line : string) : bool :=
  match line with
  | String c _ => existsb (Ascii.eqb c) (String.list_ascii_of_string prefix)
  | EmptyString => false
  end.

(** The [continue] test of [clean_body]:
    [not line or (not PARSE_CONF_COMMENTS and line[0] in comments_prefix)]. *)
Definition clean_skip (pcc : bool) (prefix line : string) : bool :=
  String.eqb line EmptyString || (negb pcc && starts_with_one_of prefix line).

(** [body += '%s\n' % line] *)
Definition clean_use (body line : string) : string :=
  body +:+ line +:+ String lf EmptyString.

(** [clean_body(body, comments_prefix)] on a list of lines: the shared
    joining loop of [Lines.v]; a last line ending in a backslash makes
    [lines[index + 1]] raise. *)
Definition clean_body (pcc : bool) (lines : list string) (prefix : string) : result string :=
  Joiner.join_lines (clean_skip pcc prefix) clean_use lines EmptyString.

(** [get_body()] *)
Definition get_body `{FileSystem} (st : Settings) (cfg : config) : result string :=
  match filename cfg with
  | None => Raise (TypeError "coercing to Unicode: need string or buffer, NoneType found")
  | Some f =>
      match read_lines f with
      | None => Ok EmptyString
      | Some lines => clean_body (parse_conf_comments st) lines "#"
      end
  end.

(** ['\t' * indent]: no tab for a negative count. *)
Fixpoint tabs (k : nat) : string :=
  match k with
  | O => EmptyString
  | S k' => String "009"%char (tabs k')
  end.

(** The print statement of [print_children] for one child at [indent]:
    [print '\t' * indent + (child.section and '----- ' or '') + child.name,
           ' '.join(child.values), child.section and '-----' or '']. *)
Definition child_line (c : node) (indent : Z) : string :=
  print_stmt [tabs (Z.to_nat indent) +:+ (if section c then "----- " else "") +:+ name c;
              join " " (values c); if section c then "-----" else ""].

(** The [for child in children] loop: the printed lines, and the exception
    that stopped it. *)
Fixpoint print_loop (rec : node -> list string * option exn) (cs : list node)
  : list string * option exn :=
  match cs with
  | [] => ([], None)
  | c :: cs' =>
      let (out, e) := rec c in
      match e with
      | Some _ => (out, e)
      | None => let (out', e') := print_loop rec cs' in (out ++ out', e')
      end
  end.

(** The body for one [child]: the line, then the call
    [print_children(child.children, indent)], whose name is looked up in
    the globals of [apacheparser.py]; were it bound to this method, the
    call would print the child's children one tab further in. *)
Fixpoint print_child (c : node) (indent : Z) : list string * option exn :=
  let line := child_line c indent in
  match lookup_name PyGlobals.apacheparser_globals "global name " "print_children" with
  | Raise e => ([line], Some e)
  | Ok _ =>
      let (out, e) := print_loop (fun c' => print_child c' (indent + 1)) (children c) in
      (line :: out, e)
  end.

(** [print_children(self, children, indent=-1)] *)
Definition print_children (cs : list node) (indent : Z) : list string * option exn :=
  print_loop (fun c => print_child c (indent + 1)) cs.

End ApacheConfig.

(** ** The directive index *)

Module ConfigFacts.
Import ApacheConfig.

(** The joined values of the nodes named exactly [k], in order. *)
Definition values_named (cs : list node) (k : string) : list string :=
  List.map (fun c => join " " (values c)) (List.filter (fun c => String.eqb (name c) k) cs).

Definition opt_list {A} (l : list A) : option (list A) :=
  match l with [] => None | _ => Some l end.

(** No name is the lower-cased form of a different name: the lower-case
    fallback of [scan_children] never fires. *)
Definition alias_free (cs : list node) : Prop :=
  forall c1 c2, In c1 cs -> In c2 cs -> name c2 = lower (name c1) -> name c2 = name c1.

(** The index of the nodes [pre] already scanned. *)
Definition indexes (d : dict (list string)) (pre : list node) : Prop :=
  forall k, d !! k = opt_list (values_named pre k).

Lemma values_named_snoc pre c k :
  values_named (pre ++ [c]) k =
  values_named pre k ++ (if String.eqb (name c) k then [join " " (values c)] else []).
Proof.
  unfold values_named. rewrite List.filter_app, List.map_app. simpl.
  destruct (String.eqb (name c) k); reflexivity.
Qed.

Lemma values_named_nonempty pre k :
  values_named pre k <> [] -> exists c, In c pre /\ name c = k.
Proof.
  unfold values_named. destruct (List.filter _ pre) as [|c l] eqn:E; [simpl; intros H; congruence|].
  intros _. assert (Hc : In c (List.filter (fun c => String.eqb (name c) k) pre)) by (rewrite E; left; reflexivity).
  apply List.filter_In in Hc as [Hin Heq]. exists c. split; [exact Hin|]. now apply String.eqb_eq.
Qed.

Lemma record_indexes d pre c :
  alias_free (pre ++ [c]) -> indexes d pre ->
  indexes (record (name c) (join " " (values c)) d) (pre ++ [c]).
Proof.
  intros Hal Hd k. rewrite values_named_snoc. unfold record.
  destruct (d !! name c) as [l|] eqn:E1.
  - rewrite Hd in E1. destruct (String.eqb_spec (name c) k) as [<-|Hne].
    + rewrite lookup_insert_eq. destruct (values_named pre (name c)); [discriminate|].
      now inversion E1.
    + rewrite lookup_insert_ne by exact Hne. rewrite app_nil_r. apply Hd.
  - destruct (d !! lower (name c)) as [l|] eqn:E2.
    + exfalso. rewrite Hd in E2. destruct (values_named pre (lower (name c))) eqn:E3; [discriminate|].
      destruct (values_named_nonempty pre (lower (name c))) as (c' & Hin & Hn); [congruence|].
      assert (Heq : name c' = name c).
      { apply (Hal c c'); [apply in_or_app; right; left; reflexivity|apply in_or_app; left; exact Hin|exact Hn]. }
      rewrite Hd in E1. rewrite <- Heq in E1. rewrite Hn in E1. congruence.
    + rewrite Hd in E1. destruct (String.eqb_spec (name c) k) as [<-|Hne].
      * rewrite lookup_insert_eq. destruct (values_named pre (name c)); [reflexivity|discriminate].
      * rewrite lookup_insert_ne by exact Hne. rewrite app_nil_r. apply Hd.
Qed.

Lemma alias_free_app_l l1 l2 : alias_free (l1 ++ l2) -> alias_free l1.
Proof. intros H c1 c2 H1 H2. apply H; apply in_or_app; left; assumption. Qed.

(** The nodes of a forest in the order [scan_children] records them:
    a node after all of its descendants. *)
Fixpoint post (n : node) : list node :=
  match n with Node _ _ _ cs => List.flat_map post cs ++ [n] end.

Definition posts (cs : list node) : list node := List.flat_map post cs.

Lemma scan_loop_cons c cs d :
  snd (scan_loop scan_child (c :: cs) d) = snd (scan_loop scan_child cs (snd (scan_child c d))).
Proof.
  simpl. destruct (scan_child c d) as [e d1]. simpl.
  now destruct (scan_loop scan_child cs d1).
Qed.

Lemma scan_child_node nm vs sec cs d :
  snd (scan_child (Node nm vs sec cs) d) =
  record nm (join " " vs) (snd (scan_loop scan_child cs d)).
Proof. simpl. now destruct (scan_loop scan_child cs d). Qed.

(** One child scanned on top of the index of the nodes [pre] before it. *)
Definition scans_post (c : node) : Prop :=
  forall pre d, alias_free (pre ++ post c) -> indexes d pre ->
  indexes (snd (scan_child c d)) (pre ++ post c).

Lemma scan_loop_forall cs : Forall scans_post cs -> forall pre d,
  alias_free (pre ++ posts cs) -> indexes d pre ->
  indexes (snd (scan_loop scan_child cs d)) (pre ++ posts cs).
Proof.
  induction 1 as [|c cs Hc _ IH]; intros pre d Hal Hd; [now rewrite app_nil_r|].
  rewrite scan_loop_cons. unfold posts in *. simpl in *. rewrite app_assoc in *.
  apply IH; [exact Hal|]. apply Hc; [|exact Hd].
  apply (alias_free_app_l _ _ Hal).
Qed.

Lemma scan_child_post c : scans_post c.
Proof.
  induction c as [nm vs sec ccs IH] using node_ind; intros pre d Hal Hd.
  rewrite scan_child_node. simpl in Hal. rewrite app_assoc in Hal.
  simpl. rewrite app_assoc. apply (record_indexes _ _ (Node nm vs sec ccs)); [exact Hal|].
  apply (scan_loop_forall ccs IH pre d); [|exact Hd].
  exact (alias_free_app_l _ _ Hal).
Qed.

(** The scan of a forest extends the index of the nodes before it by the
    nodes of the forest, in post-order. *)
Lemma scan_loop_post cs pre d :
  alias_free (pre ++ posts cs) -> indexes d pre ->
  indexes (snd (scan_loop scan_child cs d)) (pre ++ posts cs).
Proof.
  apply scan_loop_forall. apply List.Forall_forall. intros c _. apply scan_child_post.
Qed.

(** [alias_free] as a boolean test. *)
Definition alias_free_b (cs : list node) : bool :=
  forallb (fun c1 => forallb (fun c2 =>
    negb (String.eqb (name c2) (lower (name c1))) || String.eqb (name c2) (name c1)) cs) cs.

Lemma alias_free_b_ok cs : alias_free_b cs = true -> alias_free cs.
Proof.
  unfold alias_free_b, alias_free. intros Hb c1 c2 H1 H2 He.
  rewrite forallb_forall in Hb. specialize (Hb c1 H1). rewrite forallb_forall in Hb.
  specialize (Hb c2 H2). rewrite He, String.eqb_refl in Hb. simpl in Hb.
  rewrite He. now apply String.eqb_eq.
Qed.

(** C12. When no name in the tree is the lower-cased form of another, the
    directive index maps every name to the joined values of the nodes of
    that name, in post-order (a section after everything nested in it), and
    nothing else: for a file without sections, in file order. *)
Theorem scan_postorder_index cs :
  alias_free (posts cs) ->
  forall k, snd (scan_children cs ∅) !! k = opt_list (values_named (posts cs) k).
Proof.
  intros Hal k. apply (scan_loop_post cs [] ∅ Hal). intros k'. reflexivity.
Qed.

(** ** The virtual-host map *)

(** The first value of the first [ServerName] child, if any. *)
Definition vhost_name (v : node) : option string :=
  match findall v "ServerName" with
  | [] => None
  | sn :: _ => hd_error (values sn)
  end.

(** A virtual host whose first [ServerName] has no value. *)
Definition bad_vhost (v : node) : bool :=
  match findall v "ServerName" with
  | sn :: _ => match values sn with [] => true | _ => false end
  | [] => false
  end.

(** The port lists of the virtual hosts named [dn], in order. *)
Definition ports_named (vhs : list node) (dn : string) : list (list string) :=
  List.map (fun v => ports_of (values v))
    (List.filter (fun v => bool_decide (vhost_name v = Some dn)) vhs).

(** The [VirtualHost] sections directly under the root. *)
Definition vhosts (t : node) : list node :=
  List.filter (fun c => ieq (name c) "VirtualHost") (children t).

Definition extend (o : option (list (list string))) (l : list (list string)) :=
  match o, l with
  | None, [] => None
  | _, _ => Some (default [] o ++ l)
  end.

Lemma domain_step_cases m v :
  domain_step m v =
  if bad_vhost v then Raise (IndexError "list index out of range")
  else match vhost_name v with
       | Some dn => Ok (add_domain dn (ports_of (values v)) m)
       | None => Ok m
       end.
Proof.
  unfold domain_step, bad_vhost, vhost_name.
  destruct (findall v "ServerName") as [|sn rest]; [reflexivity|].
  destruct (values sn); reflexivity.
Qed.

Lemma fold_domains vhs : forall m0 m,
  fold_res domain_step vhs m0 = Ok m ->
  forall dn, m !! dn = extend (m0 !! dn) (ports_named vhs dn).
Proof.
  induction vhs as [|v vhs IH]; intros m0 m H dn; simpl in H.
  - inv H. unfold ports_named; simpl. destruct (_ !! dn); simpl; [now rewrite app_nil_r|reflexivity].
  - rewrite domain_step_cases in H. destruct (bad_vhost v); [discriminate|].
    unfold ports_named; simpl. fold (ports_named vhs dn).
    destruct (vhost_name v) as [dn'|] eqn:Ev; simpl in H.
    + rewrite (IH _ _ H). unfold add_domain.
      destruct (String.eqb_spec dn' dn) as [<-|Hne].
      * rewrite lookup_insert_eq, bool_decide_true by reflexivity. simpl.
        destruct (m0 !! dn'); simpl; [now rewrite <- app_assoc | reflexivity].
      * rewrite lookup_insert_ne by exact Hne.
        rewrite bool_decide_false by congruence. reflexivity.
    + rewrite (IH _ _ H). reflexivity.
Qed.

Lemma fold_domains_ok vhs : forall m0,
  existsb bad_vhost vhs = false -> exists m, fold_res domain_step vhs m0 = Ok m.
Proof.
  induction vhs as [|v vhs IH]; intros m0 Hb; simpl in *; [eauto|].
  apply orb_false_iff in Hb as [Hv Hvs]. rewrite domain_step_cases, Hv.
  destruct (vhost_name v); simpl; apply IH; exact Hvs.
Qed.

Lemma fold_domains_raise vhs : forall m0,
  existsb bad_vhost vhs = true ->
  fold_res domain_step vhs m0 = Raise (IndexError "list index out of range").
Proof.
  induction vhs as [|v vhs IH]; intros m0 Hb; simpl in *; [discriminate|].
  rewrite domain_step_cases. destruct (bad_vhost v); [reflexivity|].
  destruct (vhost_name v); simpl; apply IH; exact Hb.
Qed.

Lemma findall_vhosts t : findall t "VirtualHost" = vhosts t.
Proof. apply (proj2 (NodeFacts.one_segment_queries t "VirtualHost" ltac:(discriminate) eq_refl)). Qed.

(** C13. [get_domains] on a parsed file maps each [ServerName] [dn] to the
    port lists of the [VirtualHost] sections directly under the root whose
    first [ServerName] child's first value is [dn], in file order; virtual
    hosts without a [ServerName] are skipped. *)
Theorem get_domains_index cfg t :
  root cfg = Some t -> domains cfg = ∅ -> existsb bad_vhost (vhosts t) = false ->
  exists cfg', get_domains cfg = Ok cfg' /\
    forall dn, domains cfg' !! dn = opt_list (ports_named (vhosts t) dn).
Proof.
  intros Hr Hd Hb. unfold get_domains. rewrite Hr, findall_vhosts, Hd.
  destruct (fold_domains_ok (vhosts t) ∅ Hb) as [m Hm]. rewrite Hm.
  eexists; split; [reflexivity|]. intros dn; simpl.
  rewrite (fold_domains _ _ _ Hm dn), lookup_empty.
  now destruct (ports_named (vhosts t) dn).
Qed.

(** C14. [get_domains] raises [IndexError] exactly when one of the
    [VirtualHost] sections under the root has a first [ServerName] child
    with no value, whichever of them comes first. *)
Theorem get_domains_raises cfg t :
  root cfg = Some t ->
  (get_domains cfg = Raise (IndexError "list index out of range") <->
   existsb bad_vhost (vhosts t) = true).
Proof.
  intros Hr. unfold get_domains. rewrite Hr, findall_vhosts. split.
  - intros H. destruct (existsb bad_vhost (vhosts t)) eqn:Hb; [reflexivity|].
    destruct (fold_domains_ok (vhosts t) (domains cfg) Hb) as [m Hm].
    rewrite Hm in H. discriminate.
  - intros Hb. now rewrite (fold_domains_raise _ (domains cfg) Hb).
Qed.

(** ** Files and include paths *)

Lemma find_ref_one n s :
  find_ref n [s] = hd_error (List.filter (fun c => ieq (name c) s) (children n)).
Proof.
  destruct n as [nm vs sec cs]; simpl. induction cs as [|c cs IH]; [reflexivity|]. simpl.
  destruct (ieq (name c) s); [destruct c; reflexivity|exact IH].
Qed.

(** The top-level children named [s] (case-insensitively), in order. *)
Definition top_named (t : node) (s : string) : list node :=
  List.filter (fun c => ieq (name c) s) (children t).

Lemma find_top t s : s <> EmptyString -> no_slash s = true -> find t s = hd_error (top_named t s).
Proof. intros Hne Hs. rewrite (proj1 (NodeFacts.one_segment_queries t s Hne Hs)). apply find_ref_one. Qed.

Lemma findall_top t s : s <> EmptyString -> no_slash s = true -> findall t s = top_named t s.
Proof. intros Hne Hs. exact (proj2 (NodeFacts.one_segment_queries t s Hne Hs)). Qed.

Section with_fs.
Context `{FileSystem}.

(** The paths [glob.glob] gives for every top-level [Include] value,
    joined onto [sr]. *)
Definition includes_under (sr : string) (t : node) : list string :=
  List.flat_map (fun i => glob (path_join sr (join "" (values i)))) (top_named t "Include").

Lemma get_includes_under st cfg t sr :
  root cfg = Some t -> server_root st t = Ok sr -> get_includes st cfg = Ok (includes_under sr t).
Proof.
  intros Ht Hsr. unfold get_includes. rewrite Ht, Hsr. cbn [bind]. unfold includes_under.
  now rewrite findall_top.
Qed.

(** C15. [get_includes] in closed form over the tree's top level: with
    [DEBUG], or without a top-level [ServerRoot], the [Include] values are
    joined onto [APACHE_ROOT]; otherwise onto the values of the FIRST
    top-level [ServerRoot], joined, with one pair of matching quotes
    ([server_root[0] == server_root[-1]], a single quote mark giving the
    empty root) removed; an empty [ServerRoot] raises [IndexError].
    [Include]s inside sections are never followed. *)
Theorem get_includes_spec st cfg t :
  root cfg = Some t ->
  (debug st = true -> get_includes st cfg = Ok (includes_under (apache_root st) t)) /\
  (debug st = false -> top_named t "ServerRoot" = [] ->
     get_includes st cfg = Ok (includes_under (apache_root st) t)) /\
  (forall sr rest, debug st = false -> top_named t "ServerRoot" = sr :: rest ->
     (join "" (values sr) = EmptyString ->
        get_includes st cfg = Raise (IndexError "string index out of range")) /\
     (forall q v, is_quote q = true -> last_char (String q v) = Some q ->
        join "" (values sr) = String q v -> get_includes st cfg = Ok (includes_under (drop_last v) t)) /\
     (forall c v, (is_quote c = false \/ last_char (String c v) <> Some c) ->
        join "" (values sr) = String c v -> get_includes st cfg = Ok (includes_under (String c v) t))).
Proof.
  intros Ht. assert (Hf : find t "ServerRoot" = hd_error (top_named t "ServerRoot"))
    by (apply find_top; [discriminate|reflexivity]).
  split; [|split].
  - intros Hd. apply get_includes_under; [exact Ht|]. unfold server_root. now rewrite Hd.
  - intros Hd Hn. apply get_includes_under; [exact Ht|]. unfold server_root. now rewrite Hd, Hf, Hn.
  - intros sr rest Hd Hn. unfold get_includes. rewrite Ht. unfold server_root.
    rewrite Hd, Hf, Hn. cbn [hd_error]. split; [|split].
    + intros ->. reflexivity.
    + intros q v Hq Hl ->. unfold strip_quotes. rewrite Hq, Hl, bool_decide_true by reflexivity.
      cbn [andb bind]. unfold includes_under. now rewrite findall_top.
    + intros c v Hc ->. unfold strip_quotes.
      replace (is_quote c && bool_decide (last_char (String c v) = Some c)) with false
        by (destruct Hc as [->|Hc]; [reflexivity|now rewrite bool_decide_false, andb_false_r]).
      cbn [bind]. unfold includes_under. now rewrite findall_top.
Qed.

(** Every path [get_includes] returns exists: it is a result of
    [glob.glob] on an [Include] value joined onto the server root. *)
Lemma get_includes_exist st cfg l f :
  get_includes st cfg = Ok l -> In f l -> path_exists f = true.
Proof.
  unfold get_includes. destruct (root cfg) as [t|]; [|discriminate].
  intros Hl Hf. bind_ok Hl. inv Hl.
  apply in_flat_map in Hf as (i & _ & Hf). exact (glob_exists _ _ Hf).
Qed.

(** C16. An unreadable file does not give an empty document: [parse_file]
    returns [False] and [self.root.children] raises [AttributeError]. *)
Theorem parse_unreadable_raises cfg f :
  read_lines f = None ->
  parse cfg f = Raise (AttributeError "'bool' object has no attribute 'children'").
Proof. intros Hr. unfold parse, parse_file. now rewrite Hr. Qed.

End with_fs.

End ConfigFacts.

(** ** [get_body] and the parser read the same logical lines *)

Module BodyFacts.
Import ApacheConfig.

Lemma starts_with_hash l : starts_with_one_of "#" l = is_comment l.
Proof. destruct l as [|c l]; [reflexivity|]. simpl. now rewrite orb_false_r. Qed.

Lemma clean_skip_comment l : clean_skip false "#" l = String.eqb l EmptyString || is_comment l.
Proof. unfold clean_skip. now rewrite starts_with_hash. Qed.

(** [clean_body] does not raise on the lines of a file [_parse] accepts,
    when comments are dropped. *)
Lemma clean_body_of_parsed lines t :
  _parse FileIter lines = Ok t -> exists b, clean_body false lines "#" = Ok b.
Proof.
  intros Hp. destruct (JoinerFacts.join_lines_parsed _ clean_skip_comment clean_use lines
    EmptyString t Hp) as [b Hb]. exists b. exact Hb.
Qed.

Section with_fs.
Context `{FileSystem}.

(** C22. Once [ApacheConfig.parse] has read a file, [get_body] does not
    raise when [PARSE_CONF_COMMENTS] is off: the cleaner joins backslash
    continuations and skips comments exactly as the parser does, so a
    continuation the parser completed is completed in the body too. *)
Theorem get_body_of_parsed st f ac :
  parse new f = Ok ac -> parse_conf_comments st = false -> exists b, get_body st ac = Ok b.
Proof.
  unfold parse, parse_file, get_body. intros Hp Hpcc.
  destruct (read_lines f) as [lines|] eqn:Hr; [|discriminate]. simpl in Hp.
  destruct (_parse FileIter lines) as [t|e] eqn:Ht; [|discriminate]. simpl in Hp.
  destruct (scan_children _ _). inv Hp. simpl. rewrite Hr, Hpcc.
  exact (clean_body_of_parsed _ _ Ht).
Qed.

End with_fs.

End BodyFacts.

Module PrintFacts.
Import ApacheConfig.

Lemma print_children_unbound :
  lookup_name PyGlobals.apacheparser_globals "global name " "print_children" =
  Raise (NameError "global name 'print_children' is not defined").
Proof. reflexivity. Qed.

(** C32. [print_children] never gets past its first child: the recursive
    call names [print_children] without [self.], a global that
    [apacheparser.py] does not bind, so after printing the first child's
    line the method raises [NameError]; on no children it prints nothing. *)
Theorem print_children_raises cs indent :
  print_children cs indent =
  match cs with
  | [] => ([], None)
  | c :: _ => ([child_line c (indent + 1)],
               Some (NameError "global name 'print_children' is not defined"))
  end.
Proof.
  unfold print_children. destruct cs as [|c cs]; [reflexivity|].
  destruct c as [nm vs sec sub]. cbn [print_loop print_child].
  now rewrite print_children_unbound.
Qed.

End PrintFacts.

(** ** Behaviour on concrete files *)

Module ConfigExamples.
Import ApacheConfig ConfigFacts.

Definition fs (files : list (string * list string)) : FileSystem := ListFs.listfs files.

(** Parse one file and run [get_domains], as [recurse] does. *)
Definition parsed (lines : list string) : result config :=
  let* c := @parse (fs [("/h.conf", lines)]) new "/h.conf" in get_domains c.

(** The ports of [<VirtualHost 10.0.0.1:80 10.0.0.1:443>] are every
    run of digits of its arguments, as strings: the octets of the address
    are listed as ports, where the spec expects [[80, 443]]. *)
Theorem vhost_ports_include_address :
  fmap_result (fun c => domains c !! "example.com")
    (parsed ["<VirtualHost 10.0.0.1:80 10.0.0.1:443>"; "ServerName example.com"; "</VirtualHost>"])
  = Ok (Some [["10"; "0"; "0"; "1"; "80"; "10"; "0"; "0"; "1"; "443"]]).
Proof. vm_compute. reflexivity. Qed.

(** The directive index is filled in post-order: a section's own
    value is recorded after the values of the sections nested in it, so
    nested [IfModule] sections are listed inner first, not in file order. *)
Theorem directives_post_order :
  fmap_result (fun c => directives c !! "IfModule")
    (parsed ["<IfModule a>"; "<IfModule b>"; "</IfModule>"; "</IfModule>"])
  = Ok (Some ["b"; "a"]).
Proof. vm_compute. reflexivity. Qed.

(** Names are merged through the lower-case fallback: [listen] is
    capitalised to [Listen] and shares its key, and a section written
    [<directory>] first makes a later [<Directory>] share the lower-case
    key ["directory"], leaving no ["Directory"] key. *)
Theorem directive_case_merge :
  fmap_result (fun c => (directives c !! "Listen", directives c !! "directory",
                         directives c !! "Directory"))
    (parsed ["listen 80"; "Listen 443"; "<directory /a>"; "</directory>";
             "<Directory /b>"; "</Directory>"])
  = Ok (Some ["80"; "443"], Some ["/a"; "/b"], None).
Proof. vm_compute. reflexivity. Qed.

(** *** Witnesses *)

Definition nested : list node :=
  [Node "IfModule" ["a"] true [Node "Listen" ["80"] false []]; Node "Listen" ["443"] false []].

(** Witness of C12 at the key ["Listen"] of a nested file. *)
Lemma scan_postorder_index_witness :
  snd (scan_children nested ∅) !! "Listen" = opt_list (values_named (posts nested) "Listen").
Proof.
  apply (scan_postorder_index nested); apply alias_free_b_ok; vm_compute; reflexivity.
Defined.

Definition vh_tree (sn : list string) : node :=
  Node "" [] true [Node "VirtualHost" ["*:80"] true [Node "ServerName" sn false []];
                   Node "Listen" ["80"] false []].
Definition vh_cfg (sn : list string) : config :=
  mk_config (Some "/h.conf") (Some (vh_tree sn)) ∅ ∅.

(** Witness of C13 with one named virtual host. *)
Lemma get_domains_index_witness :
  exists cfg', get_domains (vh_cfg ["a.org"]) = Ok cfg' /\
    forall dn, domains cfg' !! dn = opt_list (ports_named (vhosts (vh_tree ["a.org"])) dn).
Proof. apply (get_domains_index (vh_cfg ["a.org"]) (vh_tree ["a.org"])); reflexivity. Defined.

(** Witness of C14 with a [ServerName] that has no value. *)
Lemma get_domains_raises_witness :
  get_domains (vh_cfg []) = Raise (IndexError "list index out of range").
Proof. apply (proj2 (get_domains_raises (vh_cfg []) (vh_tree []) eq_refl)). reflexivity. Defined.

Definition inc_st : Settings := mk_settings "/r" "/r/a.conf" false false.
Definition inc_fs : FileSystem := fs [("/r/a.conf", ["Include b.conf"]); ("/r/b.conf", [])].

(** Witness of C16 on a file that is not there. *)
Lemma parse_unreadable_raises_witness :
  @parse inc_fs new "/r/c.conf" = Raise (AttributeError "'bool' object has no attribute 'children'").
Proof. apply (@parse_unreadable_raises inc_fs new "/r/c.conf"). vm_compute. reflexivity. Defined.

Definition inc_parsed : config :=
  match @parse inc_fs new "/r/a.conf" with Ok c => c | Raise _ => new end.

(** Witness of C22 on [/r/a.conf]. *)
Lemma get_body_of_parsed_witness : exists b, @get_body inc_fs inc_st inc_parsed = Ok b.
Proof.
  apply (@BodyFacts.get_body_of_parsed inc_fs inc_st "/r/a.conf" inc_parsed);
    vm_compute; reflexivity.
Defined.

(** With [PARSE_CONF_COMMENTS] on, the body and the tree disagree on
    comments that end in a backslash: the parser skips such a comment, but
    [clean_body] keeps it and joins the next line to it, and raises
    [IndexError] when it is the last line, although the file parses. *)
Theorem kept_comment_continuation :
  _parse FileIter ["Listen 80"; "# note \"] = Ok (Node "" [] true [Node "Listen" ["80"] false []]) /\
  clean_body true ["Listen 80"; "# note \"] "#" = Raise (IndexError "list index out of range") /\
  _parse FileIter ["# a \"; "Listen 80"] = Ok (Node "" [] true [Node "Listen" ["80"] false []]) /\
  clean_body true ["# a \"; "Listen 80"] "#" = Ok ("# a Listen 80" +:+ String lf EmptyString).
Proof. vm_compute. repeat split. Qed.

(** [get_includes] of the file [/h.conf] with the given lines, the other
    files of [others] present on disk. *)
Definition includes_of (others : list (string * list string)) (lines : list string)
  : result (list string) :=
  let fsi := fs (("/h.conf", lines) :: others) in
  let* c := @parse fsi new "/h.conf" in
  @get_includes fsi (mk_settings "/r" "/h.conf" false false) c.

Definition quoted (s : string) : string :=
  String "034"%char (s +:+ String "034"%char EmptyString).

Definition httpd_files : list (string * list string) :=
  [("/etc/httpd/conf.d/a.conf", []); ("/etc/httpd/conf.d/notes.txt", []);
   ("/etc/httpd/conf.d/b.conf", []); ("/etc/httpd/conf.d/sub/c.conf", []);
   ("/etc/httpd/extra/e.conf", [])].

(** [get_includes] joins each [Include] value onto the quote-stripped
    [ServerRoot] and expands it with [glob] ([*] does not cross a [/]);
    an [Include] inside a section ([<IfModule>]) is not followed, and a
    [ServerRoot] without a value raises [IndexError]. *)
Theorem includes_top_level_only :
  includes_of httpd_files
    ["ServerRoot " +:+ quoted "/etc/httpd"; "Include conf.d/*.conf";
     "<IfModule m>"; "Include extra/*.conf"; "</IfModule>"]
  = Ok ["/etc/httpd/conf.d/a.conf"; "/etc/httpd/conf.d/b.conf"] /\
  includes_of httpd_files ["ServerRoot"; "Include conf.d/*.conf"]
  = Raise (IndexError "string index out of range").
Proof. vm_compute. split; reflexivity. Qed.

Definition gi_fs : FileSystem :=
  fs (("/h.conf", ["ServerRoot " +:+ quoted "/etc/httpd"; "Include conf.d/*.conf";
                   "<IfModule m>"; "Include extra/*.conf"; "</IfModule>"]) :: httpd_files).

Definition gi_cfg : config := match @parse gi_fs new "/h.conf" with Ok c => c | Raise _ => new end.
Definition gi_tree : node := match root gi_cfg with Some t => t | None => Node "" [] true [] end.
Definition gi_sr : node := hd gi_tree (top_named gi_tree "ServerRoot").
Definition gi_st : Settings := mk_settings "/r" "/h.conf" false false.

(** Witness of C15 on a quoted [ServerRoot]. *)
Lemma get_includes_spec_witness :
  @get_includes gi_fs gi_st gi_cfg =
  Ok (@includes_under gi_fs (drop_last ("/etc/httpd" +:+ String "034"%char EmptyString)) gi_tree).
Proof.
  destruct (@get_includes_spec gi_fs gi_st gi_cfg gi_tree) as (_ & _ & H3); [vm_compute; reflexivity|].
  destruct (H3 gi_sr [] eq_refl) as (_ & Hq & _); [vm_compute; reflexivity|].
  apply (Hq "034"%char); vm_compute; reflexivity.
Defined.

(** What [print_children] prints of the children of a parsed file before
    it raises: a directive keeps a trailing space (its last print item is
    the empty string), a section is framed by dashes. *)
Theorem print_children_lines :
  fmap_result (fun c => print_children (match root c with Some t => children t | None => [] end) (-1))
    (@parse (fs [("/h.conf", ["Listen 80"; "<VirtualHost *:80>"; "</VirtualHost>"])]) new "/h.conf") =
  Ok (["Listen 80 "], Some (NameError "global name 'print_children' is not defined")) /\
  print_children [Node "VirtualHost" ["*:80"] true []] 0 =
  ([String "009"%char "----- VirtualHost *:80 -----"],
   Some (NameError "global name 'print_children' is not defined")).
Proof. vm_compute. split; reflexivity. Qed.

End ConfigExamples.
