(* ===== verification/Includes.v ===== *)
(** * Includes: [ApacheConfigList] ([src/client/inventory.py])

    The walk over the include graph: one record per visited file, appended
    to [self.apache_configs] in the order the files are visited.  The
    recursion has no visited set, so it need not terminate: the model
    threads a fuel argument through the recursive calls and answers [None]
    when the fuel runs out, [Some r] when the Python code returns or
    raises. *)

From stdpp Require Import gmap strings.
From Stdlib Require Import Ascii.
From S2P Require Import Prelude PyStr Node Parser FileSystem Config.
Import PyStr ApacheNode Parser ApacheConfig.

Module ApacheConfigList.

(** The dict built for one file:
    [{'body', 'filename', 'directives', 'domains', 'included'}]. *)
Record apache_record := mk_record {
  body : string;
  rec_filename : string;
  rec_directives : dict (list string);
  rec_domains : dict (list (list string));
  included : list string
}.

(** [del l[l.index(x)]], with [ValueError] caught: the first occurrence
    of [x] is removed, if any. *)
Fixpoint remove_first (x : string) (l : list string) : list string :=
  match l with
  | [] => []
  | y :: l' => if String.eqb y x then l' else y :: remove_first x l'
  end.

Section walk.
Context `{FileSystem} (st : Settings).

(** The dict literal of [recurse] and [recurse_apache_includes] for file
    [fn], its values evaluated left to right, and the removal of the
    parent's name [parent] from [included]. *)
Definition file_record (parent fn : string) : result apache_record :=
  let* ac := parse new fn in
  let* b := get_body st ac in
  let* ac' := get_domains ac in
  let* inc := get_includes st ac' in
  Ok (mk_record b fn (get_directives ac) (domains ac') (remove_first parent inc)).

(** The [included] list of file [fn] before the parent is removed. *)
Definition raw_includes (fn : string) : result (list string) :=
  let* ac := parse new fn in
  let* _ := get_body st ac in
  let* ac' := get_domains ac in
  get_includes st ac'.

(** [recurse_apache_includes(fn, includes_list)], with [acc] the list
    [self.apache_configs] so far.  Each recursive call costs one unit of
    fuel; [None] when it runs out. *)
Fixpoint recurse_apache_includes (fuel : nat) (fn : string) (incs : list string)
    (acc : list apache_record) {struct fuel} : option (result (list apache_record)) :=
  (fix loop (incs : list string) (acc : list apache_record) :=
     match incs with
     | [] => Some (Ok acc)
     | i_fn :: rest =>
         match file_record fn i_fn with
         | Raise e => Some (Raise e)
         | Ok r =>
             match fuel with
             | O => None
             | S fuel' =>
                 match recurse_apache_includes fuel' i_fn (included r) (acc ++ [r]) with
                 | Some (Ok acc') => loop rest acc'
                 | other => other
                 end
             end
         end
     end) incs acc.

(** [recurse()] *)
Definition recurse (fuel : nat) : option (result (list apache_record)) :=
  let conf := apache_conf st in
  match file_record conf conf with
  | Raise e => Some (Raise e)
  | Ok r => recurse_apache_includes fuel conf (included r) [r]
  end.

(** [get_apache_configs()] *)
Definition get_apache_configs (fuel : nat) : option (result (list apache_record)) :=
  if path_exists (apache_conf st) then recurse fuel else Some (Ok []).

End walk.

End ApacheConfigList.

Module WalkFacts.
Import ApacheConfigList.

Lemma remove_first_incl x l g : In g (remove_first x l) -> In g l.
Proof.
  induction l as [|y l IH]; simpl; [auto|].
  destruct (String.eqb y x); simpl; [auto|]. intros [->|H]; auto.
Qed.

Lemma remove_first_absent x l : ~ In x l -> remove_first x l = l.
Proof.
  induction l as [|y l IH]; simpl; intros Hx; [reflexivity|].
  destruct (String.eqb_spec y x) as [->|_]; [tauto|]. f_equal. apply IH. tauto.
Qed.

Section with_fs.
Context `{FileSystem} (st : Settings).

Lemma file_record_included p f r :
  file_record st p f = Ok r ->
  exists inc, raw_includes st f = Ok inc /\ included r = remove_first p inc.
Proof.
  unfold file_record, raw_includes. intros Hr.
  bind_ok Hr. rewrite Hm. simpl. bind_ok Hr. rewrite Hm0. simpl.
  bind_ok Hr. rewrite Hm1. simpl. bind_ok Hr. inv Hr. eauto.
Qed.

Lemma recurse_nil fuel fn acc :
  recurse_apache_includes st fuel fn [] acc = Some (Ok acc).
Proof. destruct fuel; reflexivity. Qed.

Lemma recurse_cons fuel fn i rest acc :
  recurse_apache_includes st fuel fn (i :: rest) acc =
  match file_record st fn i with
  | Raise e => Some (Raise e)
  | Ok r =>
      match fuel with
      | O => None
      | S fuel' =>
          match recurse_apache_includes st fuel' i (included r) (acc ++ [r]) with
          | Some (Ok acc') => recurse_apache_includes st fuel fn rest acc'
          | other => other
          end
      end
  end.
Proof. destruct fuel; reflexivity. Qed.

(** Every include edge goes down a rank: the include graph has no cycle. *)
Definition ranked (rk : string -> nat) : Prop :=
  forall f inc g, raw_includes st f = Ok inc -> In g inc -> rk g < rk f.

Lemma walk_some rk : ranked rk -> forall fuel fn incs acc,
  Forall (fun g => rk g < fuel) incs ->
  recurse_apache_includes st fuel fn incs acc <> None.
Proof.
  intros Hrk fuel. induction fuel as [|fuel IHf]; intros fn incs.
  - destruct incs as [|i incs]; intros acc Hall; [now rewrite recurse_nil|].
    inversion Hall; lia.
  - induction incs as [|i incs IHi]; intros acc Hall; [now rewrite recurse_nil|].
    inversion Hall as [|? ? Hi Hrest]; subst. rewrite recurse_cons.
    destruct (file_record st fn i) as [r|e] eqn:Er; [|discriminate].
    destruct (file_record_included _ _ _ Er) as (inc & Hinc & Hr).
    assert (Hch : Forall (fun g => rk g < fuel) (included r)).
    { apply List.Forall_forall. intros g Hg. rewrite Hr in Hg.
      pose proof (Hrk i inc g Hinc (remove_first_incl _ _ _ Hg)). lia. }
    specialize (IHf i (included r) (acc ++ [r]) Hch).
    destruct (recurse_apache_includes st fuel i (included r) (acc ++ [r])) as [[acc'|e]|];
      [apply IHi; exact Hrest|discriminate|contradiction].
Qed.

(** C17. On an include graph without cycles (every [Include] edge goes down
    a rank), the walk returns or raises within a recursion depth of the
    root's rank: it never runs out of fuel. *)
Theorem walk_terminates rk fuel :
  ranked rk -> rk (apache_conf st) <= fuel -> get_apache_configs st fuel <> None.
Proof.
  intros Hrk Hf. unfold get_apache_configs. destruct (path_exists _); [|discriminate].
  unfold recurse. destruct (file_record st _ _) as [r|e] eqn:Er; [|discriminate].
  apply (walk_some rk Hrk). apply List.Forall_forall. intros g Hg.
  destruct (file_record_included _ _ _ Er) as (inc & Hinc & Hr). rewrite Hr in Hg.
  pose proof (Hrk _ inc g Hinc (remove_first_incl _ _ _ Hg)). lia.
Qed.

(** More fuel never changes an answer: once the walk returns or
    raises within some fuel, it does the same with any larger fuel.  The
    answers of the model are the Python code's. *)
Lemma recurse_fuel_mono fuel : forall fuel' fn incs acc r,
  fuel <= fuel' -> recurse_apache_includes st fuel fn incs acc = Some r ->
  recurse_apache_includes st fuel' fn incs acc = Some r.
Proof.
  induction fuel as [|fuel IHf]; intros fuel' fn incs;
    induction incs as [|i incs IHi]; intros acc r Hle Hw;
    rewrite ?recurse_nil, ?recurse_cons in Hw |- *; try exact Hw;
    destruct (file_record st fn i) as [ri|e]; try exact Hw; [discriminate|].
  destruct fuel' as [|fuel']; [lia|].
  destruct (recurse_apache_includes st fuel i (included ri) (acc ++ [ri])) as [o|] eqn:E;
    [|discriminate].
  rewrite (IHf fuel' _ _ _ _ ltac:(lia) E). destruct o as [a1|e]; [|exact Hw].
  exact (IHi _ _ Hle Hw).
Qed.

(** The walk only appends to [self.apache_configs]. *)
Lemma recurse_extends fuel : forall fn incs acc acc',
  recurse_apache_includes st fuel fn incs acc = Some (Ok acc') -> exists l, acc' = acc ++ l.
Proof.
  induction fuel as [|fuel IHf]; intros fn incs; induction incs as [|i incs IHi];
    intros acc acc' Hw; rewrite ?recurse_nil, ?recurse_cons in Hw.
  - inv Hw. exists []. now rewrite app_nil_r.
  - destruct (file_record st fn i); discriminate.
  - inv Hw. exists []. now rewrite app_nil_r.
  - destruct (file_record st fn i) as [r|e]; [|discriminate].
    destruct (recurse_apache_includes st fuel i (included r) (acc ++ [r])) as [[a1|e]|] eqn:E;
      try discriminate.
    destruct (IHf _ _ _ _ E) as [l1 ->]. destruct (IHi _ _ Hw) as [l2 ->].
    exists (r :: l1 ++ l2). now rewrite <- !app_assoc.
Qed.

(** C18. When the configuration file exists and the walk returns, the
    first record of [self.apache_configs] is the one of [APACHE_CONF]
    itself, followed by the records of the files it includes. *)
Theorem walk_root_first fuel l :
  path_exists (apache_conf st) = true ->
  get_apache_configs st fuel = Some (Ok l) ->
  exists r rest, l = r :: rest /\ rec_filename r = apache_conf st /\
                 file_record st (apache_conf st) (apache_conf st) = Ok r.
Proof.
  unfold get_apache_configs, recurse. intros -> Hw.
  destruct (file_record st _ _) as [r|e] eqn:Er; [|discriminate].
  destruct (recurse_extends _ _ _ _ _ Hw) as [rest ->].
  exists r, rest. split; [reflexivity|]. split; [|reflexivity].
  unfold file_record in Er. bind_ok Er. bind_ok Er. bind_ok Er. bind_ok Er.
  now inv Er.
Qed.

(** A set [P] of include edges (parent, file) closes a loop when each file
    reached along an edge of [P] is read without error and its first
    include, once its parent is removed, is again an edge of [P]. *)
Definition loops_from (P : string -> string -> Prop) (p f : string) : Prop :=
  match file_record st p f with
  | Ok r => match included r with g :: _ => P f g | [] => False end
  | Raise _ => False
  end.

Definition closed_loop (P : string -> string -> Prop) : Prop :=
  forall p f, P p f -> loops_from P p f.

Lemma recurse_loop P : closed_loop P ->
  forall fuel p f rest acc, P p f -> recurse_apache_includes st fuel p (f :: rest) acc = None.
Proof.
  intros HP fuel. induction fuel as [|fuel IH]; intros p f rest acc Hpf;
    specialize (HP p f Hpf); unfold loops_from in HP; rewrite recurse_cons;
    destruct (file_record st p f) as [r|e]; try contradiction; [reflexivity|].
  simpl. destruct (included r) as [|g rest'] eqn:Ei; [contradiction|].
  now rewrite (IH f g rest' _ HP).
Qed.

(** C19. The walk keeps no set of visited files: it removes only the
    parent's name from a file's includes, so an include loop through three
    or more files (every file read without error) makes the recursion
    unbounded: no amount of fuel is enough. *)
Theorem walk_diverges P fuel :
  closed_loop P -> path_exists (apache_conf st) = true ->
  loops_from P (apache_conf st) (apache_conf st) ->
  get_apache_configs st fuel = None.
Proof.
  intros HP Hex Hroot. unfold get_apache_configs, recurse. rewrite Hex.
  unfold loops_from in Hroot. destruct (file_record st _ _) as [r|e]; [|contradiction].
  destruct (included r) as [|g rest]; [contradiction|]. now apply (recurse_loop P).
Qed.

(** An [Include] edge: [g] is one of the paths [get_includes] gives for [f]. *)
Definition include_edge (f g : string) : Prop :=
  exists inc, raw_includes st f = Ok inc /\ In g inc.

Lemma file_record_filename p f r : file_record st p f = Ok r -> rec_filename r = f.
Proof.
  unfold file_record. intros Hr. bind_ok Hr. bind_ok Hr. bind_ok Hr. bind_ok Hr. now inv Hr.
Qed.

Lemma in_extends (acc acc' : list apache_record) r :
  (exists l, acc' = acc ++ l) -> In r acc -> In r acc'.
Proof. intros [l ->] Hr. apply in_or_app. now left. Qed.

(** Every file reachable from one of [incs] has a record in the result,
    when every include goes down a rank. *)
Lemma recurse_visits rk (Hrk : ranked rk) fuel : forall fn incs acc acc',
  (forall i, In i incs -> rk i < rk fn) ->
  recurse_apache_includes st fuel fn incs acc = Some (Ok acc') ->
  forall i g, In i incs -> rtc include_edge i g -> exists r, In r acc' /\ rec_filename r = g.
Proof.
  induction fuel as [|fuel IHf]; intros fn incs;
    induction incs as [|i0 incs IHi]; intros acc acc' Hlt Hw i g Hin Hg;
    try contradiction; rewrite recurse_cons in Hw;
    destruct (file_record st fn i0) as [r|e] eqn:Er; try discriminate.
  destruct (recurse_apache_includes st fuel i0 (included r) (acc ++ [r])) as [[a1|e]|] eqn:E;
    try discriminate.
  pose proof (recurse_extends _ _ _ _ _ Hw) as Hext.
  destruct Hin as [<-|Hin]; [|exact (IHi a1 acc' (fun j Hj => Hlt j (or_intror Hj)) Hw i g Hin Hg)].
  destruct (file_record_included _ _ _ Er) as (inc & Hinc & Hr).
  assert (Hdown : forall j, In j inc -> rk j < rk i0) by (intros j; apply (Hrk _ _ _ Hinc)).
  rewrite remove_first_absent in Hr
    by (intros Hfn; specialize (Hdown fn Hfn); specialize (Hlt i0 (or_introl eq_refl)); lia).
  destruct Hg as [x|x j y Hij Hjg].
  - exists r. split; [|exact (file_record_filename _ _ _ Er)].
    apply (in_extends a1); [exact Hext|]. apply (in_extends (acc ++ [r])); [exact (recurse_extends _ _ _ _ _ E)|].
    apply in_or_app. right. now left.
  - destruct Hij as (inc' & Hinc' & Hj). rewrite Hinc in Hinc'. injection Hinc' as <-.
    destruct (IHf x (included r) (acc ++ [r]) a1) with (i := j) (g := y) as (r' & Hr' & Hn);
      [intros j' Hj'; rewrite Hr in Hj'; now apply Hdown|exact E|now rewrite Hr|exact Hjg|].
    exists r'. split; [apply (in_extends a1); assumption|exact Hn].
Qed.

(** C28. When every [Include] goes down a rank and the walk returns, every
    file reachable from [APACHE_CONF] through [Include] edges has a record
    in [self.apache_configs]: on an acyclic graph the removal of the
    parent's name drops nothing. *)
Theorem walk_visits_reachable rk fuel l g :
  ranked rk -> path_exists (apache_conf st) = true ->
  get_apache_configs st fuel = Some (Ok l) ->
  rtc include_edge (apache_conf st) g -> exists r, In r l /\ rec_filename r = g.
Proof.
  intros Hrk Hex. unfold get_apache_configs, recurse. rewrite Hex.
  destruct (file_record st _ _) as [r|e] eqn:Er; [|discriminate]. intros Hw Hg.
  destruct (file_record_included _ _ _ Er) as (inc & Hinc & Hr).
  assert (Hdown : forall j, In j inc -> rk j < rk (apache_conf st)) by (intros j; apply (Hrk _ _ _ Hinc)).
  rewrite remove_first_absent in Hr by (intros Hc; specialize (Hdown _ Hc); lia).
  destruct Hg as [x|x j y Hij Hjg].
  - exists r. split; [|exact (file_record_filename _ _ _ Er)].
    apply (in_extends [r]); [exact (recurse_extends _ _ _ _ _ Hw)|now left].
  - destruct Hij as (inc' & Hinc' & Hj). rewrite Hinc in Hinc'. injection Hinc' as <-.
    refine (recurse_visits rk Hrk fuel x (included r) [r] l _ Hw j y _ Hjg);
      rewrite Hr; [exact Hdown|exact Hj].
Qed.

(** A record of the walk is the record of a file that was read, parsed
    and scanned without error. *)
Definition read_ok (r : apache_record) : Prop :=
  exists inc, raw_includes st (rec_filename r) = Ok inc.

Lemma file_record_read_ok p f r : file_record st p f = Ok r -> read_ok r.
Proof.
  intros Er. destruct (file_record_included _ _ _ Er) as (inc & Hinc & _).
  exists inc. now rewrite (file_record_filename _ _ _ Er).
Qed.

Lemma recurse_read_ok fuel : forall fn incs acc acc',
  Forall read_ok acc -> recurse_apache_includes st fuel fn incs acc = Some (Ok acc') ->
  Forall read_ok acc'.
Proof.
  induction fuel as [|fuel IHf]; intros fn incs; induction incs as [|i incs IHi];
    intros acc acc' Hacc Hw; rewrite ?recurse_nil, ?recurse_cons in Hw;
    try (inv Hw; exact Hacc); destruct (file_record st fn i) as [r|e] eqn:Er; try discriminate.
  destruct (recurse_apache_includes st fuel i (included r) (acc ++ [r])) as [[a1|e]|] eqn:E;
    try discriminate.
  apply (IHi a1); [|exact Hw]. apply (IHf i (included r) (acc ++ [r])); [|exact E].
  apply Forall_app. split; [exact Hacc|]. constructor; [|constructor].
  exact (file_record_read_ok _ _ _ Er).
Qed.

(** C20. An error in any file the configuration reaches through [Include]
    aborts the whole walk: on an acyclic include graph, with fuel the
    root's rank, [get_apache_configs] raises (the first error met, in the
    order of the walk) instead of returning the records of the files read
    before it or after it. *)
Theorem include_error_raises rk fuel g e :
  ranked rk -> path_exists (apache_conf st) = true -> rk (apache_conf st) <= fuel ->
  rtc include_edge (apache_conf st) g -> raw_includes st g = Raise e ->
  exists e', get_apache_configs st fuel = Some (Raise e').
Proof.
  intros Hrk Hex Hf Hg He. pose proof (walk_terminates rk fuel Hrk Hf) as Hsome.
  destruct (get_apache_configs st fuel) as [[l|e']|] eqn:Hw; [|eauto|contradiction].
  exfalso. destruct (walk_visits_reachable rk fuel l g Hrk Hex Hw Hg) as (r & Hr & <-).
  assert (Hall : Forall read_ok l).
  { revert Hw. unfold get_apache_configs, recurse. rewrite Hex.
    destruct (file_record st _ _) as [r0|e0] eqn:Er; [|discriminate]. intros Hw.
    refine (recurse_read_ok fuel _ _ [r0] l _ Hw).
    constructor; [exact (file_record_read_ok _ _ _ Er)|constructor]. }
  rewrite List.Forall_forall in Hall. destruct (Hall r Hr) as [inc Hinc]. congruence.
Qed.

End with_fs.

End WalkFacts.

(** ** The walk on concrete include graphs *)

Module WalkExamples.
Import ApacheConfigList WalkFacts.

Definition st : Settings := mk_settings "/r" "/r/a.conf" false false.
Definition a_conf := "/r/a.conf".
Definition b_conf := "/r/b.conf".
Definition c_conf := "/r/c.conf".

Definition fs (files : list (string * list string)) : FileSystem := ListFs.listfs files.

(** [a.conf] includes [b.conf], which includes nothing. *)
Definition fs_chain := fs [(a_conf, ["Include b.conf"]); (b_conf, [])].
(** [a.conf] includes itself. *)
Definition fs_self := fs [(a_conf, ["Include a.conf"])].
(** [a.conf] includes [b.conf], which includes [a.conf] back. *)
Definition fs_pair := fs [(a_conf, ["Include b.conf"]); (b_conf, ["Include a.conf"])].
(** [a.conf] includes [b.conf], [b.conf] includes [c.conf], [c.conf]
    includes [a.conf]. *)
Definition fs_triangle :=
  fs [(a_conf, ["Include b.conf"]); (b_conf, ["Include c.conf"]); (c_conf, ["Include a.conf"])].
(** [a.conf] includes [b.conf] and [c.conf]; [b.conf] is malformed. *)
Definition fs_broken :=
  fs [(a_conf, ["Include b.conf"; "Include c.conf"]); (b_conf, ["<A x>"; "</B>"]);
      (c_conf, ["Listen 80"])].

Definition chain_rank (f : string) : nat := if String.eqb a_conf f then 1 else 0.

Lemma chain_ranked : @ranked fs_chain st chain_rank.
Proof.
  intros f inc g Hf Hg. unfold chain_rank.
  destruct (String.eqb a_conf f) eqn:Ea.
  { apply String.eqb_eq in Ea as <-. vm_compute in Hf. inv Hf.
    destruct Hg as [<-|[]]. vm_compute. lia. }
  destruct (String.eqb b_conf f) eqn:Eb.
  { apply String.eqb_eq in Eb as <-. vm_compute in Hf. inv Hf. destruct Hg. }
  assert (Hr : @read_lines fs_chain f = None).
  { apply ListFs.lf_read_absent. cbn [forallb fst]. now rewrite Ea, Eb. }
  unfold raw_includes, ApacheConfig.parse, ApacheConfig.parse_file in Hf.
  rewrite Hr in Hf. discriminate.
Qed.

Definition triangle (p f : string) : Prop :=
  (p, f) = (a_conf, b_conf) \/ (p, f) = (b_conf, c_conf) \/ (p, f) = (c_conf, a_conf).

Lemma triangle_closed : @closed_loop fs_triangle st triangle.
Proof. intros p f [E|[E|E]]; inv E; vm_compute; auto. Qed.

Definition chain_records : list apache_record :=
  match @get_apache_configs fs_chain st 1 with Some (Ok l) => l | _ => [] end.

(** Witness of C17 on an include chain of rank 1. *)
Lemma walk_terminates_witness : @get_apache_configs fs_chain st 1 <> None.
Proof. apply (@walk_terminates fs_chain st chain_rank 1); [exact chain_ranked | vm_compute; lia]. Defined.

(** Witness of C18 on the same chain. *)
Lemma walk_root_first_witness :
  exists r rest, chain_records = r :: rest /\ rec_filename r = apache_conf st /\
                 @file_record fs_chain st (apache_conf st) (apache_conf st) = Ok r.
Proof.
  apply (@walk_root_first fs_chain st 1 chain_records); vm_compute; reflexivity.
Defined.

(** Witness of C28: [b.conf], included by [a.conf], has a record. *)
Lemma walk_visits_reachable_witness :
  exists r, In r chain_records /\ rec_filename r = b_conf.
Proof.
  apply (@walk_visits_reachable fs_chain st chain_rank 1 chain_records b_conf);
    [exact chain_ranked | vm_compute; reflexivity | vm_compute; reflexivity |].
  apply rtc_once. exists [b_conf]. split; [vm_compute; reflexivity | now left].
Defined.

(** Witness of C19 on the three-file loop. *)
Lemma walk_diverges_witness : @get_apache_configs fs_triangle st 7 = None.
Proof.
  apply (@walk_diverges fs_triangle st triangle 7);
    [exact triangle_closed | vm_compute; reflexivity | vm_compute; auto].
Defined.

(** The chain needs one unit of fuel, and five give the same. *)
Lemma recurse_fuel_mono_example :
  @recurse_apache_includes fs_chain st 5 a_conf [b_conf] [] =
  @recurse_apache_includes fs_chain st 1 a_conf [b_conf] [].
Proof.
  apply (@recurse_fuel_mono fs_chain st 1 5); [lia | vm_compute; reflexivity].
Defined.

(** A loop through two files ends: the removal of the parent's name
    drops [a.conf] from the includes of [b.conf], so the walk gives the
    records of [a.conf] then [b.conf] with any fuel from 1 on. *)
Theorem two_file_loop_ends fuel :
  option_map (fmap_result (map (fun r => (rec_filename r, included r))))
    (@get_apache_configs fs_pair st (S fuel))
  = Some (Ok [(a_conf, [b_conf]); (b_conf, [])]).
Proof. destruct fuel; vm_compute; reflexivity. Qed.

Definition broken_rank (f : string) : nat := if String.eqb a_conf f then 1 else 0.

Lemma broken_ranked : @ranked fs_broken st broken_rank.
Proof.
  intros f inc g Hf Hg. unfold broken_rank.
  destruct (String.eqb a_conf f) eqn:Ea.
  { apply String.eqb_eq in Ea as <-. vm_compute in Hf. inv Hf.
    destruct Hg as [<-|[<-|[]]]; vm_compute; lia. }
  destruct (String.eqb b_conf f) eqn:Eb.
  { apply String.eqb_eq in Eb as <-. vm_compute in Hf. discriminate. }
  destruct (String.eqb c_conf f) eqn:Ec.
  { apply String.eqb_eq in Ec as <-. vm_compute in Hf. inv Hf. destruct Hg. }
  assert (Hr : @read_lines fs_broken f = None).
  { apply ListFs.lf_read_absent. cbn [forallb fst]. now rewrite Ea, Eb, Ec. }
  unfold raw_includes, ApacheConfig.parse, ApacheConfig.parse_file in Hf.
  rewrite Hr in Hf. discriminate.
Qed.

(** Witness of C20: the malformed [b.conf], included by [a.conf]. *)
Lemma include_error_raises_witness :
  exists e', @get_apache_configs fs_broken st 1 = Some (Raise e').
Proof.
  apply (@include_error_raises fs_broken st broken_rank 1 b_conf (SectionMismatch "B" "A"));
    [exact broken_ranked | vm_compute; reflexivity | vm_compute; lia | | vm_compute; reflexivity].
  apply rtc_once. exists [b_conf; c_conf]. split; [vm_compute; reflexivity | now left].
Defined.

(** An error in one included file aborts the whole walk: the
    [Exception] of the malformed [b.conf] escapes [get_apache_configs], and
    neither [c.conf] nor [a.conf] is reported. *)
Theorem include_error_aborts fuel :
  @get_apache_configs fs_broken st fuel = Some (Raise (SectionMismatch "B" "A")).
Proof. destruct fuel; vm_compute; reflexivity. Qed.

(** A file whose only [Include] target is itself gives one record,
    with an empty [included] list: [get_includes] returns the file's own
    path and [recurse] removes it. *)
Theorem self_include_dropped fuel :
  option_map (fmap_result (map (fun r => (rec_filename r, included r))))
    (@get_apache_configs fs_self st fuel)
  = Some (Ok [(a_conf, [])]).
Proof. destruct fuel; vm_compute; reflexivity. Qed.

End WalkExamples.
