(* ===== verification/SshConfig.v ===== *)
(** * SshConfig: [SSHConfig.parse] ([src/client/inventory.py] and
    [src/client/sshconfigparser.py])

    The reader of the SSH daemon configuration: the shared joining loop of
    [Lines.v] over the lines of the file, with an action that appends each
    logical line to [body] and, unless it is a comment, records it in the
    dict [items] under its first field.  The same method appears twice in
    the sources; the two copies differ only in the emptiness test
    ([not line] or [len(line) == 0]), and [parse_copies_agree] shows they
    compute the same result. *)

From stdpp Require Import gmap strings.
From Stdlib Require Import Ascii.
From S2P Require Import Prelude PyStr Node Parser Lines FileSystem Config.
Import PyStr Parser ApacheConfig Joiner.

Module SSHConfig.

(** [{'body': body, 'items': items, 'filename': filename}] *)
Record ssh_dict := mk_ssh {
  ssh_body : string;
  ssh_items : dict (list string);
  ssh_filename : string
}.

(** [not line or (not PARSE_CONF_COMMENTS and line[0] == '#')] *)
Definition ssh_skip (pcc : bool) (line : string) : bool :=
  String.eqb line EmptyString || (negb pcc && is_comment line).

(** The dict update of one non-comment line:
    [ls = re.split('\s*', line)], then
    [items[ls[0]] += [' %s' % ' '.join(ls[1:])]] for a key already present,
    [items[ls[0]] = [' '.join(ls[1:])]] otherwise. *)
Definition add_item (items : dict (list string)) (line : string) : dict (list string) :=
  match re_split_ws line with
  | k :: rest =>
      match items !! k with
      | Some l => <[k := l ++ [String " " (join " " rest)]]> items
      | None => <[k := [join " " rest]]> items
      end
  | [] => items
  end.

(** The end of the loop body for one logical line. *)
Definition ssh_use (st : dict (list string) * string) (line : string)
  : dict (list string) * string :=
  let (items, body) := st in
  (if is_comment line then items else add_item items line,
   body +:+ line +:+ String lf EmptyString).

(** [SSHConfig.parse(filename)] of [inventory.py]: [filename = path(filename)];
    an unreadable file is read as no lines. *)
Definition parse `{FileSystem} (pcc : bool) (root filename : string) : result ssh_dict :=
  let filename := path_join root filename in
  let lines := match read_lines filename with Some ls => ls | None => [] end in
  match lines with
  | [] => Ok (mk_ssh EmptyString ∅ filename)
  | _ =>
      let* st := join_lines (ssh_skip pcc) ssh_use lines (∅, EmptyString) in
      Ok (mk_ssh (snd st) (fst st) filename)
  end.

(** The test of [sshconfigparser.py]:
    [len(line) == 0 or (not PARSE_CONF_COMMENTS and line[0] == '#')]. *)
Definition ssh_skip_len (pcc : bool) (line : string) : bool :=
  Nat.eqb (String.length line) 0 || (negb pcc && is_comment line).

(** [SSHConfig.parse(filename)] of [sshconfigparser.py]. *)
Definition parse_standalone `{FileSystem} (pcc : bool) (root filename : string)
  : result ssh_dict :=
  let filename := path_join root filename in
  let lines := match read_lines filename with Some ls => ls | None => [] end in
  match lines with
  | [] => Ok (mk_ssh EmptyString ∅ filename)
  | _ =>
      let* st := join_lines (ssh_skip_len pcc) ssh_use lines (∅, EmptyString) in
      Ok (mk_ssh (snd st) (fst st) filename)
  end.

End SSHConfig.

Module SSHFacts.
Import SSHConfig ConfigFacts.

(** The first field of a line and its other fields joined. *)
Definition key_of (line : string) : string := hd EmptyString (re_split_ws line).
Definition rest_of (line : string) : string := join " " (tl (re_split_ws line)).

(** The values of the non-comment lines whose first field is [k]. *)
Definition vals (k : string) (ls : list string) : list string :=
  List.map rest_of (List.filter (fun l => negb (is_comment l) && String.eqb (key_of l) k) ls).

(** What [items[k]] holds: the first value as is, every later one with
    the leading space of [' %s']. *)
Definition ssh_values (k : string) (ls : list string) : list string :=
  match vals k ls with
  | [] => []
  | v :: vs => v :: List.map (String " ") vs
  end.

Lemma re_split_ws_cons s : exists k rest, re_split_ws s = k :: rest.
Proof.
  induction s as [|c s (k & rest & IH)]; simpl; [eauto|]. rewrite IH.
  destruct (is_space c); [destruct (starts_token s || String.eqb s EmptyString)|]; eauto.
Qed.

Lemma vals_snoc k pre l :
  vals k (pre ++ [l]) =
  vals k pre ++ (if negb (is_comment l) && String.eqb (key_of l) k then [rest_of l] else []).
Proof.
  unfold vals. rewrite List.filter_app, List.map_app. simpl.
  destruct (negb (is_comment l) && String.eqb (key_of l) k); reflexivity.
Qed.

Lemma add_item_index items pre l :
  is_comment l = false ->
  (forall k, items !! k = opt_list (ssh_values k pre)) ->
  forall k, add_item items l !! k = opt_list (ssh_values k (pre ++ [l])).
Proof.
  intros Hc Hi k. unfold ssh_values. rewrite vals_snoc, Hc. simpl.
  unfold add_item, key_of, rest_of. destruct (re_split_ws_cons l) as (k0 & rest & Hl).
  rewrite Hl. simpl. rewrite Hi. unfold ssh_values.
  destruct (String.eqb_spec k0 k) as [<-|Hne].
  - destruct (vals k0 pre) as [|v vs]; simpl.
    + now rewrite lookup_insert_eq.
    + rewrite lookup_insert_eq, List.map_app. reflexivity.
  - rewrite app_nil_r. destruct (opt_list _) eqn:E;
      rewrite lookup_insert_ne by congruence; now rewrite Hi.
Qed.

(** The action folded over logical lines: the dict of the non-comment
    lines, and the text [clean_body] builds. *)
Lemma fold_ssh_use ls : forall pre items body,
  (forall k, items !! k = opt_list (ssh_values k pre)) ->
  (forall k, fst (List.fold_left ssh_use ls (items, body)) !! k =
             opt_list (ssh_values k (pre ++ ls))) /\
  snd (List.fold_left ssh_use ls (items, body)) = List.fold_left clean_use ls body.
Proof.
  induction ls as [|l ls IH]; intros pre items body Hi; simpl.
  - rewrite app_nil_r. auto.
  - replace (pre ++ l :: ls) with ((pre ++ [l]) ++ ls) by now rewrite <- app_assoc.
    apply IH. destruct (is_comment l) eqn:Hc.
    + intros k. rewrite Hi. unfold ssh_values. rewrite vals_snoc, Hc. simpl.
      now rewrite app_nil_r.
    + now apply add_item_index.
Qed.

Lemma ssh_skip_clean pcc l : ssh_skip pcc l = clean_skip pcc "#" l.
Proof. unfold ssh_skip, clean_skip. now rewrite BodyFacts.starts_with_hash. Qed.

Section with_fs.
Context `{FileSystem}.

(** C24. The body [SSHConfig.parse] returns is the text [clean_body]
    builds from the same lines with the comment prefix ['#'], and it
    raises exactly when [clean_body] does (a last line ending in a
    backslash). *)
Theorem ssh_body_is_clean_body pcc root f lines :
  read_lines (path_join root f) = Some lines ->
  fmap_result ssh_body (parse pcc root f) = clean_body pcc lines "#".
Proof.
  intros Hr. unfold parse, clean_body. rewrite Hr.
  rewrite (JoinerFacts.join_lines_ext _ _ _ _ _ (ssh_skip_clean pcc)).
  destruct lines as [|l0 ls0]; [reflexivity|].
  rewrite !JoinerFacts.join_lines_logical.
  destruct (logical_lines _ _) as [L|e]; [|reflexivity]. simpl.
  f_equal. exact (proj2 (fold_ssh_use L [] ∅ EmptyString (fun k => eq_refl))).
Qed.

(** C25. Once its lines are joined into the logical lines [L], the dict
    [items] of [SSHConfig.parse] maps every key to the rest of each
    non-comment line that starts with it, in order, every value after the
    first one carrying a leading space. *)
Theorem ssh_items_index pcc root f lines L :
  read_lines (path_join root f) = Some lines -> logical_lines (ssh_skip pcc) lines = Ok L ->
  exists d, parse pcc root f = Ok d /\ forall k, ssh_items d !! k = opt_list (ssh_values k L).
Proof.
  intros Hr HL. unfold parse. rewrite Hr.
  destruct lines as [|l0 ls0].
  - inv HL. eexists; split; [reflexivity|]. intros k. cbn [ssh_items]. rewrite lookup_empty. reflexivity.
  - rewrite JoinerFacts.join_lines_logical, HL. simpl. eexists; split; [reflexivity|].
    exact (proj1 (fold_ssh_use L [] ∅ EmptyString (fun k => eq_refl))).
Qed.

(** C26. The two copies of [SSHConfig.parse], in [inventory.py] and in
    [sshconfigparser.py], compute the same result on every file. *)
Theorem parse_copies_agree pcc root f :
  parse_standalone pcc root f = parse pcc root f.
Proof.
  unfold parse_standalone, parse.
  destruct (match read_lines _ with Some ls => ls | None => [] end); [reflexivity|].
  rewrite (JoinerFacts.join_lines_ext (ssh_skip_len pcc) _ (ssh_skip pcc)); [reflexivity|].
  intros x. unfold ssh_skip_len, ssh_skip. now destruct x.
Qed.

End with_fs.

End SSHFacts.

(** ** A concrete [sshd_config] *)

Module SSHExamples.
Import SSHConfig SSHFacts ConfigFacts.

Definition sshd_lines : list string :=
  ["# sshd settings"; "Port 22"; "HostKey /etc/ssh/key_rsa"; "HostKey /etc/ssh/key_dsa";
   "AllowUsers alice \"; "  bob"].

Definition ssh_fs : FileSystem := ListFs.listfs [("/etc/ssh/sshd_config", sshd_lines)].

Definition sshd_logical : list string :=
  match logical_lines (ssh_skip false) sshd_lines with Ok L => L | Raise _ => [] end.

(** Witness of C24 on [sshd_config]. *)
Lemma ssh_body_is_clean_body_witness :
  fmap_result ssh_body (@parse ssh_fs false "/opt/client" "/etc/ssh/sshd_config") =
  clean_body false sshd_lines "#".
Proof. apply (@ssh_body_is_clean_body ssh_fs). vm_compute. reflexivity. Defined.

(** Witness of C25 on [sshd_config]. *)
Lemma ssh_items_index_witness :
  exists d, @parse ssh_fs false "/opt/client" "/etc/ssh/sshd_config" = Ok d /\
    forall k, ssh_items d !! k = opt_list (ssh_values k sshd_logical).
Proof. apply (@ssh_items_index ssh_fs false _ _ sshd_lines); vm_compute; reflexivity. Defined.

(** A key given twice keeps its second value with a leading space
    ([' %s']), so the two [HostKey] values differ in form; a continuation
    line is joined to the value before it. *)
Theorem ssh_repeated_key_space :
  fmap_result (fun d => (ssh_items d !! "HostKey", ssh_items d !! "AllowUsers", ssh_items d !! "#"))
    (@parse ssh_fs false "/opt/client" "/etc/ssh/sshd_config") =
  Ok (Some ["/etc/ssh/key_rsa"; " /etc/ssh/key_dsa"], Some ["alice bob"], None).
Proof. vm_compute. reflexivity. Qed.

End SSHExamples.
