(* ===== verification/Scrape.v ===== *)
(** * Scrape: the collectors of [src/client/inventory.py] that read command
    output and small files

    [Interfaces.get_interfaces] (the output of [ifconfig]), the methods of
    [System] (hostname, kernel release, Red Hat release, NFS mounts, IP
    forwarding), [Services.get_services] (the output of [lsof -ni -P]),
    [RPMs.get_rpms] and [IPTables] ([iptables status], [iptables-save]).
    Commands go through the [Os] interface and files through [FileSystem];
    each method is a function of their answers.  The regular expressions
    are decoded by hand, following Python's backtracking order where the
    pattern has more than one way to match. *)

From stdpp Require Import gmap strings.
From Stdlib Require Import Ascii.
From S2P Require Import Prelude PyStr Node Parser Lines FileSystem Config.
Import PyStr Parser ApacheConfig Joiner.

(** ** Python list access *)

Module PyList.

(** [l[n]] *)
Definition nth_py (l : list string) (n : nat) : result string :=
  match nth_error l n with
  | Some v => Ok v
  | None => Raise (IndexError "list index out of range")
  end.

(** [l.index(x)] for an [x] known to be in [l] *)
Fixpoint index_of (x : string) (l : list string) : nat :=
  match l with
  | [] => 0
  | y :: l' => if String.eqb y x then 0 else S (index_of x l')
  end.

(** [x in l] *)
Definition mem (x : string) (l : list string) : bool := existsb (String.eqb x) l.

(** [c in s] for a character *)
Definition has_char (c : ascii) (s : string) : bool :=
  existsb (Ascii.eqb c) (String.list_ascii_of_string s).

(** [s.split(':')[1]] *)
Definition colon_field (s : string) : result string := nth_py (split_on ":"%char s) 1.

(** [l[-k]] for [k >= 1] *)
Definition nth_from_end (l : list string) (k : nat) : result string :=
  if Nat.leb k (length l) then nth_py l (length l - k)
  else Raise (IndexError "list index out of range").

End PyList.
Import PyList.

(** ** [Interfaces] *)

Module Interfaces.

(** [{'i_ip': ..., 'i_mac': ..., 'i_mask': ...}] *)
Record iface := mk_iface { i_ip : string; i_mac : string; i_mask : string }.

Definition set_mac (m : string) (r : iface) : iface := mk_iface (i_ip r) m (i_mask r).
Definition set_ip (ip : string) (r : iface) : iface := mk_iface ip (i_mac r) (i_mask r).
Definition set_mask (m : string) (r : iface) : iface := mk_iface (i_ip r) (i_mac r) m.

(** [i_dict[interface][field] = v]: a [KeyError] when [interface] is not a key. *)
Definition update (k : string) (f : iface -> iface) (d : dict iface) : result (dict iface) :=
  match d !! k with
  | Some r => Ok (<[k := f r]> d)
  | None => Raise (KeyError k)
  end.

(** [x.split(':')[1] if ':' in x else x] *)
Definition after_colon (x : string) : result string :=
  if has_char ":"%char x then colon_field x else Ok x.

(** The body of [for line in lines], with [interface] and [i_dict]. *)
Definition iface_line (st : string * dict iface) (line : string)
  : result (string * dict iface) :=
  if String.eqb line EmptyString then Ok st else
  let ls := split_ws line in
  let* first := nth_py ls 0 in
  let st1 := if negb (String.eqb (strip first) EmptyString)
             then (strip first, <[strip first := mk_iface "" "" ""]> (snd st))
             else st in
  let (interface, d1) := st1 in
  let* d2 := if mem "HWaddr" ls then
               let* mac := nth_py ls (S (index_of "HWaddr" ls)) in
               update interface (set_mac (lower mac)) d1
             else Ok d1 in
  let* d3 := if mem "inet" ls then
               let* inet := nth_py ls (S (index_of "inet" ls)) in
               let* ip := after_colon inet in
               let* d := update interface (set_ip ip) d2 in
               let* last := nth_from_end ls 1 in
               let* mask := after_colon last in
               update interface (set_mask mask) d
             else Ok d2 in
  Ok (interface, d3).

(** [Interfaces.get_interfaces()] *)
Definition get_interfaces `{Os} (p : Paths) : result (dict iface) :=
  let lines := split_on lf (run (ifconfig p)) in
  let* st := fold_res iface_line lines (EmptyString, ∅) in
  Ok (snd st).

End Interfaces.

(** ** [System] *)

Module System.

(** [_get_ip()] *)
Definition _get_ip `{Os} : string :=
  match host_ip with Some ip => ip | None => EmptyString end.

Definition not_dot (c : ascii) : bool := negb (Ascii.eqb c "."%char).

(** [_get_hostname()]: [re.compile(r'([^\.]+)').match(full_hn)], then
    [m and m.group(0).strip() or '']. *)
Definition _get_hostname `{Os} (p : Paths) : string :=
  let full_hn := run (hostname_cmd p) in
  match fst (span not_dot full_hn) with
  | EmptyString => EmptyString
  | g => strip g
  end.

(** [_get_kernel_release()] *)
Definition _get_kernel_release `{Os} (p : Paths) : string :=
  strip (run (uname p +:+ " -r")).

Definition not_lf (c : ascii) : bool := negb (Ascii.eqb c lf).

(** [re.compile(r'Red Hat Enterprise Linux \S+ release ([^\n].+)\n').match(l)]:
    the group, or [None].  [\S+] is the whole next word, and the group is
    the whole run of characters up to the first newline, which must follow
    and leave at least two characters to the group. *)
Definition rh_match (l : string) : option string :=
  let pre := "Red Hat Enterprise Linux " in
  if String.prefix pre l then
    let r1 := String.substring (String.length pre) (String.length l) l in
    let (word, r2) := span (fun c => negb (is_space c)) r1 in
    if negb (String.eqb word EmptyString) && String.prefix " release " r2 then
      let r3 := String.substring 9 (String.length r2) r2 in
      let (g, r4) := span not_lf r3 in
      if Nat.leb 2 (String.length g) && String.prefix (String lf EmptyString) r4
      then Some g else None
    else None
  else None.

(** [_get_redhat_version()]: the first line of the file ([readline()]
    gives [''] on an empty file); [''] when the file cannot be opened. *)
Definition _get_redhat_version `{FileSystem} (p : Paths) : string :=
  match read_lines (rh_release p) with
  | None => EmptyString
  | Some ls =>
      strip (match rh_match (hd EmptyString ls) with Some v => v | None => EmptyString end)
  end.

(** [_ip_fwd_status()] *)
Definition _ip_fwd_status `{FileSystem} (p : Paths) : nat :=
  match read_lines (ip_forward p) with
  | None => 0
  | Some ls => if String.eqb (strip (hd EmptyString ls)) "1" then 1 else 0
  end.

(** The position of the last space of [s], if any. *)
Fixpoint last_space_from (i : nat) (s : string) : option nat :=
  match s with
  | EmptyString => None
  | String c s' =>
      match last_space_from (S i) s' with
      | Some k => Some k
      | None => if Ascii.eqb c " "%char then Some i else None
      end
  end.

(** The group when the first [.+] of the pattern ends at [i]: [' type ']
    at [i], a non-space at [j = i + 6], and the second [.+] running to the
    last space [k] of the line (at least [j + 2]). *)
Definition type_group_at (line : string) (k i : nat) : option string :=
  if String.eqb (String.substring i 6 line) " type " then
    let j := i + 6 in
    match String.get j line with
    | Some c =>
        if negb (is_space c) && Nat.leb (j + 2) k
        then Some (String.substring j (k - j) line) else None
    | None => None
    end
  else None.

(** Backtracking of the greedy first [.+]: the longest prefix first. *)
Fixpoint type_scan (line : string) (k i : nat) : option string :=
  match i with
  | O => None
  | S i' =>
      match type_group_at line k i with
      | Some g => Some g
      | None => type_scan line k i'
      end
  end.

(** [re.compile(r'.+ type ([^\s].+) ').match(line)].group(1), on a line
    without newlines (the lines come from [split('\n')]). *)
Definition mount_type (line : string) : option string :=
  match last_space_from 0 line with
  | Some k => type_scan line k (String.length line)
  | None => None
  end.

(** The [for line in lines] loop with its [break]. *)
Fixpoint nfs_loop (lines : list string) : nat :=
  match lines with
  | [] => 0
  | l :: ls =>
      if String.eqb l EmptyString then nfs_loop ls
      else match mount_type l with
           | Some t => if String.eqb t "nfs" then 1 else nfs_loop ls
           | None => nfs_loop ls
           end
  end.

(** [_nfs_status()] *)
Definition _nfs_status `{Os} (p : Paths) : nat :=
  let mount_info := strip_by (fun c => Ascii.eqb c lf) (run (mount p +:+ " -l")) in
  nfs_loop (split_on lf mount_info).

Record system_dict := mk_system {
  sys_ip : string; hostname : string; kernel_rel : string;
  rh_rel : string; nfs : nat; ip_fwd : nat
}.

(** [get_system_dict()] *)
Definition get_system_dict `{Os} `{FileSystem} (p : Paths) : system_dict :=
  mk_system _get_ip (_get_hostname p) (_get_kernel_release p)
    (_get_redhat_version p) (_nfs_status p) (_ip_fwd_status p).

End System.

(** ** [Services] *)

Module Services.

(** The body of [for line in lines] of [get_services()]. *)
Definition service_line (d : dict string) (line : string) : result (dict string) :=
  if String.eqb line EmptyString then Ok d else
  let chunks := re_split_ws line in
  if negb (mem "(LISTEN)" chunks) then Ok d else
  let* proc_name := nth_py chunks 0 in
  let* full_name := nth_from_end chunks 2 in
  let* port := colon_field full_name in
  Ok (<[proc_name := port]> d).

(** [Services.get_services()] *)
Definition get_services `{Os} (p : Paths) : result (dict string) :=
  fold_res service_line (split_on lf (run (lsof p +:+ " -ni -P"))) ∅.

End Services.

(** ** [RPMs] *)

Module RPMs.

(** [RPMs.get_rpms()]: the value of the key ['list']. *)
Definition get_rpms `{FileSystem} (p : Paths) : string :=
  match read_lines (rpm_pkgs p) with
  | None => EmptyString
  | Some ls => strip_by (fun c => Ascii.eqb c lf) (String.concat EmptyString ls)
  end.

End RPMs.

(** ** [IPTables] *)

Module IPTables.

(** [_status()] *)
Definition _status `{Os} (p : Paths) : nat :=
  if String.eqb (strip_by (fun c => Ascii.eqb c lf) (run (iptables p +:+ " status")))
       "Firewall is stopped."
  then 0 else 1.

(** The [continue] test of [_parse()]:
    [not line or (not PARSE_CONF_COMMENTS and line[0] == '#') or
     (PARSE_CONF_COMMENTS and line.startswith('# Generated by') or
      line.startswith('# Completed on'))]. *)
Definition ipt_skip (pcc : bool) (line : string) : bool :=
  String.eqb line EmptyString || (negb pcc && is_comment line) ||
  ((pcc && startswith "# Generated by" line) || startswith "# Completed on" line).

(** A chain line [:<name> <policy> [<packets>:<bytes>]] loses its counters. *)
Definition chain_line (line : string) : string :=
  match line with
  | String ":" _ =>
      let ls := split_ws line in
      match ls with
      | n :: pol :: _ :: _ =>
          if negb (String.eqb (strip n) EmptyString)
          then ":" +:+ String.substring 1 (String.length (strip n)) (strip n) +:+ " " +:+ strip pol
          else line
      | _ => line
      end
  | _ => line
  end.

(** [body += '%s\n' % line] after the chain rewrite. *)
Definition ipt_use (body line : string) : string :=
  body +:+ chain_line line +:+ String lf EmptyString.

(** [_parse()]: the value of the key ['body']. *)
Definition _parse `{Os} (pcc : bool) (p : Paths) : result string :=
  join_lines (ipt_skip pcc) ipt_use (split_on lf (run (iptables_save p))) EmptyString.

Record ipt_dict := mk_ipt { ipt_status : nat; ipt_rules : string }.

(** [get_ipt_dict()] *)
Definition get_ipt_dict `{Os} (pcc : bool) (p : Paths) : result ipt_dict :=
  let status := _status p in
  let* rules := _parse pcc p in
  Ok (mk_ipt status rules).

End IPTables.

(** ** Facts *)

Module InterfacesFacts.
Import Interfaces.

(** Every key of [d] is still a key of [d']. *)
Definition keeps_keys (d d' : dict iface) : Prop := forall x, d !! x <> None -> d' !! x <> None.

Lemma keeps_refl d : keeps_keys d d.
Proof. intros x H. exact H. Qed.

Lemma keeps_trans d1 d2 d3 : keeps_keys d1 d2 -> keeps_keys d2 d3 -> keeps_keys d1 d3.
Proof. intros H1 H2 x Hx. apply H2, H1, Hx. Qed.

Lemma keeps_insert k v d : keeps_keys d (<[k := v]> d).
Proof.
  intros x Hx. destruct (String.eqb_spec k x) as [<-|Hne].
  - now rewrite lookup_insert_eq.
  - now rewrite lookup_insert_ne.
Qed.

Lemma update_keeps k f d d' : update k f d = Ok d' -> keeps_keys d d'.
Proof. unfold update. destruct (d !! k); intros H; inv H. apply keeps_insert. Qed.

Lemma after_inet_keeps interface ls d d' :
  (let* inet := nth_py ls (S (index_of "inet" ls)) in
   let* ip := after_colon inet in
   let* d1 := update interface (set_ip ip) d in
   let* last := nth_from_end ls 1 in
   let* mask := after_colon last in
   update interface (set_mask mask) d1) = Ok d' -> keeps_keys d d'.
Proof.
  intros H. bind_ok H. bind_ok H. bind_ok H. bind_ok H. bind_ok H.
  eapply keeps_trans; [eapply update_keeps; exact Hm1|]. eapply update_keeps; exact H.
Qed.

#[local] Hint Resolve keeps_refl keeps_insert update_keeps : py.

(** One line keeps the keys and makes its first field a key. *)
Lemma iface_line_keys st line st' :
  iface_line st line = Ok st' ->
  keeps_keys (snd st) (snd st') /\
  forall w rest, split_ws line = w :: rest -> snd st' !! w <> None.
Proof.
  unfold iface_line. destruct (String.eqb_spec line EmptyString) as [->|Hne].
  { intros H; inv H. split; [apply keeps_refl|]. simpl. discriminate. }
  pose proof (split_ws_words line) as Hw.
  set (bh := mem "HWaddr" (split_ws line)); set (bi := mem "inet" (split_ws line)).
  clearbody bh bi.
  destruct (split_ws line) as [|w0 rest0]; [discriminate|]. simpl.
  inversion Hw as [|? ? Hw0 _]; subst. rewrite (strip_word w0 Hw0).
  destruct Hw0 as [Hw0 _]. destruct (String.eqb_spec w0 EmptyString) as [|_]; [congruence|].
  cbn [nth_py nth_error bind snd fst negb]. intros H. bind_ok H. bind_ok H. inv H. cbn [snd].
  assert (Hk : keeps_keys (<[w0 := mk_iface "" "" ""]> (snd st)) a).
  { destruct bh; [|inv Hm; apply keeps_refl].
    bind_ok Hm. eapply update_keeps; exact Hm. }
  assert (Hk' : keeps_keys a a0).
  { destruct bi; [eapply after_inet_keeps; exact Hm0|inv Hm0; apply keeps_refl]. }
  split.
  - eapply keeps_trans; [apply keeps_insert|]. eapply keeps_trans; eassumption.
  - intros w rest E. inv E. apply Hk', Hk. now rewrite lookup_insert_eq.
Qed.

Lemma fold_iface_keys lines : forall st st',
  fold_res iface_line lines st = Ok st' ->
  keeps_keys (snd st) (snd st') /\
  forall line w rest, In line lines -> split_ws line = w :: rest -> snd st' !! w <> None.
Proof.
  induction lines as [|l lines IH]; simpl; intros st st' H.
  - inv H. split; [apply keeps_refl|contradiction].
  - bind_ok H. destruct (iface_line_keys _ _ _ Hm) as [Hk Hl].
    destruct (IH _ _ H) as [Hk' Hl']. split; [eapply keeps_trans; eassumption|].
    intros line w rest [<-|Hin] Hs; [apply Hk', (Hl w rest Hs)|exact (Hl' line w rest Hin Hs)].
Qed.

Section with_os.
Context `{Os}.

(** C27. Every non-empty line of the [ifconfig] output opens an entry of
    the result under its first field, because [ls[0].strip()] is never
    empty: the indented continuation lines of an interface ([inet addr:...],
    [UP BROADCAST ...]) become interfaces named [inet], [UP], ... *)
Theorem every_line_is_interface p d :
  get_interfaces p = Ok d ->
  forall line w rest, In line (split_on lf (run (ifconfig p))) ->
  split_ws line = w :: rest -> d !! w <> None.
Proof.
  unfold get_interfaces. intros Hg. bind_ok Hg. inv Hg.
  exact (proj2 (fold_iface_keys _ _ _ Hm)).
Qed.

End with_os.

End InterfacesFacts.

Module SystemFacts.
Import System.

(** A line of [mount -l] whose type group is exactly [nfs]. *)
Definition nfs_line (l : string) : bool :=
  match mount_type l with
  | Some t => String.eqb t "nfs"
  | None => false
  end.

Lemma nfs_loop_any lines : nfs_loop lines = if existsb nfs_line lines then 1 else 0.
Proof.
  induction lines as [|l ls IH]; [reflexivity|]. cbn [nfs_loop existsb].
  unfold nfs_line. destruct (String.eqb_spec l EmptyString) as [->|_]; [exact IH|].
  destruct (mount_type l) as [t|]; [|exact IH]. destruct (String.eqb t "nfs"); [reflexivity|exact IH].
Qed.

(** ** The pattern [.+ type ([^\s].+) ] of [_nfs_status] *)

(** A match of the pattern at the start of [l]: the first [.+] is
    [l[0:i]], [' type '] is at [i], the group is [l[i+6:k]] and starts
    with a non-space, and the closing space is at [k].  The lines come
    from [split('\n')], so [.] matches every character of them. *)
Definition type_match (l : string) (i k : nat) : Prop :=
  1 <= i /\ String.substring i 6 l = " type " /\
  (exists c, String.get (i + 6) l = Some c /\ is_space c = false) /\
  i + 8 <= k /\ String.get k l = Some " "%char.

Lemma get_lt s : forall n c, String.get n s = Some c -> n < String.length s.
Proof. induction s as [|c0 s IH]; intros [|n] c H; simpl in *; try discriminate; [lia|]. apply IH in H; lia. Qed.

Lemma last_space_none s : forall i,
  last_space_from i s = None -> forall m, String.get m s <> Some " "%char.
Proof.
  induction s as [|c s IH]; intros i H m; [destruct m; discriminate|]. simpl in H.
  destruct (last_space_from (S i) s) eqn:E; [discriminate|].
  destruct m as [|m]; simpl; [|exact (IH _ E m)].
  destruct (Ascii.eqb_spec c " "%char); [discriminate|congruence].
Qed.

Lemma last_space_some s : forall i k,
  last_space_from i s = Some k ->
  exists m, k = i + m /\ String.get m s = Some " "%char /\
    forall m', m < m' -> String.get m' s <> Some " "%char.
Proof.
  induction s as [|c s IH]; intros i k H; [discriminate|]. simpl in H.
  destruct (last_space_from (S i) s) eqn:E.
  - inv H. destruct (IH _ _ E) as (m & -> & Hm & Hmax). exists (S m). split; [lia|].
    split; [exact Hm|]. intros [|m'] Hlt; [lia|]. apply Hmax. lia.
  - destruct (Ascii.eqb_spec c " "%char) as [->|]; [|discriminate]. inv H.
    exists 0. split; [lia|]. split; [reflexivity|]. intros [|m'] Hlt; [lia|].
    exact (last_space_none _ _ E m').
Qed.

Lemma type_group_at_spec l k i g :
  type_group_at l k i = Some g <->
  String.substring i 6 l = " type " /\ (exists c, String.get (i + 6) l = Some c /\ is_space c = false) /\
  i + 8 <= k /\ g = String.substring (i + 6) (k - (i + 6)) l.
Proof.
  unfold type_group_at. destruct (String.eqb_spec (String.substring i 6 l) " type ") as [Ht|Ht];
    [|split; [discriminate|intros (? & _); contradiction]].
  destruct (String.get (i + 6) l) as [c|] eqn:Eg; [|split; [discriminate|intros (_ & (? & ? & _) & _); discriminate]].
  destruct (is_space c) eqn:Es; cbn [negb andb];
    [split; [discriminate|intros (_ & (c' & Hc' & Hs) & _); congruence]|].
  destruct (Nat.leb_spec (i + 6 + 2) k) as [Hle|Hle]; split.
  - intros Hs; inv Hs. repeat split; eauto. lia.
  - intros (_ & _ & _ & ->). reflexivity.
  - discriminate.
  - intros (_ & _ & Hk & _). lia.
Qed.

Lemma type_scan_some l k n g :
  type_scan l k n = Some g ->
  exists i, 1 <= i <= n /\ type_group_at l k i = Some g /\
    forall i', i < i' <= n -> type_group_at l k i' = None.
Proof.
  induction n as [|n IH]; simpl; [discriminate|].
  destruct (type_group_at l k (S n)) as [g'|] eqn:E.
  - intros H; inv H. exists (S n). split; [lia|]. split; [exact E|]. intros; lia.
  - intros H. destruct (IH H) as (i & Hi & Hg & Hmax). exists i. split; [lia|]. split; [exact Hg|].
    intros i' Hi'. destruct (Nat.eq_dec i' (S n)) as [->|]; [exact E|]. apply Hmax. lia.
Qed.

Lemma type_scan_none l k n :
  type_scan l k n = None -> forall i, 1 <= i <= n -> type_group_at l k i = None.
Proof.
  induction n as [|n IH]; simpl; intros H i Hi; [lia|].
  destruct (type_group_at l k (S n)) eqn:E; [discriminate|].
  destruct (Nat.eq_dec i (S n)) as [->|]; [exact E|]. apply IH; [exact H|lia].
Qed.

(** A match with a given closing space is a group found with the last space. *)
Lemma type_match_group l i k K :
  type_match l i k -> k <= K -> exists g, type_group_at l K i = Some g.
Proof.
  intros (_ & Ht & Hc & Hk & _) HK. eexists. apply type_group_at_spec.
  repeat split; eauto. lia.
Qed.

(** The closing space of a match is at most the last space of the line. *)
Lemma type_match_le_last l i k m :
  type_match l i k -> (forall m', m < m' -> String.get m' l <> Some " "%char) -> k <= m.
Proof.
  intros (_ & _ & _ & _ & Hk) Hmax. destruct (Nat.le_gt_cases k m) as [|Hgt]; [assumption|].
  exfalso. exact (Hmax k Hgt Hk).
Qed.

Lemma type_match_lt l i k : type_match l i k -> i < String.length l.
Proof. intros (_ & _ & _ & Hk & Hg). apply get_lt in Hg. lia. Qed.

(** C35. The hand-decoded matcher is the regular expression
    [.+ type ([^\s].+) ] of [_nfs_status] under Python's backtracking:
    [mount_type] returns a group exactly when the pattern matches, and the
    group is that of the match with the rightmost [' type '] and, for it,
    the last closing space, which is the match [re.match] finds. *)
Theorem mount_type_regex l g :
  mount_type l = Some g <->
  exists i k, type_match l i k /\
    (forall i' k', type_match l i' k' -> i' < i \/ (i' = i /\ k' <= k)) /\
    g = String.substring (i + 6) (k - (i + 6)) l.
Proof.
  unfold mount_type. destruct (last_space_from 0 l) as [K|] eqn:EK.
  2:{ split; [discriminate|]. intros (i & k & (_ & _ & _ & _ & Hk) & _).
      exfalso. exact (last_space_none _ _ EK k Hk). }
  destruct (last_space_some _ _ _ EK) as (m & -> & Hm & Hmmax). cbn [Nat.add].
  split.
  - intros Hs. destruct (type_scan_some _ _ _ _ Hs) as (i & Hi & Hg & Hmax).
    apply type_group_at_spec in Hg as (Ht & Hc & Hk & ->).
    exists i, m. split; [repeat split; auto; lia|]. split; [|reflexivity].
    intros i' k' Hm'. pose proof (type_match_le_last _ _ _ _ Hm' Hmmax) as Hle.
    destruct (type_match_group _ _ _ _ Hm' Hle) as [g' Hg'].
    pose proof (type_match_lt _ _ _ Hm').
    destruct (Nat.lt_trichotomy i' i) as [|[->|Hgt]]; [now left|now right|].
    rewrite Hmax in Hg'; [discriminate|lia].
  - intros (i & k & Hik & Hmax & ->).
    pose proof (type_match_le_last _ _ _ _ Hik Hmmax) as Hle.
    assert (Hkm : k = m).
    { destruct Hik as (H1 & H2 & H3 & H4 & _).
      destruct (Hmax i m) as [|[_ ?]]; [repeat split; auto; lia|lia|lia]. }
    subst k. pose proof (type_match_lt _ _ _ Hik).
    destruct (type_match_group _ _ _ _ Hik (le_n m)) as [g0 Hg0].
    destruct (type_scan l m (String.length l)) as [g'|] eqn:Es.
    + destruct (type_scan_some _ _ _ _ Es) as (i'' & Hi'' & Hg'' & Hmax'').
      pose proof Hg'' as Hs''. apply type_group_at_spec in Hs'' as (Ht & Hc & Hk & ->).
      destruct (Hmax i'' m) as [Hlt|[-> _]]; [repeat split; auto; lia| |reflexivity].
      rewrite Hmax'' in Hg0; [discriminate|lia].
    + rewrite (type_scan_none _ _ _ Es i) in Hg0; [discriminate|].
      destruct Hik as (? & _); lia.
Qed.

Section with_os.
Context `{Os}.

(** C33. [_nfs_status()] is [1] exactly when some line of the output of
    [mount -l] (newlines stripped at both ends) has the type group [nfs]
    in the pattern [.+ type ([^\s].+) ], and [0] otherwise: the [break]
    and the skipped empty lines do not change the answer. *)
Theorem nfs_status_any p :
  _nfs_status p =
  if existsb nfs_line (split_on lf (strip_by (fun c => Ascii.eqb c lf) (run (mount p +:+ " -l"))))
  then 1 else 0.
Proof. apply nfs_loop_any. Qed.

End with_os.

(** ** The pattern of [_get_redhat_version] *)

Definition rh_prefix : string := "Red Hat Enterprise Linux ".

(** C36. The hand-decoded matcher is the regular expression
    [Red Hat Enterprise Linux \S+ release ([^\n].+)\n] under [re.match]:
    [rh_match] returns a group exactly when the line is the prefix, one
    word, [' release '], a group of at least two characters without a
    newline, and a newline; the group is that text. *)
Theorem rh_match_regex l g :
  rh_match l = Some g <->
  exists w rest, l = rh_prefix +:+ w +:+ " release " +:+ g +:+ String lf rest /\
    w <> EmptyString /\ all_chars (fun c => negb (is_space c)) w = true /\
    all_chars not_lf g = true /\ 2 <= String.length g.
Proof.
  unfold rh_match. fold rh_prefix. split.
  - destruct (String.prefix rh_prefix l) eqn:Hp; [|discriminate].
    destruct (prefix_split _ _ Hp) as [r1 ->]. rewrite substring_after by (rewrite length_app_str; lia).
    destruct (span (fun c => negb (is_space c)) r1) as [w r2] eqn:Ew.
    destruct (span_spec _ _ _ _ Ew) as (-> & Hw & _).
    destruct (negb (String.eqb w EmptyString) && String.prefix " release " r2) eqn:Hr; [|discriminate].
    apply andb_prop in Hr as [Hwne Hrel]. destruct (prefix_split _ _ Hrel) as [r3 ->].
    change 9 with (String.length " release "). rewrite substring_after by (rewrite length_app_str; lia).
    destruct (span not_lf r3) as [g' r4] eqn:Eg. destruct (span_spec _ _ _ _ Eg) as (-> & Hg & _).
    destruct (Nat.leb 2 (String.length g') && String.prefix (String lf EmptyString) r4) eqn:Hl;
      [|discriminate].
    apply andb_prop in Hl as [Hlen Hlf]. destruct (prefix_split _ _ Hlf) as [rest ->].
    intros H; inv H. exists w, rest. split; [reflexivity|].
    split; [now destruct (String.eqb_spec w EmptyString)|].
    split; [exact Hw|]. split; [exact Hg|]. now apply Nat.leb_le.
  - intros (w & rest & -> & Hwne & Hw & Hg & Hlen). rewrite prefix_app.
    rewrite substring_after by (rewrite !length_app_str; lia).
    rewrite span_app by (exact Hw || reflexivity).
    replace (negb (String.eqb w EmptyString)) with true by (now destruct (String.eqb_spec w EmptyString)).
    rewrite prefix_app. cbn [andb]. change 9 with (String.length " release ").
    rewrite substring_after by (rewrite !length_app_str; lia).
    rewrite span_app by (exact Hg || reflexivity).
    apply Nat.leb_le in Hlen. rewrite Hlen.
    replace (String.prefix (String lf EmptyString) (String lf rest)) with true
      by (symmetry; exact (prefix_app (String lf EmptyString) rest)).
    reflexivity.
Qed.

End SystemFacts.

Module IPTablesFacts.
Import IPTables.

(** C37. A chain specification [:<name> <policy> [<packets>:<bytes>]]
    (three or more fields) loses everything after the policy, counters
    included; a chain line of two fields is kept as it is. *)
Theorem chain_line_drops_counters n pol rest :
  word n -> word pol -> Forall word rest ->
  chain_line (String ":" (join " " (n :: pol :: rest))) =
  match rest with
  | [] => String ":" (join " " [n; pol])
  | _ => String ":" (n +:+ " " +:+ pol)
  end.
Proof.
  intros Hn Hpol Hrest.
  assert (Hcn : word (String ":" n)).
  { destruct Hn as [_ Hn]. split; [discriminate|]. unfold all_chars in *; simpl. now rewrite Hn. }
  unfold chain_line. change (String ":" (join " " (n :: pol :: rest)))
    with (join " " (String ":" n :: pol :: rest)).
  rewrite split_ws_join by (constructor; [exact Hcn|constructor; [exact Hpol|exact Hrest]]).
  destruct rest as [|cnt rest]; [reflexivity|].
  rewrite (strip_word _ Hcn), (strip_word _ Hpol). cbn [String.eqb negb].
  change (String.length (String ":" n)) with (S (String.length n)).
  cbn [String.substring]. rewrite substring_all by lia. reflexivity.
Qed.

End IPTablesFacts.

Module ServicesFacts.
Import Services.

(** The entry one line of [lsof -ni -P] contributes: none for an empty or
    non-listening line, otherwise [(chunks[0], chunks[-2].split(':')[1])],
    with the [IndexError]s of the indexing. *)
Definition service_entry (line : string) : result (list (string * string)) :=
  if String.eqb line EmptyString then Ok [] else
  let chunks := re_split_ws line in
  if negb (mem "(LISTEN)" chunks) then Ok [] else
  let* proc := nth_py chunks 0 in
  let* full := nth_from_end chunks 2 in
  let* port := colon_field full in
  Ok [(proc, port)].

(** The entries of all lines, in order; the first failing line raises. *)
Definition listen_entries (lines : list string) : result (list (string * string)) :=
  fold_res (fun es l => let* e := service_entry l in Ok (es ++ e)) lines [].

(** [ports_dict[proc_name] = port] for the entries in order. *)
Definition insert_entries (es : list (string * string)) (d : dict string) : dict string :=
  List.fold_left (fun d e => <[fst e := snd e]> d) es d.

Lemma insert_entries_map pre es (d0 : dict string) :
  insert_entries es (list_to_map (rev pre) ∪ d0) = list_to_map (rev (pre ++ es)) ∪ d0.
Proof.
  revert pre; induction es as [|[k v] es IH]; intros pre; [now rewrite app_nil_r|].
  cbn [insert_entries List.fold_left fst snd]. fold (insert_entries es).
  rewrite insert_union_l, <- list_to_map_cons.
  replace ((k, v) :: rev pre) with (rev (pre ++ [(k, v)])) by now rewrite rev_app_distr.
  now rewrite IH, <- app_assoc.
Qed.

Lemma service_line_entry d line :
  service_line d line = fmap_result (fun e => insert_entries e d) (service_entry line).
Proof.
  unfold service_line, service_entry. destruct (String.eqb line EmptyString); [reflexivity|].
  destruct (negb (mem _ _)); [reflexivity|].
  destruct (nth_py _ 0); [|reflexivity]. simpl. destruct (nth_from_end _ 2); [|reflexivity]. simpl.
  destruct (colon_field _); reflexivity.
Qed.

Lemma fold_services lines : forall es (d0 : dict string),
  fold_res service_line lines (list_to_map (rev es) ∪ d0) =
  fmap_result (fun es' => list_to_map (rev es') ∪ d0)
    (fold_res (fun es l => let* e := service_entry l in Ok (es ++ e)) lines es).
Proof.
  induction lines as [|l ls IH]; intros es d0; [reflexivity|]. cbn [fold_res].
  rewrite service_line_entry. destruct (service_entry l) as [e|x]; [|reflexivity].
  cbn [fmap_result bind]. rewrite insert_entries_map. apply IH.
Qed.

Section with_os.
Context `{Os}.

(** C34. [get_services()] is the dict of the entries of the listening
    lines, the last entry of a process winning: it raises exactly when
    reading some line's entry raises (the first such line decides the
    exception), and otherwise maps each process name to the port of its
    last [(LISTEN)] line. *)
Theorem get_services_entries p :
  get_services p =
  fmap_result (fun es => list_to_map (rev es)) (listen_entries (split_on lf (run (lsof p +:+ " -ni -P")))).
Proof.
  unfold get_services, listen_entries.
  assert (E : (∅ : dict string) = list_to_map (rev []) ∪ ∅) by (simpl; now rewrite (right_id_L ∅ (∪))).
  rewrite E at 1. rewrite fold_services.
  destruct (fold_res _ _ _); simpl; [now rewrite (right_id_L ∅ (∪))|reflexivity].
Qed.

End with_os.

End ServicesFacts.

(** ** The collectors on concrete command output *)

Module ScrapeExamples.
Import InterfacesFacts.

(** A shell that answers each known command with a fixed output. *)
Definition shell (outs : list (string * string)) (ip : option string) : Os := {|
  run := fun c => match List.find (fun e => String.eqb (fst e) c) outs with
                  | Some e => snd e | None => EmptyString end;
  host_ip := ip;
  abspath := fun s => s
|}.

Definition paths : Paths :=
  mk_paths "/opt/client" "/etc/redhat-release" "/proc/sys/net/ipv4/ip_forward"
    "/var/log/rpmpkgs" "/etc/ssh/sshd_config" "/sbin/service iptables" "/etc/php.ini"
    "/etc/my.cnf" "/sbin/ifconfig" "/bin/hostname" "/bin/uname" "/bin/mount"
    "/usr/sbin/lsof" "/sbin/iptables-save".

Definition nl : string := String lf EmptyString.

(** The [ifconfig] output of one interface, in the [net-tools] format. *)
Definition ifconfig_out : string :=
  "eth0      Link encap:Ethernet  HWaddr 00:0C:29:3B:5A:1E" +:+ nl +:+
  "          inet addr:192.168.1.10  Bcast:192.168.1.255  Mask:255.255.255.0" +:+ nl +:+
  "          UP BROADCAST RUNNING MULTICAST  MTU:1500  Metric:1" +:+ nl +:+ nl.

Definition os_ifc : Os := shell [("/sbin/ifconfig", ifconfig_out)] None.

Definition ifc_dict : dict Interfaces.iface :=
  match @Interfaces.get_interfaces os_ifc paths with Ok d => d | Raise _ => ∅ end.

(** Witness of C27: the second line of the output makes [inet] a key. *)
Lemma every_line_is_interface_witness : ifc_dict !! "inet" <> None.
Proof.
  apply (@every_line_is_interface os_ifc paths ifc_dict eq_refl
           ("          inet addr:192.168.1.10  Bcast:192.168.1.255  Mask:255.255.255.0")
           "inet" ["addr:192.168.1.10"; "Bcast:192.168.1.255"; "Mask:255.255.255.0"]);
    vm_compute; auto.
Defined.

(** The address and the netmask of [eth0] are filed under the key [inet],
    [eth0] keeps only its MAC address, and a line of blanks in the output
    makes [ls[0]] raise [IndexError]. *)
Theorem ifconfig_address_misfiled :
  fmap_result (fun d => (d !! "eth0", d !! "inet"))
    (@Interfaces.get_interfaces os_ifc paths) =
  Ok (Some (Interfaces.mk_iface "" "00:0c:29:3b:5a:1e" ""),
      Some (Interfaces.mk_iface "192.168.1.10" "" "255.255.255.0")) /\
  @Interfaces.get_interfaces (shell [("/sbin/ifconfig", "lo   Link" +:+ nl +:+ "   " +:+ nl)] None) paths =
  Raise (IndexError "list index out of range").
Proof. vm_compute. split; reflexivity. Qed.

(** [_nfs_status()] sees an NFS mount only when the type is exactly [nfs]:
    an NFSv4 mount ([type nfs4]) is not counted. *)
Theorem nfs4_not_counted :
  @System._nfs_status (shell [("/bin/mount -l", "srv:/export on /mnt type nfs (rw,addr=10.0.0.2)" +:+ nl)] None) paths = 1 /\
  @System._nfs_status (shell [("/bin/mount -l", "srv:/export on /mnt type nfs4 (rw,addr=10.0.0.2)" +:+ nl)] None) paths = 0.
Proof. vm_compute. split; reflexivity. Qed.

(** [get_services()] keeps one port per process name, the last one listed,
    and takes the field after the first colon: an IPv6 listener [[::]:22]
    gives the empty port; a [(LISTEN)] line whose address has no colon
    raises [IndexError]. *)
Theorem services_last_port_wins :
  fmap_result (fun d => d !! "sshd")
    (@Services.get_services
       (shell [("/usr/sbin/lsof -ni -P",
                "sshd 1 root 3u IPv4 10 0t0 TCP *:22 (LISTEN)" +:+ nl +:+
                "sshd 1 root 4u IPv6 11 0t0 TCP [::]:22 (LISTEN)" +:+ nl)] None) paths) =
  Ok (Some "") /\
  @Services.get_services (shell [("/usr/sbin/lsof -ni -P", "x 1 TCP any (LISTEN)")] None) paths =
  Raise (IndexError "list index out of range").
Proof. vm_compute. split; reflexivity. Qed.

(** The files the [System] methods read. *)
Definition sys_fs (release : string) : FileSystem :=
  ListFs.listfs [("/etc/redhat-release", [release +:+ nl]);
                 ("/proc/sys/net/ipv4/ip_forward", ["1" +:+ nl])].

Definition sys_os : Os :=
  shell [("/bin/hostname", "web1.example.com" +:+ nl); ("/bin/uname -r", "2.6.32-431.el6.x86_64" +:+ nl);
         ("/bin/mount -l", "/dev/sda1 on / type ext4 (rw)" +:+ nl)] (Some "10.0.0.5").

(** [get_system_dict()] keeps the hostname up to its first dot and the
    release text after [release]; a one-character release number does not
    match the pattern [([^\n].+)] and gives the empty string. *)
Theorem system_dict_example :
  @System.get_system_dict sys_os (sys_fs "Red Hat Enterprise Linux Server release 6.5 (Santiago)") paths =
  System.mk_system "10.0.0.5" "web1" "2.6.32-431.el6.x86_64" "6.5 (Santiago)" 0 1 /\
  @System._get_redhat_version (sys_fs "Red Hat Enterprise Linux Server release 7") paths = "".
Proof. vm_compute. split; reflexivity. Qed.

(** The output of [iptables-save] for one table. *)
Definition ipt_out : string :=
  "# Generated by iptables-save v1.4.7" +:+ nl +:+ "*filter" +:+ nl +:+
  ":INPUT ACCEPT [120:9000]" +:+ nl +:+ ":FORWARD DROP [0:0]" +:+ nl +:+
  "-A INPUT -p tcp --dport 22 -j ACCEPT" +:+ nl +:+ "COMMIT" +:+ nl +:+
  "# Completed on Mon" +:+ nl.

Definition ipt_os : Os := shell [("/sbin/iptables-save", ipt_out); ("/sbin/service iptables status", "Table: filter" +:+ nl)] None.

(** [get_ipt_dict()] drops the counters of the chain lines and the two
    comment lines of [iptables-save], with comments kept or not. *)
Theorem iptables_rules_example :
  @IPTables.get_ipt_dict ipt_os false paths =
  Ok (IPTables.mk_ipt 1 ("*filter" +:+ nl +:+ ":INPUT ACCEPT" +:+ nl +:+ ":FORWARD DROP" +:+ nl +:+
                         "-A INPUT -p tcp --dport 22 -j ACCEPT" +:+ nl +:+ "COMMIT" +:+ nl)) /\
  @IPTables.get_ipt_dict ipt_os true paths = @IPTables.get_ipt_dict ipt_os false paths.
Proof. vm_compute. split; reflexivity. Qed.

(** Witness of C37 on the chain line [:INPUT ACCEPT [120:9000]]. *)
Lemma chain_line_drops_counters_witness :
  IPTables.chain_line (String ":" (join " " ["INPUT"; "ACCEPT"; "[120:9000]"])) = ":INPUT ACCEPT".
Proof.
  apply (IPTablesFacts.chain_line_drops_counters "INPUT" "ACCEPT" ["[120:9000]"]);
    repeat constructor; discriminate.
Defined.

End ScrapeExamples.
