(* ===== verification/Ini.v ===== *)
(** * Ini: [PHPConfig] and [MySQLConfig] ([src/client/inventory.py])

    Both classes read an INI file twice: once as lines for [clean_body],
    once through the [ConfigParser] library for the dict of items, in which
    the values of a key from all sections are merged in order.  The library
    is the interface [IniParser]: from the lines of a file, the list of
    sections with their [(key, value)] items, or the exception [readfp]
    raises on a malformed file.  The two classes are one code with two
    constants (the file and the comment prefix), so [get_items] and
    [config_parse] are written once and instantiated twice.  On [IOError]
    the result's ['items'] is the list [[]], not a dict: the type of the
    field depends on the path taken, which [py_items] records. *)

From stdpp Require Import gmap strings.
From Stdlib Require Import Ascii.
From S2P Require Import Prelude PyStr Node Parser Lines FileSystem Config Scrape.
Import PyStr ApacheConfig.

(** [ConfigParser().readfp(f)], then [sections()] and [items(section)]. *)
Class IniParser := {
  ini_parse : list string -> result (list (string * list (string * string)))
}.

Module IniConfig.

(** The value of ['items']: a dict, or the list [[]] of the [IOError] path. *)
Inductive py_items :=
  | ItemsDict (d : dict (list string))
  | ItemsList (l : list string).

(** [{'body': ..., 'items': ..., 'filename': ...}] *)
Record ini_dict := mk_ini {
  ini_body : string;
  ini_items : py_items;
  ini_filename : string
}.

(** [if item[0] in parameters: parameters[item[0]] += [item[1]]
     else: parameters[item[0]] = [item[1]]] *)
Definition merge_item (params : dict (list string)) (item : string * string)
  : dict (list string) :=
  let (k, v) := item in
  match params !! k with
  | Some l => <[k := l ++ [v]]> params
  | None => <[k := [v]]> params
  end.

(** [for section in sections: for item in php_config.items(section): ...] *)
Definition merge_sections (sections : list (string * list (string * string)))
  : dict (list string) :=
  List.fold_left (fun params sec => List.fold_left merge_item (snd sec) params) sections ∅.

(** [get_items()] on the file [fname]: no sections when it cannot be
    opened; a [ConfigParser] error propagates. *)
Definition get_items `{FileSystem} `{IniParser} (fname : string) : result (dict (list string)) :=
  let* sections := match read_lines fname with
                   | None => Ok []
                   | Some ls => ini_parse ls
                   end in
  Ok (merge_sections sections).

(** [PHPConfig.get_items()] *)
Definition php_get_items `{FileSystem} `{IniParser} (p : Paths) : result (dict (list string)) :=
  get_items (path_join (root_dir p) (php_ini p)).

(** [MySQLConfig.get_items()] *)
Definition mysql_get_items `{FileSystem} `{IniParser} (p : Paths) : result (dict (list string)) :=
  get_items (path_join (root_dir p) (my_cnf p)).

(** [parse()] of [PHPConfig] with the file [setting] ([PHP_INI]), the
    comment prefix [prefix] and the outcome [items] of [self.get_items()]:
    only [IOError] is caught. *)
Definition config_parse `{FileSystem} (pcc : bool) (root setting prefix : string)
    (items : result (dict (list string))) : result ini_dict :=
  match read_lines (path_join root setting) with
  | None => Ok (mk_ini EmptyString (ItemsList []) EmptyString)
  | Some lines =>
      let* body := clean_body pcc lines prefix in
      let* it := items in
      Ok (mk_ini body (ItemsDict it) setting)
  end.

(** [PHPConfig().parse()] *)
Definition php_parse `{FileSystem} `{IniParser} (pcc : bool) (p : Paths) : result ini_dict :=
  config_parse pcc (root_dir p) (php_ini p) ";" (php_get_items p).

(** [MySQLConfig().parse()] *)
Definition mysql_parse `{FileSystem} `{IniParser} (pcc : bool) (p : Paths) : result ini_dict :=
  config_parse pcc (root_dir p) (my_cnf p) "#" (mysql_get_items p).

End IniConfig.

Module IniFacts.
Import IniConfig ConfigFacts.

(** The values of key [k] over a list of items, in order. *)
Definition item_values (k : string) (items : list (string * string)) : list string :=
  List.map snd (List.filter (fun it => String.eqb (fst it) k) items).

Lemma merge_sections_flat sections :
  merge_sections sections = List.fold_left merge_item (List.flat_map snd sections) ∅.
Proof.
  unfold merge_sections. generalize (∅ : dict (list string)) as d.
  induction sections as [|sec secs IH]; intros d; [reflexivity|].
  simpl. rewrite List.fold_left_app. apply IH.
Qed.

Lemma merge_items_index items : forall pre params,
  (forall k, params !! k = opt_list (item_values k pre)) ->
  forall k, List.fold_left merge_item items params !! k = opt_list (item_values k (pre ++ items)).
Proof.
  induction items as [|[k0 v] items IH]; intros pre params Hp k; simpl.
  - now rewrite app_nil_r.
  - replace (pre ++ (k0, v) :: items) with ((pre ++ [(k0, v)]) ++ items)
      by now rewrite <- app_assoc.
    apply IH. intros k'. unfold item_values. rewrite List.filter_app, List.map_app. simpl.
    fold (item_values k' pre). destruct (String.eqb_spec k0 k') as [<-|Hne].
    + destruct (params !! k0) eqn:E; rewrite lookup_insert_eq;
        rewrite Hp in E; destruct (item_values k0 pre); simpl in *; try (inv E; reflexivity); congruence.
    + rewrite app_nil_r.
      destruct (params !! k0); rewrite lookup_insert_ne by exact Hne; apply Hp.
Qed.

Section with_env.
Context `{FileSystem} `{IniParser}.

(** C29. The type of ['items'] in the result of [PHPConfig.parse] and
    [MySQLConfig.parse] depends on the path taken: a dict when the file
    could be opened, the list [[]] when [open] raised [IOError]. *)
Theorem items_type_depends_on_read pcc root setting prefix items d :
  config_parse pcc root setting prefix items = Ok d ->
  ((exists m, ini_items d = ItemsDict m) <-> read_lines (path_join root setting) <> None).
Proof.
  unfold config_parse. destruct (read_lines (path_join root setting)) as [lines|].
  - intros Hp. bind_ok Hp. bind_ok Hp. inv Hp. simpl. split; [discriminate|eauto].
  - intros Hp. inv Hp. simpl. split; [intros [m Hm]; discriminate|congruence].
Qed.

(** C31. [get_items] merges the items of all sections: every key maps to
    its values in section order and, within a section, in item order. *)
Theorem get_items_merge f lines sections k d :
  read_lines f = Some lines -> ini_parse lines = Ok sections -> get_items f = Ok d ->
  d !! k = opt_list (item_values k (List.flat_map snd sections)).
Proof.
  unfold get_items. intros Hr Hi Hg. rewrite Hr, Hi in Hg. inv Hg.
  rewrite merge_sections_flat. apply (merge_items_index _ []). intros k'.
  now rewrite lookup_empty.
Qed.

End with_env.

End IniFacts.

(** ** A small INI reader for the examples *)

Module IniExamples.
Import IniConfig IniFacts ConfigFacts.

(** One line of an INI file: a [[section]] header, or [key = value] added
    to the last section; blank lines and [;] or [#] comments are skipped.
    An item before any header raises, as [readfp] does. *)
Definition ini_line (secs : list (string * list (string * string))) (raw : string)
  : result (list (string * list (string * string))) :=
  let l := strip raw in
  match l with
  | EmptyString => Ok secs
  | String ";" _ | String "#" _ => Ok secs
  | String "[" rest => Ok (secs ++ [(drop_last rest, [])])
  | _ =>
      match split_on "="%char l, rev secs with
      | k :: v :: _, (nm, items) :: older =>
          Ok (rev older ++ [(nm, items ++ [(strip k, strip v)])])
      | _, _ => Raise (ConfigParserError "MissingSectionHeaderError")
      end
  end.

#[local] Instance simple_ini : IniParser := {| ini_parse := fun ls => fold_res ini_line ls [] |}.

Definition php_lines : list string :=
  ["[PHP]"; "; main settings"; "extension = a.so"; "memory_limit = 128M";
   "[Extra]"; "extension = b.so"].

Definition ini_fs : FileSystem := ListFs.listfs [("/etc/php.ini", php_lines)].

Definition php_result : ini_dict :=
  match @config_parse ini_fs false "/opt/client" "/etc/php.ini" ";"
          (@get_items ini_fs simple_ini "/etc/php.ini") with
  | Ok d => d | Raise _ => mk_ini EmptyString (ItemsList []) EmptyString
  end.

(** Witness of C29 on a readable [php.ini]. *)
Lemma items_type_depends_on_read_witness :
  (exists m, ini_items php_result = ItemsDict m) <->
  @read_lines ini_fs (path_join "/opt/client" "/etc/php.ini") <> None.
Proof.
  apply (@items_type_depends_on_read ini_fs false "/opt/client" "/etc/php.ini" ";"
           (@get_items ini_fs simple_ini "/etc/php.ini")).
  vm_compute. reflexivity.
Defined.

Definition php_items : dict (list string) :=
  match @get_items ini_fs simple_ini "/etc/php.ini" with Ok d => d | Raise _ => ∅ end.

(** Witness of C31: [extension] is merged over the two sections. *)
Lemma get_items_merge_witness :
  php_items !! "extension" =
  opt_list (item_values "extension"
    (List.flat_map snd [("PHP", [("extension", "a.so"); ("memory_limit", "128M")]);
                        ("Extra", [("extension", "b.so")])])).
Proof.
  apply (@get_items_merge ini_fs simple_ini "/etc/php.ini" php_lines); vm_compute; reflexivity.
Defined.

(** [PHPConfig.parse] on a missing file and on a malformed one: the first
    returns the list [[]] as ['items'], the second lets the
    [ConfigParser] error escape. *)
Theorem php_parse_paths :
  @php_parse (ListFs.listfs []) simple_ini false ScrapeExamples.paths =
  Ok (mk_ini EmptyString (ItemsList []) EmptyString) /\
  @php_parse (ListFs.listfs [("/etc/php.ini", ["x = 1"])]) simple_ini false ScrapeExamples.paths =
  Raise (ConfigParserError "MissingSectionHeaderError").
Proof. vm_compute. split; reflexivity. Qed.

End IniExamples.
