(* ===== verification/Client.v ===== *)
(** * Client: the settings of [src/client/common.py] and the script
    [src/client/client.py]

    [read_settings] is the top of [common.py], run when [client.py]
    imports it: [settings.conf] is read with [ConfigParser] (the
    [IniParser] interface) and every constant is taken from it in the
    source's order, so the first missing option decides the exception.
    [collect] is the part of [client.py] that calls every collector in
    turn; [client_main] is the whole script: the import, the XML-RPC proxy,
    the authentication, then [collect].  The transport itself
    ([xmlrpclib]) is not modelled: [client_main] ends with the payload the
    script would send. *)

From stdpp Require Import gmap strings.
From Stdlib Require Import Ascii.
From S2P Require Import Prelude PyStr Node Parser Lines FileSystem Config Includes SshConfig Scrape Ini.
Import PyStr ApacheConfig ApacheConfigList.

Module ClientSettings.

(** The constants of [common.py]. *)
Record client_settings := mk_client {
  host : string;
  port : string;
  auth_key : string;
  debug_flag : bool;
  client_paths : Paths;
  apache_root_s : string;
  apache_conf_s : string;
  ignore_directives : list string;
  pcc_flag : bool
}.

(** The four settings the parser and the walker read. *)
Definition to_settings (cs : client_settings) : Settings :=
  mk_settings (apache_root_s cs) (apache_conf_s cs) (debug_flag cs) (pcc_flag cs).

(** The value of the last item [key] in [items]. *)
Fixpoint last_value (key : string) (items : list (string * string)) : option string :=
  match items with
  | [] => None
  | (k, v) :: rest =>
      match last_value key rest with
      | Some w => Some w
      | None => if String.eqb k key then Some v else None
      end
  end.

(** [client_config.get(section, option)] *)
Definition cfg_get (secs : list (string * list (string * string))) (sec key : string)
  : result string :=
  match List.find (fun s => String.eqb (fst s) sec) secs with
  | None => Raise (ConfigParserError ("No section: '" +:+ sec +:+ "'"))
  | Some s =>
      match last_value key (snd s) with
      | Some v => Ok v
      | None => Raise (ConfigParserError ("No option '" +:+ key +:+ "' in section: '" +:+ sec +:+ "'"))
      end
  end.

(** [x.lower() == 'true' and True or False] *)
Definition is_true (v : string) : bool := String.eqb (lower v) "true".

(** The top of [common.py], [ROOT] being the client's directory. *)
Definition read_settings `{FileSystem} `{IniParser} `{Os} (root : string)
  : result client_settings :=
  let fn := path_join root "settings.conf" in
  let* secs := match read_lines fn with
               | None => Raise (SystemExit ("Error: Cannot open inventory configuration file '"
                                            +:+ fn +:+ "'"))
               | Some ls => ini_parse ls
               end in
  let get := cfg_get secs in
  let* host := get "server" "host" in
  let* port := get "server" "port" in
  let* auth_key := get "server" "auth_key" in
  let* dbg := get "server" "debug" in
  let* rh := get "paths" "rh_release" in
  let* ipf := get "paths" "ip_forward" in
  let* rpm := get "paths" "rpm_pkgs" in
  let* ssh := get "paths" "ssh_config_file" in
  let* ipt := get "paths" "iptables" in
  let* php := get "paths" "php_ini" in
  let* mycnf := get "paths" "my_cnf" in
  let* ifc := get "paths" "ifconfig" in
  let* hn := get "paths" "hostname" in
  let* un := get "paths" "uname" in
  let* mnt := get "paths" "mount" in
  let* lsf := get "paths" "lsof" in
  let* ipt2 := get "paths" "iptables" in
  let* ipts := get "paths" "iptables_save" in
  let* sroot := get "apache" "server_root" in
  let* conf := get "apache" "conf_file" in
  let* ign := get "apache" "ignore_directives" in
  let* pcc := get "miscellaneous" "parse_conf_comments" in
  Ok (mk_client host port auth_key (is_true dbg)
        (mk_paths root (abspath rh) (abspath ipf) (abspath rpm) (abspath ssh) ipt2 php mycnf
           ifc hn un mnt lsf ipts)
        (abspath sroot) (abspath conf) (List.map strip (split_on ","%char ign)) (is_true pcc)).

End ClientSettings.

Module ClientScript.
Import ClientSettings.

(** The names bound at module level in [client.py] when line 13 runs:
    those [from common import *] and [from inventory import *] bring in,
    then [xmlrpclib], [sys], [proxy] and [multicall]. *)
Definition client_globals : list string :=
  PyGlobals.common_globals ++
  ["subprocess"; "string";
   "glob"; "ApacheNode"; "ApacheConfig"; "Interfaces"; "System"; "Services"; "RPMs";
   "SSHConfig"; "IPTables"; "ApacheConfigList"; "PHPConfig"; "MySQLConfig"; "xmlrpclib";
   "proxy"; "multicall"].

(** A value the script can pass to the server: the text of a setting, or
    another object, by its name. *)
Inductive pyval :=
  | PyText (s : string)
  | PyObject (what : string).

(** The value of a bound global: the three settings of [[server]] are
    texts. *)
Definition global_value (cs : client_settings) (n : string) : pyval :=
  if String.eqb n "HOST" then PyText (host cs)
  else if String.eqb n "PORT" then PyText (port cs)
  else if String.eqb n "AUTH_KEY" then PyText (auth_key cs)
  else PyObject n.

(** Evaluating a global name at module level: [NameError] when no module
    bound it. *)
Definition lookup_global (cs : client_settings) (n : string) : result pyval :=
  let* _ := lookup_name client_globals "name " n in
  Ok (global_value cs n).

(** [xmlrpclib.ServerProxy(uri)]: the scheme before the first [:] must be
    [http] or [https], in any case. *)
Definition server_proxy (uri : string) : result unit :=
  let (scheme, rest) := span (fun c => negb (Ascii.eqb c ":"%char || Ascii.eqb c "/"%char)) uri in
  match rest with
  | String ":" _ =>
      if String.eqb (lower scheme) "http" || String.eqb (lower scheme) "https" then Ok tt
      else Raise (IOError "unsupported XML-RPC protocol")
  | _ => Raise (IOError "unsupported XML-RPC protocol")
  end.

(** The arguments of [multicall.machine(...)]. *)
Record machine := mk_machine {
  m_ip : dict Interfaces.iface;
  m_system : System.system_dict;
  m_services : dict string;
  m_rpms : string;
  m_ssh : SSHConfig.ssh_dict;
  m_ipt : IPTables.ipt_dict;
  m_acl : list apache_record;
  m_php : IniConfig.ini_dict;
  m_mycnf : IniConfig.ini_dict
}.

(** A call queued on [multicall]: [multicall.authenticate(token)] and
    [multicall.machine(...)]. *)
Inductive rpc_call :=
  | Authenticate (token : pyval)
  | SendMachine (m : machine).

(** [multicall()]: the queued calls go to the server at [uri] as one
    [system.multicall]; the answer is one entry per call, the text ([%s])
    of its value or the exception [MultiCallIterator.__getitem__] raises
    for it ([Fault], [ValueError]).  A failure of the transport itself
    (socket, protocol) raises from the whole call. *)
Class Transport := {
  multicall_send : string -> list rpc_call -> result (list (result string))
}.

(** What running the script does: the requests it sends, the lines it
    prints, and the exception that ends it, if any. *)
Record outcome := mk_outcome {
  sent : list (string * list rpc_call);
  printed : list string;
  raised : option exn
}.

(** An exception before anything is sent or printed. *)
Definition raised_only (e : exn) : outcome := mk_outcome [] [] (Some e).

(** [result[i]] on the [MultiCallIterator]. *)
Definition result_at (rs : list (result string)) (i : nat) : result string :=
  match nth_error rs i with
  | Some r => r
  | None => Raise (IndexError "list index out of range")
  end.

(** Lines 44-49: [result = multicall()] and the two prints. *)
Definition report `{Transport} (uri : string) (calls : list rpc_call) : outcome :=
  let sent := [(uri, calls)] in
  match multicall_send uri calls with
  | Raise e => mk_outcome sent [] (Some e)
  | Ok rs =>
      match result_at rs 0 with
      | Raise e => mk_outcome sent [] (Some e)
      | Ok r0 =>
          let l0 := "Authentication:  " +:+ r0 in
          match result_at rs 1 with
          | Raise e => mk_outcome sent [l0] (Some e)
          | Ok r1 => mk_outcome sent [l0; "Received machine info:  " +:+ r1] None
          end
      end
  end.

(** Lines 16-41 of [client.py]: every collector in the script's order; an
    exception of any of them ends the script, and the include walk may run
    out of fuel. *)
Definition collect `{FileSystem} `{IniParser} `{Os} (cs : client_settings) (fuel : nat)
  : option (result machine) :=
  let p := client_paths cs in
  let pcc := pcc_flag cs in
  let first :=
    let* ip_dict := Interfaces.get_interfaces p in
    let system_dict := System.get_system_dict p in
    let* services_dict := Services.get_services p in
    let rpms_dict := RPMs.get_rpms p in
    let* sshconfig_dict := SSHConfig.parse pcc (root_dir p) (ssh_config_file p) in
    let* ipt_dict := IPTables.get_ipt_dict pcc p in
    Ok (ip_dict, system_dict, services_dict, rpms_dict, sshconfig_dict, ipt_dict) in
  match first with
  | Raise e => Some (Raise e)
  | Ok (ip_dict, system_dict, services_dict, rpms_dict, sshconfig_dict, ipt_dict) =>
      match get_apache_configs (to_settings cs) fuel with
      | None => None
      | Some (Raise e) => Some (Raise e)
      | Some (Ok acl_list) =>
          Some (let* phpini_dict := IniConfig.php_parse pcc p in
                let* mycnf_dict := IniConfig.mysql_parse pcc p in
                Ok (mk_machine ip_dict system_dict services_dict rpms_dict sshconfig_dict
                      ipt_dict acl_list phpini_dict mycnf_dict))
      end
  end.

(** The script: the import of [common] reads the settings, line 8 builds
    the proxy, line 13 evaluates [AUTH_TOKEN] for the queued
    [authenticate] call, the collectors run, and lines 43-49 send the
    queue and print the answers; [None] when the include walk runs out of
    fuel. *)
Definition client_main `{FileSystem} `{IniParser} `{Os} `{Transport} (root : string) (fuel : nat)
  : option outcome :=
  match read_settings root with
  | Raise e => Some (raised_only e)
  | Ok cs =>
      let uri := host cs +:+ ":" +:+ port cs in
      match server_proxy uri with
      | Raise e => Some (raised_only e)
      | Ok _ =>
          match lookup_global cs "AUTH_TOKEN" with
          | Raise e => Some (raised_only e)
          | Ok token =>
              match collect cs fuel with
              | None => None
              | Some (Raise e) => Some (raised_only e)
              | Some (Ok m) => Some (report uri [Authenticate token; SendMachine m])
              end
          end
      end
  end.

End ClientScript.

Module ClientFacts.
Import ClientSettings ClientScript.

Section with_env.
Context `{FileSystem} `{IniParser} `{Os} `{Transport}.

(** C30. The script never reaches the collectors: whatever the files, the
    commands and the server, [client_main] raises before it sends or prints
    anything, and once the settings are read and the proxy built, the
    exception is the [NameError] of [AUTH_TOKEN] ([common.py] defines
    [AUTH_KEY]). *)
Theorem client_always_raises root fuel :
  exists e, client_main root fuel = Some (raised_only e) /\
    (forall cs, read_settings root = Ok cs -> server_proxy (host cs +:+ ":" +:+ port cs) = Ok tt ->
     e = NameError "name 'AUTH_TOKEN' is not defined").
Proof.
  unfold client_main. destruct (read_settings root) as [cs|e] eqn:Hs.
  - destruct (server_proxy _) as [[]|e] eqn:Hp.
    + eexists; split; [reflexivity|]. reflexivity.
    + exists e. split; [reflexivity|]. intros cs' Hcs. inv Hcs. congruence.
  - exists e. split; [reflexivity|]. discriminate.
Qed.

(** The payload of [multicall.machine] is made of the collectors'
    results, each in its own argument and unchanged: [collect] returns a
    machine exactly when every collector, run on the settings' paths,
    returns the corresponding field. *)
Theorem collect_payload cs fuel m :
  collect cs fuel = Some (Ok m) <->
  Interfaces.get_interfaces (client_paths cs) = Ok (m_ip m) /\
  System.get_system_dict (client_paths cs) = m_system m /\
  Services.get_services (client_paths cs) = Ok (m_services m) /\
  RPMs.get_rpms (client_paths cs) = m_rpms m /\
  SSHConfig.parse (pcc_flag cs) (root_dir (client_paths cs)) (ssh_config_file (client_paths cs))
    = Ok (m_ssh m) /\
  IPTables.get_ipt_dict (pcc_flag cs) (client_paths cs) = Ok (m_ipt m) /\
  get_apache_configs (to_settings cs) fuel = Some (Ok (m_acl m)) /\
  IniConfig.php_parse (pcc_flag cs) (client_paths cs) = Ok (m_php m) /\
  IniConfig.mysql_parse (pcc_flag cs) (client_paths cs) = Ok (m_mycnf m).
Proof.
  unfold collect. destruct m as [ip sy sv rp ss it ac ph my]; cbn [m_ip m_system m_services m_rpms m_ssh m_ipt m_acl m_php m_mycnf].
  destruct (Interfaces.get_interfaces _) as [ip'|e]; [|split; [discriminate|intuition congruence]].
  destruct (Services.get_services _) as [sv'|e]; [|split; [discriminate|intuition congruence]].
  destruct (SSHConfig.parse _ _ _) as [ss'|e]; [|split; [discriminate|intuition congruence]].
  destruct (IPTables.get_ipt_dict _ _) as [it'|e]; [|split; [discriminate|intuition congruence]].
  cbn [bind]. destruct (get_apache_configs _ _) as [[ac'|e]|]; [|split; [discriminate|intuition congruence]..].
  destruct (IniConfig.php_parse _ _) as [ph'|e]; [|split; [discriminate|intuition congruence]].
  destruct (IniConfig.mysql_parse _ _) as [my'|e]; [|split; [discriminate|intuition congruence]].
  split; [intros H'; inv H'; intuition reflexivity|].
  intros ?. destruct_and!. simplify_eq. reflexivity.
Qed.

End with_env.

End ClientFacts.

(** ** The script on a concrete host *)

Module ClientExamples.
Import ClientSettings ClientScript IniExamples.

Definition settings_lines : list string :=
  ["[server]"; "host = http://inventory.example.com"; "port = 8000"; "auth_key = k";
   "debug = False"; "[paths]"; "rh_release = /etc/redhat-release";
   "ip_forward = /proc/sys/net/ipv4/ip_forward"; "rpm_pkgs = /var/log/rpmpkgs";
   "ssh_config_file = /etc/ssh/sshd_config"; "iptables = /sbin/service iptables";
   "php_ini = /etc/php.ini"; "my_cnf = /etc/my.cnf"; "ifconfig = /sbin/ifconfig";
   "hostname = /bin/hostname"; "uname = /bin/uname"; "mount = /bin/mount";
   "lsof = /usr/sbin/lsof"; "iptables_save = /sbin/iptables-save"; "[apache]";
   "server_root = /etc/httpd"; "conf_file = /etc/httpd/conf/httpd.conf";
   "ignore_directives = LoadModule, AddType"; "[miscellaneous]";
   "parse_conf_comments = True"].

Definition host_fs : FileSystem :=
  ListFs.listfs [("/opt/client/settings.conf", settings_lines)].

Definition host_os : Os := ScrapeExamples.shell [] None.

(** A server that answers every [system.multicall] with [answers]. *)
Definition server (answers : list (result string)) : Transport :=
  {| multicall_send := fun _ _ => Ok answers |}.

(** [settings.conf] gives the settings, the comma-separated list of
    ignored directives stripped; without its [[apache]] section the import
    of [common.py] raises [NoSectionError]; and the script itself stops at
    [AUTH_TOKEN]. *)
Theorem settings_and_script_example :
  fmap_result (fun cs => (debug_flag cs, pcc_flag cs, ignore_directives cs, apache_conf_s cs))
    (@read_settings host_fs simple_ini host_os "/opt/client") =
  Ok (false, true, ["LoadModule"; "AddType"], "/etc/httpd/conf/httpd.conf") /\
  @read_settings (ListFs.listfs [("/opt/client/settings.conf", firstn 19 settings_lines)])
    simple_ini host_os "/opt/client" =
  Raise (ConfigParserError "No section: 'apache'") /\
  @client_main host_fs simple_ini host_os (server [Ok "True"; Ok "True"]) "/opt/client" 5 =
  Some (raised_only (NameError "name 'AUTH_TOKEN' is not defined")).
Proof. vm_compute. repeat split. Qed.

Definition uri : string := "http://inventory.example.com:8000".
Definition queue : list rpc_call := [Authenticate (PyText "k")].

(** Lines 44-49 on the answers of a server: both answers printed, or the
    first one printed before [result[1]] raises [IndexError], or a [Fault]
    of the first call raised before anything is printed. *)
Theorem report_prints_answers :
  @report (server [Ok "True"; Ok "True"]) uri queue =
  mk_outcome [(uri, queue)] ["Authentication:  True"; "Received machine info:  True"] None /\
  @report (server [Ok "True"]) uri queue =
  mk_outcome [(uri, queue)] ["Authentication:  True"] (Some (IndexError "list index out of range")) /\
  @report (server [Raise (XmlRpcFault "1: bad key"); Ok "True"]) uri queue =
  mk_outcome [(uri, queue)] [] (Some (XmlRpcFault "1: bad key")).
Proof. vm_compute. repeat split. Qed.

End ClientExamples.
